(** * Streamable HTTP transport of the MCP server (src/http-transport.ts)

    A shallow embedding of the session store, the JSON-RPC dispatcher
    ([processRequest]) and the request router with its three handlers
    ([handlePost], [handleGet], [handleDelete]), followed by the properties
    the specification states about them.

    Modelling conventions.
    - JavaScript numbers are [Z]: the event counter and the JSON numbers that
      occur are integers, exact below 2^53.  A string is a sequence of 8-bit
      characters.
    - A JSON value is the tree [json]; the properties of an object are listed
      in enumeration order; a property that is absent ([undefined]) is [None]
      where one is looked up.  What the tool executor resolves to is a JSON
      value.
    - The module-level [sessions] map is a [gmap string Session].  A session
      object is reached through its key, so the in-place update
      [++session.lastEventId] is an update of the entry under that key.
    - A handler runs in a small state-and-exception monad over the session
      map, the [ServerResponse] being built and the log of the calls made to
      the tool executor.  [Date.now()] and [randomUUID()] are read from an
      environment given with each request; [JSON.parse] and the tool registry
      are parameters (class [Imports]); of the URL only [pathname] is seen.
    - One call of [handleRequest] is one atomic step; interleavings at
      [await] points are outside the model.

    The modules [Tools], [Resources], [Api] and [Server] embed the response
    transformers, the tool registry, tool discovery and the executor's
    dispatch of tools.ts, the resource handler of resources.ts, the client
    of api-client.ts and the handlers and the factory of server.ts.
    - What the REST API answers is typed as types.ts declares it where the
      transformers of tools.ts read it, and is a [json] tree where
      resources.ts and api-client.ts read it.
    - Scores are doubles: their type and [round2] are parameters, as are
      [toLowerCase], base64 decoding, [fetch] and the [URL] class.
    - Logging ([console.error]) and timers are left out. *)

From stdpp Require Import gmap strings list fin_maps pretty sorting.
From Stdlib Require Import ZArith Ascii String Lia.

Set Warnings "-register-all".
Local Open Scope Z_scope.
Local Open Scope string_scope.

(* ===================================================================== *)
(** ** JSON values and the JavaScript conversions used by the transport *)
(* ===================================================================== *)

Inductive json : Type :=
  | JNull
  | JBool (b : bool)
  | JNum (n : Z)
  | JStr (s : string)
  | JArr (items : list json)
  | JObj (props : list (string * json)).

(** Own-property lookup in a property list, in enumeration order. *)
Fixpoint assoc (k : string) (props : list (string * json)) : option json :=
  match props with
  | [] => None
  | (k', v) :: rest => if String.eqb k k' then Some v else assoc k rest
  end.

(** [v.k] for a value that is not null: primitives and arrays have none of
    the properties the transport reads ([id], [method], [params], [name],
    [arguments]). *)
Definition prop (k : string) (v : json) : option json :=
  match v with
  | JObj props => assoc k props
  | _ => None
  end.

(** [v?.k]: a missing or null [v] gives [undefined]. *)
Definition opt_prop (k : string) (v : option json) : option json :=
  match v with
  | Some j => prop k j
  | None => None
  end.

(** JavaScript truthiness of a possibly-undefined JSON value. *)
Definition truthy (v : option json) : bool :=
  match v with
  | None => false
  | Some JNull => false
  | Some (JBool b) => b
  | Some (JNum n) => negb (Z.eqb n 0)
  | Some (JStr s) => negb (String.eqb s "")
  | Some (JArr _) => true
  | Some (JObj _) => true
  end.

Definition join (sep : string) (parts : list string) : string :=
  match parts with
  | [] => ""
  | p :: rest => fold_left (fun acc x => acc +:+ sep +:+ x) rest p
  end.

(** [String(v)], as a template literal computes it; [None] when the
    conversion throws its TypeError.  An object is converted by the
    [toString] it has: [Object.prototype.toString] gives [[object Object]],
    but an own property [toString] of a JSON object is not callable, and
    [valueOf] then gives no primitive either.  An array is joined, each
    item converted in turn, [null] to the empty string. *)
Fixpoint js_string (v : json) : option string :=
  match v with
  | JNull => Some "null"
  | JBool true => Some "true"
  | JBool false => Some "false"
  | JNum n => Some (pretty n)
  | JStr s => Some s
  | JArr items =>
      join "," <$> mapM (fun x => match x with JNull => Some "" | _ => js_string x end) items
  | JObj props =>
      match assoc "toString" props with
      | Some _ => None
      | None => Some "[object Object]"
      end
  end.

(** [`${v}`], [None] when the conversion throws. *)
Definition template (v : option json) : option string :=
  match v with
  | None => Some "undefined"
  | Some j => js_string j
  end.

(** *** JSON.stringify *)

Definition dquote : ascii := "034"%char.
Definition backslash : ascii := "092"%char.
Definition newline : string := String "010"%char "".

Definition hex_digit (n : N) : ascii :=
  ascii_of_N (if (n <? 10)%N then 48 + n else 87 + n).

Definition escape_char (c : ascii) : string :=
  let n := N_of_ascii c in
  if (n =? 34)%N then String backslash (String dquote "")
  else if (n =? 92)%N then String backslash (String backslash "")
  else if (n =? 8)%N then String backslash "b"
  else if (n =? 12)%N then String backslash "f"
  else if (n =? 10)%N then String backslash "n"
  else if (n =? 13)%N then String backslash "r"
  else if (n =? 9)%N then String backslash "t"
  else if (n <? 32)%N then
    String backslash ("u00" +:+ String (hex_digit (n / 16)) (String (hex_digit (n mod 16)) ""))
  else String c "".

Fixpoint escape (s : string) : string :=
  match s with
  | EmptyString => ""
  | String c rest => escape_char c +:+ escape rest
  end.

Definition quote (s : string) : string :=
  String dquote (escape s) +:+ String dquote "".

Fixpoint JSON_stringify (v : json) : string :=
  match v with
  | JNull => "null"
  | JBool true => "true"
  | JBool false => "false"
  | JNum n => pretty n
  | JStr s => quote s
  | JArr items => "[" +:+ join "," (map JSON_stringify items) +:+ "]"
  | JObj props =>
      "{" +:+ join "," (map (fun kv => quote (fst kv) +:+ ":" +:+ JSON_stringify (snd kv)) props)
          +:+ "}"
  end.

(** An object literal some of whose properties may be [undefined]:
    [JSON.stringify] leaves those out. *)
Definition obj (fields : list (string * option json)) : json :=
  JObj (omap (fun kv => match snd kv with
                        | Some v => Some (fst kv, v)
                        | None => None
                        end) fields).

(** [s.includes(sub)] *)
Fixpoint includes (sub s : string) : bool :=
  String.prefix sub s ||
  match s with
  | EmptyString => false
  | String _ rest => includes sub rest
  end.

(** [parseInt(s, 10)]: leading white space, an optional sign, then the
    longest run of decimal digits; [None] is NaN (no digit found).  A header
    value is Latin-1, where the white space characters are these seven. *)
Definition is_space (c : ascii) : bool :=
  let n := N_of_ascii c in
  ((n =? 32) || (n =? 9) || (n =? 10) || (n =? 11) || (n =? 12) || (n =? 13)
   || (n =? 160))%N.

Definition digit_of (c : ascii) : option Z :=
  let n := N_of_ascii c in
  if ((48 <=? n) && (n <=? 57))%N then Some (Z.of_N n - 48) else None.

Fixpoint skip_spaces (s : string) : string :=
  match s with
  | String c rest => if is_space c then skip_spaces rest else s
  | EmptyString => s
  end.

(** The digits read so far are [acc]; [seen] tells whether there was one. *)
Fixpoint digits (seen : bool) (acc : Z) (s : string) : option Z :=
  match s with
  | String c rest =>
      match digit_of c with
      | Some d => digits true (10 * acc + d) rest
      | None => if seen then Some acc else None
      end
  | EmptyString => if seen then Some acc else None
  end.

Definition parseInt (s : string) : option Z :=
  match skip_spaces s with
  | String "-" rest => Z.opp <$> digits false 0 rest
  | String "+" rest => digits false 0 rest
  | t => digits false 0 t
  end.

(** *** JSON.parse on a fragment of JSON

    [JSON.parse] itself is a builtin and enters the model as a parameter
    (class [Imports] below).  The worked examples need it at concrete texts;
    [parse_json] is a reader for the fragment they use: white space, the
    three literals, integers without fraction or exponent, strings with the
    two-character escapes, arrays, and objects whose property names are not
    array indices (a repeated name keeps its first position and its last
    value, as in JavaScript).  [None] is a SyntaxError. *)

Definition is_json_space (c : ascii) : bool :=
  let n := N_of_ascii c in
  ((n =? 32) || (n =? 9) || (n =? 10) || (n =? 13))%N.

Fixpoint skip_ws (s : string) : string :=
  match s with
  | String c rest => if is_json_space c then skip_ws rest else s
  | EmptyString => s
  end.

Definition unescape (c : ascii) : option ascii :=
  let n := N_of_ascii c in
  if ((n =? 34) || (n =? 92) || (n =? 47))%N then Some c
  else if (n =? 98)%N then Some "008"%char
  else if (n =? 102)%N then Some "012"%char
  else if (n =? 110)%N then Some "010"%char
  else if (n =? 114)%N then Some "013"%char
  else if (n =? 116)%N then Some "009"%char
  else None.

(** The text after an opening quote, up to and including the closing one. *)
Fixpoint parse_chars (s : string) : option (string * string) :=
  match s with
  | EmptyString => None
  | String c rest =>
      let n := N_of_ascii c in
      if (n =? 34)%N then Some ("", rest)
      else if (n =? 92)%N then
        match rest with
        | String e rest' =>
            match unescape e, parse_chars rest' with
            | Some c', Some (t, r) => Some (String c' t, r)
            | _, _ => None
            end
        | EmptyString => None
        end
      else if (n <? 32)%N then None
      else match parse_chars rest with
           | Some (t, r) => Some (String c t, r)
           | None => None
           end
  end.

Fixpoint take_digits (acc : Z) (s : string) : Z * string :=
  match s with
  | String c rest =>
      match digit_of c with
      | Some d => take_digits (10 * acc + d) rest
      | None => (acc, s)
      end
  | EmptyString => (acc, s)
  end.

Definition starts_fraction (s : string) : bool :=
  match s with
  | String c _ =>
      let n := N_of_ascii c in ((n =? 46) || (n =? 101) || (n =? 69))%N
  | EmptyString => false
  end.

(** An integer without sign: a lone [0], or a digit 1-9 and more digits. *)
Definition parse_nat (s : string) : option (Z * string) :=
  match s with
  | String c rest =>
      match digit_of c with
      | Some 0 => if starts_fraction rest then None else Some (0, rest)
      | Some d =>
          let (n, r) := take_digits d rest in
          if starts_fraction r then None else Some (n, r)
      | None => None
      end
  | EmptyString => None
  end.

Fixpoint set_prop (k : string) (v : json) (props : list (string * json))
  : list (string * json) :=
  match props with
  | [] => [(k, v)]
  | (k', v') :: rest =>
      if String.eqb k k' then (k, v) :: rest else (k', v') :: set_prop k v rest
  end.

Definition strip_prefix (p s : string) : option string :=
  if String.prefix p s
  then Some (String.substring (String.length p) (String.length s - String.length p) s)
  else None.

Section Reader.
(** The reader of one value, at a smaller nesting budget. *)
Variable value : string -> option (json * string).

(** [s] follows an opening bracket or a comma. *)
Fixpoint parse_elements (n : nat) (acc : list json) (s : string)
  : option (list json * string) :=
  match n with
  | O => None
  | S n' =>
      match value s with
      | Some (v, s1) =>
          match skip_ws s1 with
          | String "," s2 => parse_elements n' (app acc [v]) s2
          | String "]" s2 => Some (app acc [v], s2)
          | _ => None
          end
      | None => None
      end
  end.

(** [s] follows an opening brace or a comma. *)
Fixpoint parse_members (n : nat) (acc : list (string * json)) (s : string)
  : option (list (string * json) * string) :=
  match n with
  | O => None
  | S n' =>
      match skip_ws s with
      | String c s0 =>
          if negb (N_of_ascii c =? 34)%N then None else
          match parse_chars s0 with
          | Some (k, s1) =>
              match skip_ws s1 with
              | String ":" s2 =>
                  match value s2 with
                  | Some (v, s3) =>
                      match skip_ws s3 with
                      | String "," s4 => parse_members n' (set_prop k v acc) s4
                      | String "}" s4 => Some (set_prop k v acc, s4)
                      | _ => None
                      end
                  | None => None
                  end
              | _ => None
              end
          | None => None
          end
      | EmptyString => None
      end
  end.
End Reader.

Fixpoint parse_value (fuel : nat) (s : string) : option (json * string) :=
  match fuel with
  | O => None
  | S fuel' =>
      let t := skip_ws s in
      match t with
      | EmptyString => None
      | String c rest =>
          let n := N_of_ascii c in
          if (n =? 110)%N then (fun r => (JNull, r)) <$> strip_prefix "null" t
          else if (n =? 116)%N then (fun r => (JBool true, r)) <$> strip_prefix "true" t
          else if (n =? 102)%N then (fun r => (JBool false, r)) <$> strip_prefix "false" t
          else if (n =? 34)%N then (fun p => (JStr (fst p), snd p)) <$> parse_chars rest
          else if (n =? 45)%N then (fun p => (JNum (- fst p), snd p)) <$> parse_nat rest
          else if (n =? 91)%N then
            match skip_ws rest with
            | String "]" r => Some (JArr [], r)
            | _ => (fun p => (JArr (fst p), snd p))
                     <$> parse_elements (parse_value fuel') (String.length rest) [] rest
            end
          else if (n =? 123)%N then
            match skip_ws rest with
            | String "}" r => Some (JObj [], r)
            | _ => (fun p => (JObj (fst p), snd p))
                     <$> parse_members (parse_value fuel') (String.length rest) [] rest
            end
          else (fun p => (JNum (fst p), snd p)) <$> parse_nat t
      end
  end.

Definition parse_json (text : string) : option json :=
  match parse_value (S (String.length text)) text with
  | Some (v, rest) =>
      match skip_ws rest with
      | EmptyString => Some v
      | _ => None
      end
  | None => None
  end.

(** A double-quoted token, for writing JSON texts. *)
Definition q (s : string) : string := String dquote s +:+ String dquote "".

(* ===================================================================== *)
(** ** Types *)
(* ===================================================================== *)

Record ErrorObject := { code : Z; message : string }.

(** [JsonRpcResponse]; [jsonrpc] is the constant ["2.0"].  A field that is
    [None] is [undefined]. *)
Record JsonRpcResponse := {
  response_id : option json;
  result : option json;
  error : option ErrorObject;
}.

Record Event := { event_id : Z; data : JsonRpcResponse }.

Record Session := {
  session_id : string;
  createdAt : Z;                 (* milliseconds since the epoch *)
  lastEventId : Z;
  pendingEvents : list Event;
}.

Definition error_json (e : ErrorObject) : json :=
  JObj [("code", JNum (code e)); ("message", JStr (message e))].

(** The response as the object [JSON.stringify] sees: properties in the
    order the object literals of [processRequest] list them. *)
Definition response_json (r : JsonRpcResponse) : json :=
  obj [("jsonrpc", Some (JStr "2.0")); ("id", response_id r);
       ("result", result r); ("error", error_json <$> error r)].

(** A value that was thrown: an [Error] instance (of any subclass) with its
    message, or anything else. *)
Inductive thrown :=
  | ErrorInstance (name msg : string)
  | NonError (v : json).

(** What a template literal throws on a value it cannot convert. *)
Definition not_primitive : thrown :=
  ErrorInstance "TypeError" "Cannot convert object to primitive value".

(** What [await toolExecutor.execute(name, args)] comes to. *)
Inductive ToolOutcome :=
  | Resolved (v : json)
  | Rejected (e : thrown).

Record ToolExecutor := { execute : json -> json -> ToolOutcome }.

Record HttpTransport := {
  toolExecutor : ToolExecutor;
  serverName : string;
  serverVersion : string;
}.

(** What the module imports and does not define: the builtin [JSON.parse]
    ([None]: it throws a SyntaxError) and the registry of tools.ts. *)
Class Imports := {
  JSON_parse : string -> option json;
  TOOL_DEFINITIONS : json;
}.

(** What [readBody] settles to. *)
Inductive BodyResult :=
  | BodyText (text : string)
  | BodyError (e : thrown).

(** The [IncomingMessage], as far as the transport looks at it. *)
Record IncomingMessage := {
  method : string;
  (** [new URL(req.url || "/", `http://${req.headers.host}`).pathname];
      [None] when the constructor throws. *)
  pathname : option string;
  mcp_session_id : option string;
  last_event_id : option string;
  accept : option string;
  body : BodyResult;
}.

(** What is written to the response: the two lines of a server-sent event
    and a plain body.  [wire] below is the text that goes out for each of them. *)
Inductive Chunk :=
  | IdLine (n : Z)
  | DataLine (r : JsonRpcResponse)
  | Body (text : string).

Record ServerResponse := {
  statusCode : option Z;         (* [None] until [writeHead] *)
  headers : list (string * string);
  chunks : list Chunk;
  ended : bool;
}.

(** The clock and the UUID generator, as read during one request. *)
Record Env := { now : Z; uuid : string }.

Record World := {
  sessions : gmap string Session;
  res : ServerResponse;
  toolCalls : list (json * json);
}.

(* ===================================================================== *)
(** ** The handler monad: state over [World], with exceptions *)
(* ===================================================================== *)

Inductive outcome (A : Type) :=
  | Done (a : A)
  | Threw (e : thrown).
Arguments Done {A} a.
Arguments Threw {A} e.

Definition M (A : Type) : Type := World -> outcome A * World.

Definition ret {A} (a : A) : M A := fun w => (Done a, w).

Definition bind {A B} (m : M A) (k : A -> M B) : M B :=
  fun w => match m w with
           | (Done a, w') => k a w'
           | (Threw e, w') => (Threw e, w')
           end.

Definition throw {A} (e : thrown) : M A := fun w => (Threw e, w).

Definition try_catch {A} (m : M A) (handler : thrown -> M A) : M A :=
  fun w => match m w with
           | (Done a, w') => (Done a, w')
           | (Threw e, w') => handler e w'
           end.

Declare Scope js_scope.
Delimit Scope js_scope with js.
Notation "'let*' x := m 'in' k" := (bind m (fun x => k))
  (at level 10, x name, m at level 100, k at level 200) : js_scope.
Notation "m ;; k" := (bind m (fun _ => k))
  (at level 100, k at level 200, right associativity) : js_scope.
Local Open Scope js_scope.

Definition get_sessions : M (gmap string Session) := fun w => (Done (sessions w), w).

Definition modify_sessions (f : gmap string Session -> gmap string Session) : M unit :=
  fun w => (Done tt, {| sessions := f (sessions w); res := res w; toolCalls := toolCalls w |}).

Definition modify_res (f : ServerResponse -> ServerResponse) : M unit :=
  fun w => (Done tt, {| sessions := sessions w; res := f (res w); toolCalls := toolCalls w |}).

Definition set_header (name value : string) (hs : list (string * string))
  : list (string * string) :=
  app (filter (fun kv => negb (String.eqb (fst kv) name)) hs) [(name, value)].

Definition res_setHeader (name value : string) : M unit :=
  modify_res (fun r => {| statusCode := statusCode r;
                          headers := set_header name value (headers r);
                          chunks := chunks r; ended := ended r |}).

Definition res_writeHead (status : Z) (hs : list (string * string)) : M unit :=
  modify_res (fun r => {| statusCode := Some status;
                          headers := fold_left (fun acc kv => set_header (fst kv) (snd kv) acc)
                                               hs (headers r);
                          chunks := chunks r; ended := ended r |}).

Definition res_write (chunk : Chunk) : M unit :=
  modify_res (fun r => {| statusCode := statusCode r; headers := headers r;
                          chunks := app (chunks r) [chunk]; ended := ended r |}).

Definition res_end (chunk : option Chunk) : M unit :=
  modify_res (fun r => {| statusCode := statusCode r; headers := headers r;
                          chunks := app (chunks r) (option_list chunk); ended := true |}).

(** The tool executor is the external collaborator: a call is recorded in
    [toolCalls], and a rejection is thrown at the [await]. *)
Definition call_tool (ex : ToolExecutor) (name args : json) : M json :=
  fun w =>
    let w' := {| sessions := sessions w; res := res w;
                 toolCalls := app (toolCalls w) [(name, args)] |} in
    match execute ex name args with
    | Resolved v => (Done v, w')
    | Rejected e => (Threw e, w')
    end.

(* ===================================================================== *)
(** ** Session store *)
(* ===================================================================== *)

Definition SESSION_TTL_MS : Z := 30 * 60 * 1000.

(** The object literal of [createSession]. *)
Definition new_session (env : Env) : Session :=
  {| session_id := uuid env; createdAt := now env; lastEventId := 0; pendingEvents := [] |}.

Definition createSession (env : Env) : M Session :=
  let session := new_session env in
  modify_sessions (insert (session_id session) session) ;;
  ret session.

(** The session object after an assignment to its [lastEventId]. *)
Definition set_lastEventId (n : Z) (s : Session) : Session :=
  {| session_id := session_id s; createdAt := createdAt s;
     lastEventId := n; pendingEvents := pendingEvents s |}.

Definition getSession (env : Env) (id : string) : M (option Session) :=
  let* m := get_sessions in
  match m !! id with
  | Some session =>
      if now env - createdAt session >? SESSION_TTL_MS
      then modify_sessions (delete id) ;; ret None
      else ret (Some session)
  | None => ret None
  end.

(** The [setInterval] callback: every expired entry is deleted. *)
Definition sweep (now_ms : Z) (m : gmap string Session) : gmap string Session :=
  filter (fun kv => ¬ (now_ms - createdAt (snd kv) > SESSION_TTL_MS)) m.

(* ===================================================================== *)
(** ** HTTP transport handler *)
(* ===================================================================== *)

(** [if (h)] on a header: [undefined] and the empty string are falsy. *)
Definition present (h : option string) : option string :=
  match h with
  | Some EmptyString => None
  | _ => h
  end.

(** [e.id > lastId], false when [lastId] is NaN. *)
Definition id_gt (lastId : option Z) (e : Event) : bool :=
  match lastId with
  | Some n => event_id e >? n
  | None => false
  end.

Definition json_headers : list (string * string) :=
  [("Content-Type", "application/json")].

Definition sse_headers : list (string * string) :=
  [("Content-Type", "text/event-stream"); ("Cache-Control", "no-cache");
   ("Connection", "keep-alive")].

Definition error_body (msg : string) : Chunk :=
  Body (JSON_stringify (JObj [("error", JStr msg)])).

Definition id_line (n : Z) : string := "id: " +:+ pretty n +:+ newline.

Definition data_line (r : JsonRpcResponse) : string :=
  "data: " +:+ JSON_stringify (response_json r) +:+ newline +:+ newline.

Definition wire (c : Chunk) : string :=
  match c with
  | IdLine n => id_line n
  | DataLine r => data_line r
  | Body text => text
  end.

(** The text of the whole response body, as the client receives it. *)
Definition wire_text (r : ServerResponse) : string :=
  fold_right (fun c acc => wire c +:+ acc) "" (chunks r).

(** The event ids of the frames a response carries. *)
Definition frame_ids (r : ServerResponse) : list Z :=
  omap (fun c => match c with IdLine n => Some n | _ => None end) (chunks r).

Definition header (name : string) (r : ServerResponse) : option string :=
  snd <$> find (fun kv => String.eqb (fst kv) name) (headers r).

Definition readBody (req : IncomingMessage) : M string :=
  match body req with
  | BodyText text => ret text
  | BodyError e => throw e
  end.

Definition success (id : option json) (r : json) : JsonRpcResponse :=
  {| response_id := id; result := Some r; error := None |}.

Definition failure (id : option json) (c : Z) (msg : string) : JsonRpcResponse :=
  {| response_id := id; result := None; error := Some {| code := c; message := msg |} |}.

Definition error_message (e : thrown) : string :=
  match e with
  | ErrorInstance _ msg => msg
  | NonError _ => "Unknown error"
  end.

Record HttpTransportOptions := {
  options_toolExecutor : ToolExecutor;
  options_serverName : option string;
  options_serverVersion : option string;
}.

(** The constructor: [options.serverName || "lakehouse42"] and
    [options.serverVersion || "0.1.0"]. *)
Definition new_HttpTransport (options : HttpTransportOptions) : HttpTransport :=
  {| toolExecutor := options_toolExecutor options;
     serverName := default "lakehouse42" (present (options_serverName options));
     serverVersion := default "0.1.0" (present (options_serverVersion options)) |}.

Section Transport.
Context {imports : Imports}.
Variable this : HttpTransport.

Definition processRequest (request : json) : M JsonRpcResponse :=
  match request with
  | JNull =>
      (* destructuring null *)
      throw (ErrorInstance "TypeError"
               "Cannot destructure property 'id' of 'request' as it is null.")
  | _ =>
      let id := prop "id" request in
      let rpc_method := prop "method" request in
      let params := prop "params" request in
      let not_found :=
        match template rpc_method with
        | Some text => ret (failure id (-32601) ("Method not found: " +:+ text))
        | None => throw not_primitive
        end in
      try_catch
        (match rpc_method with
         | Some (JStr m) =>
             if String.eqb m "initialize" then
               ret (success id
                      (JObj [("protocolVersion", JStr "2025-03-26");
                             ("capabilities", JObj [("tools", JObj []); ("resources", JObj [])]);
                             ("serverInfo", JObj [("name", JStr (serverName this));
                                                  ("version", JStr (serverVersion this))])]))
             else if String.eqb m "tools/list" then
               ret (success id (JObj [("tools", TOOL_DEFINITIONS)]))
             else if String.eqb m "tools/call" then
               let name := opt_prop "name" params in
               if negb (truthy name) then
                 throw (ErrorInstance "Error" "Tool name required")
               else
                 let arguments := opt_prop "arguments" params in
                 let args := if truthy arguments then default (JObj []) arguments
                             else JObj [] in
                 let* value := call_tool (toolExecutor this) (default JNull name) args in
                 ret (success id
                        (JObj [("content",
                                JArr [JObj [("type", JStr "text");
                                            ("text", JStr (JSON_stringify value))]])]))
             else if String.eqb m "ping" then
               ret (success id (JObj []))
             else not_found
         | _ => not_found
         end)
        (fun e => ret (failure id (-32000) (error_message e)))
  end.

(** The part of [handlePost] that follows the choice of the session.
    [session] is the object the map holds under [sessionId], and nothing
    between the lookup and [++session.lastEventId] touches the map: the
    increment is an update of that entry. *)
Definition dispatchAndReply (req : IncomingMessage) (request : json)
    (session : Session) (sessionId : string) : M unit :=
  res_setHeader "Mcp-Session-Id" sessionId ;;
  let* response := processRequest request in
  let acceptHeader := default "" (accept req) in
  if includes "text/event-stream" acceptHeader then
    res_writeHead 200 sse_headers ;;
    let eventId := lastEventId session + 1 in
    modify_sessions (alter (set_lastEventId eventId) sessionId) ;;
    res_write (IdLine eventId) ;;
    res_write (DataLine response) ;;
    res_end None
  else
    res_writeHead 200 json_headers ;;
    res_end (Some (Body (JSON_stringify (response_json response)))).

Definition handlePost (env : Env) (req : IncomingMessage) : M unit :=
  let* text := readBody req in
  match JSON_parse text with
  | None =>
      res_writeHead 400 json_headers ;;
      res_end (Some (error_body "Invalid JSON"))
  | Some request =>
      match present (mcp_session_id req) with
      | Some sessionId =>
          let* existing := getSession env sessionId in
          match existing with
          | None =>
              res_writeHead 404 json_headers ;;
              res_end (Some (error_body "Session not found"))
          | Some session => dispatchAndReply req request session sessionId
          end
      | None =>
          let* session := createSession env in
          dispatchAndReply req request session (session_id session)
      end
  end.

Fixpoint write_events (events : list Event) : M unit :=
  match events with
  | [] => ret tt
  | event :: rest =>
      res_write (IdLine (event_id event)) ;;
      res_write (DataLine (data event)) ;;
      write_events rest
  end.

Definition handleGet (env : Env) (req : IncomingMessage) : M unit :=
  match present (mcp_session_id req) with
  | None =>
      res_writeHead 400 json_headers ;;
      res_end (Some (error_body "Mcp-Session-Id header required"))
  | Some sessionId =>
      let* found := getSession env sessionId in
      match found with
      | None =>
          res_writeHead 404 json_headers ;;
          res_end (Some (error_body "Session not found"))
      | Some session =>
          res_writeHead 200 (app sse_headers [("Mcp-Session-Id", sessionId)]) ;;
          match present (last_event_id req) with
          | Some lastEventId_header =>
              let lastId := parseInt lastEventId_header in
              let missedEvents := filter (fun e => id_gt lastId e) (pendingEvents session) in
              write_events missedEvents
          | None => ret tt
          end
          (* the close listener is only registered: the response stays open *)
      end
  end.

Definition handleDelete (req : IncomingMessage) : M unit :=
  match present (mcp_session_id req) with
  | Some sessionId => modify_sessions (delete sessionId)
  | None => ret tt
  end ;;
  res_writeHead 204 [] ;;
  res_end None.

Definition health_body : string :=
  JSON_stringify (JObj [("status", JStr "ok"); ("server", JStr (serverName this));
                        ("version", JStr (serverVersion this))]).

Definition handleRequest (env : Env) (req : IncomingMessage) : M unit :=
  match pathname req with
  | None => throw (ErrorInstance "TypeError" "Invalid URL")
  | Some path =>
      res_setHeader "Access-Control-Allow-Origin" "*" ;;
      res_setHeader "Access-Control-Allow-Methods" "GET, POST, DELETE, OPTIONS" ;;
      res_setHeader "Access-Control-Allow-Headers"
                    "Content-Type, Mcp-Session-Id, Last-Event-ID" ;;
      res_setHeader "Access-Control-Expose-Headers" "Mcp-Session-Id" ;;
      if String.eqb (method req) "OPTIONS" then
        res_writeHead 204 [] ;; res_end None
      else if String.eqb path "/mcp" || String.eqb path "/" then
        if String.eqb (method req) "POST" then handlePost env req
        else if String.eqb (method req) "GET" then handleGet env req
        else if String.eqb (method req) "DELETE" then handleDelete req
        else res_writeHead 405 [] ;; res_end None
      else if String.eqb path "/health" then
        res_writeHead 200 json_headers ;; res_end (Some (Body health_body))
      else
        res_writeHead 404 [] ;; res_end None
  end.

Definition fresh_response : ServerResponse :=
  {| statusCode := None; headers := []; chunks := []; ended := false |}.

(** One request served against the session map [m]. *)
Definition serve (env : Env) (req : IncomingMessage) (m : gmap string Session)
  : outcome unit * World :=
  handleRequest env req {| sessions := m; res := fresh_response; toolCalls := [] |}.

End Transport.

Definition createHttpHandler {imports : Imports} (options : HttpTransportOptions)
  : Env -> IncomingMessage -> M unit :=
  handleRequest (new_HttpTransport options).

(* ===================================================================== *)
(** ** Vocabulary of the properties *)
(* ===================================================================== *)

(** The world after some calls to the tool executor were logged. *)
Definition add_calls (calls : list (json * json)) (w : World) : World :=
  {| sessions := sessions w; res := res w; toolCalls := app (toolCalls w) calls |}.

(** The four methods the dispatcher knows. *)
Definition known_method (m : option json) : bool :=
  match m with
  | Some (JStr s) =>
      String.eqb s "initialize" || String.eqb s "tools/list"
      || String.eqb s "tools/call" || String.eqb s "ping"
  | _ => false
  end.

(** [(params.arguments) || {}] *)
Definition call_arguments (params : option json) : json :=
  if truthy (opt_prop "arguments" params)
  then default (JObj []) (opt_prop "arguments" params)
  else JObj [].

(** A result holding one text block. *)
Definition text_content (text : string) : json :=
  JObj [("content", JArr [JObj [("type", JStr "text"); ("text", JStr text)]])].

(** The response once the router has set the four CORS headers. *)
Definition cors_response : ServerResponse :=
  {| statusCode := None;
     headers := [("Access-Control-Allow-Origin", "*");
                 ("Access-Control-Allow-Methods", "GET, POST, DELETE, OPTIONS");
                 ("Access-Control-Allow-Headers", "Content-Type, Mcp-Session-Id, Last-Event-ID");
                 ("Access-Control-Expose-Headers", "Mcp-Session-Id")];
     chunks := []; ended := false |}.

(** The world in which a handler starts, over the session map [m]. *)
Definition start (m : gmap string Session) : World :=
  {| sessions := m; res := cors_response; toolCalls := [] |}.

(** [res.writeHead(status, hs); res.end(chunk)] *)
Definition reply (status : Z) (hs : list (string * string)) (chunk : option Chunk) : M unit :=
  res_writeHead status hs ;; res_end chunk.

(* ===================================================================== *)
(** ** Runs of the transport *)
(* ===================================================================== *)

(** What can happen to the session map: a request is served, or the
    cleanup timer fires. *)
Inductive Op :=
  | Request (env : Env) (req : IncomingMessage)
  | Tick (now_ms : Z).

(** The session a POST is handled against: the one its header names, or the
    one it creates. *)
Definition target (env : Env) (req : IncomingMessage) : string :=
  match present (mcp_session_id req) with
  | Some sessionId => sessionId
  | None => uuid env
  end.

(** The frames a request emits, each with its session: the frames in the
    response to a POST.  (A GET re-sends buffered frames; it emits none.) *)
Definition emitted (env : Env) (req : IncomingMessage) (w : World) : list (string * Z) :=
  if String.eqb (method req) "POST"
  then map (pair (target env req)) (frame_ids (res w))
  else [].

Definition ids_of (k : string) (frames : list (string * Z)) : list Z :=
  snd <$> filter (fun f => fst f = k) frames.

(** How many requests of a run draw [k] from the UUID generator. *)
Fixpoint draws (k : string) (ops : list Op) : nat :=
  match ops with
  | [] => 0
  | Request env _ :: rest => (if decide (uuid env = k) then 1 else 0) + draws k rest
  | Tick _ :: rest => draws k rest
  end%nat.

(** The event counter of [k], zero before the session exists. *)
Definition counter (m : gmap string Session) (k : string) : Z :=
  match m !! k with
  | Some s => lastEventId s
  | None => 0
  end.

(** Each id is the one before it plus one. *)
Fixpoint consecutive (l : list Z) : Prop :=
  match l with
  | a :: (b :: _) as rest => b = a + 1 /\ consecutive rest
  | _ => True
  end.

Definition expired (env : Env) (s : Session) : Prop :=
  now env - createdAt s > SESSION_TTL_MS.

(** The session a POST is handled against, with the map once it is chosen:
    the live session the header names, or a new one. *)
Definition resolve (env : Env) (req : IncomingMessage) (m : gmap string Session)
  : option (string * Session * gmap string Session) :=
  match present (mcp_session_id req) with
  | Some sessionId =>
      match m !! sessionId with
      | Some s => if now env - createdAt s >? SESSION_TTL_MS then None
                  else Some (sessionId, s, m)
      | None => None
      end
  | None => Some (uuid env, new_session env, <[uuid env := new_session env]> m)
  end.

(** The frames of a list of events, as written to a stream. *)
Definition frames (events : list Event) : list Chunk :=
  flat_map (fun e => [IdLine (event_id e); DataLine (data e)]) events.

Definition wants_stream (req : IncomingMessage) : bool :=
  includes "text/event-stream" (default "" (accept req)).

Definition is_mcp_path (path : string) : bool :=
  String.eqb path "/mcp" || String.eqb path "/".

Section Runs.
Context {imports : Imports}.
Variable this : HttpTransport.

Definition exec (op : Op) (m : gmap string Session)
  : gmap string Session * list (string * Z) :=
  match op with
  | Request env req =>
      let w := snd (serve this env req m) in (sessions w, emitted env req w)
  | Tick t => (sweep t m, [])
  end.

Fixpoint run (ops : list Op) (m : gmap string Session)
  : gmap string Session * list (string * Z) :=
  match ops with
  | [] => (m, [])
  | op :: rest =>
      let r1 := exec op m in
      let r2 := run rest (fst r1) in
      (fst r2, app (snd r1) (snd r2))
  end.
End Runs.

(* ===================================================================== *)
(** ** Worked inputs *)
(* ===================================================================== *)

Module Example.
(** An executor on which every tool is missing. *)
Definition missing_tools : ToolExecutor :=
  {| execute := fun _ _ => Rejected (ErrorInstance "Error" "not found") |}.

(** An executor that answers every call with its own arguments. *)
Definition echo_tools : ToolExecutor :=
  {| execute := fun _ args => Resolved args |}.

Definition transport : HttpTransport :=
  new_HttpTransport {| options_toolExecutor := missing_tools;
                       options_serverName := None; options_serverVersion := None |}.

Definition echo_transport : HttpTransport :=
  new_HttpTransport {| options_toolExecutor := echo_tools;
                       options_serverName := None; options_serverVersion := None |}.

Definition runtime : Imports :=
  {| JSON_parse := parse_json; TOOL_DEFINITIONS := JArr [] |}.

(** [{"jsonrpc":"2.0","id":1,"method":"ping"}] *)
Definition ping_text : string :=
  "{" +:+ q "jsonrpc" +:+ ":" +:+ q "2.0" +:+ "," +:+ q "id" +:+ ":1,"
      +:+ q "method" +:+ ":" +:+ q "ping" +:+ "}".

(** [{"jsonrpc":"2.0","id":1,"result":{}}] *)
Definition ping_reply_text : string :=
  "{" +:+ q "jsonrpc" +:+ ":" +:+ q "2.0" +:+ "," +:+ q "id" +:+ ":1,"
      +:+ q "result" +:+ ":{}}".

(** [{"method":"tools/call","params":{"name":"missing_tool"}}] *)
Definition call_text : string :=
  "{" +:+ q "method" +:+ ":" +:+ q "tools/call" +:+ "," +:+ q "params" +:+ ":{"
      +:+ q "name" +:+ ":" +:+ q "missing_tool" +:+ "}}".

(** [{"id":7,"method":"frobnicate"}] *)
Definition frobnicate_text : string :=
  "{" +:+ q "id" +:+ ":7," +:+ q "method" +:+ ":" +:+ q "frobnicate" +:+ "}".

Definition request (verb path : string) (sid last acc : option string) (text : string)
  : IncomingMessage :=
  {| method := verb; pathname := Some path; mcp_session_id := sid;
     last_event_id := last; accept := acc; body := BodyText text |}.

Definition post (sid acc : option string) (text : string) : IncomingMessage :=
  request "POST" "/mcp" sid None acc text.

Definition get (sid last : option string) : IncomingMessage :=
  request "GET" "/mcp" sid last None "".

Definition at_ (t : Z) (u : string) : Env := {| now := t; uuid := u |}.

Definition reply (n : Z) : JsonRpcResponse := success (Some (JNum n)) (JObj []).

(** A session created at time 0 that holds three buffered frames. *)
Definition buffered : Session :=
  {| session_id := "s-1"; createdAt := 0; lastEventId := 3;
     pendingEvents := [ {| event_id := 1; data := reply 1 |};
                        {| event_id := 2; data := reply 2 |};
                        {| event_id := 3; data := reply 3 |} ] |}.

(** A session created at time 0 that has emitted two frames. *)
Definition used : Session :=
  {| session_id := "s-1"; createdAt := 0; lastEventId := 2; pendingEvents := [] |}.

(** The JSON values of the request texts. *)
Definition ping_request : json :=
  JObj [("jsonrpc", JStr "2.0"); ("id", JNum 1); ("method", JStr "ping")].

Definition call_request : json :=
  JObj [("method", JStr "tools/call"); ("params", JObj [("name", JStr "missing_tool")])].

Definition frobnicate_request : json :=
  JObj [("id", JNum 7); ("method", JStr "frobnicate")].

(** [{"id":"a","method":"tools/call","params":{"name":"search","arguments":{"q":"x"}}}] *)
Definition search_text : string :=
  "{" +:+ q "id" +:+ ":" +:+ q "a" +:+ "," +:+ q "method" +:+ ":" +:+ q "tools/call" +:+ ","
      +:+ q "params" +:+ ":{" +:+ q "name" +:+ ":" +:+ q "search" +:+ ","
      +:+ q "arguments" +:+ ":{" +:+ q "q" +:+ ":" +:+ q "x" +:+ "}}}".

(** A session is created, used, read, swept over and used again. *)
Definition session_life : list Op :=
  [ Request (at_ 0 "s-1") (post None (Some "text/event-stream") ping_text);
    Request (at_ 10 "u-2") (post (Some "s-1") (Some "text/event-stream") ping_text);
    Request (at_ 20 "u-3") (get (Some "s-1") (Some "0"));
    Tick 30;
    Request (at_ 40 "u-4") (post (Some "s-1") (Some "application/json") ping_text);
    Request (at_ 50 "u-5") (post (Some "s-1") (Some "text/event-stream") call_text) ].
End Example.

(* ===================================================================== *)
(** ** Vocabulary of the further properties of the transport *)
(* ===================================================================== *)

(** The four CORS headers, as [handleRequest] sets them. *)
Definition cors_ok (r : ServerResponse) : Prop :=
  header "Access-Control-Allow-Origin" r = Some "*"
  /\ header "Access-Control-Allow-Methods" r = Some "GET, POST, DELETE, OPTIONS"
  /\ header "Access-Control-Allow-Headers" r
     = Some "Content-Type, Mcp-Session-Id, Last-Event-ID"
  /\ header "Access-Control-Expose-Headers" r = Some "Mcp-Session-Id".

(** Every session sits in the map under its own id. *)
Definition keyed (m : gmap string Session) : Prop :=
  forall k s, m !! k = Some s -> session_id s = k.

(* ===================================================================== *)
(** ** tools.ts: response transformers, tool registry, tool executor *)
(* ===================================================================== *)

Module Tools.

Inductive ToolTag := TagRead | TagWrite | TagAdmin | TagSearch | TagTimeTravel.

Inductive DetailLevel := DetailName | DetailSummary | DetailFull.

Definition ToolTag_eqb (a b : ToolTag) : bool :=
  match a, b with
  | TagRead, TagRead | TagWrite, TagWrite | TagAdmin, TagAdmin
  | TagSearch, TagSearch | TagTimeTravel, TagTimeTravel => true
  | _, _ => false
  end.

Definition tag_name (t : ToolTag) : string :=
  match t with
  | TagRead => "read"
  | TagWrite => "write"
  | TagAdmin => "admin"
  | TagSearch => "search"
  | TagTimeTravel => "time-travel"
  end.

Record TaggedTool := {
  name : string;
  tags : list ToolTag;
  description : string;
  inputSchema : json;
}.

(** *** Response transformers *)

Definition MAX_SNIPPET_LENGTH : Z := 200.
Definition MAX_SEARCH_RESULTS : nat := 5.
Definition MAX_DOCUMENTS : nat := 10.
Definition MAX_COLLECTIONS : nat := 10.
Definition MAX_SAMPLE_ROWS : nat := 3.
Definition MAX_SNAPSHOTS : nat := 10.

(** [s.slice(0, e)]: a negative [e] counts from the end of the string. *)
Definition slice_to (s : string) (e : Z) : string :=
  let len := Z.of_nat (String.length s) in
  let stop := if Z.ltb e 0 then Z.max (len + e) 0 else Z.min e len in
  String.substring 0 (Z.to_nat stop) s.

Definition truncate (text : string) (maxLength : Z) : string :=
  if Z.leb (Z.of_nat (String.length text)) maxLength then text
  else slice_to text (maxLength - 3) +:+ "...".

(** [Buffer.from(text).toString("base64")], the text being its own bytes. *)
Definition base64_char (n : N) : ascii :=
  if (n <? 26)%N then ascii_of_N (65 + n)
  else if (n <? 52)%N then ascii_of_N (71 + n)
  else if (n <? 62)%N then ascii_of_N (n - 4)
  else if (n =? 62)%N then "+"%char
  else "/"%char.

Fixpoint base64_bytes (l : list N) : string :=
  match l with
  | a :: b :: c :: rest =>
      let n := (a * 65536 + b * 256 + c)%N in
      String (base64_char (n / 262144))
        (String (base64_char ((n / 4096) mod 64))
           (String (base64_char ((n / 64) mod 64))
              (String (base64_char (n mod 64)) (base64_bytes rest))))
  | [a; b] =>
      let n := (a * 65536 + b * 256)%N in
      String (base64_char (n / 262144))
        (String (base64_char ((n / 4096) mod 64))
           (String (base64_char ((n / 64) mod 64)) "="))
  | [a] =>
      let n := (a * 65536)%N in
      String (base64_char (n / 262144)) (String (base64_char ((n / 4096) mod 64)) "==")
  | [] => ""
  end.

Definition base64 (text : string) : string :=
  base64_bytes (map N_of_ascii (list_ascii_of_string text)).

(** The JSON text inside a search cursor. *)
Definition cursor_text (offset : Z) (query : string) : string :=
  JSON_stringify (JObj [("offset", JNum offset); ("query", JStr query)]).

Section Transformers.
(** Scores are doubles; [round2] is [Math.round(n * 100) / 100] on them.
    Floating-point arithmetic stays outside: both are parameters. *)
Variable number : Type.
Variable round2 : number -> number.

(** Of the API types, the fields the transformers read. *)
Record SearchResult := {
  document_id : string;
  document_name : string;
  content : string;
  score : number;
}.

Record SearchResponse := {
  results : list SearchResult;
  total_results : Z;
}.

Record SlimSearchResult := {
  slim_document_id : string;
  slim_title : string;
  snippet : string;
  slim_score : number;
}.

Record SlimSearchResponse := {
  slim_query : string;
  slim_total : Z;
  slim_results : list SlimSearchResult;
  has_more : bool;
  next_cursor : option string;      (* left out of the object when [None] *)
}.

Definition toSlimSearchResponse (response : SearchResponse) (query : string) (offset : Z)
  : SlimSearchResponse :=
  let results :=
    map (fun r => {| slim_document_id := document_id r;
                     slim_title := document_name r;
                     snippet := truncate (content r) MAX_SNIPPET_LENGTH;
                     slim_score := round2 (score r) |})
        (take MAX_SEARCH_RESULTS (results response)) in
  let hasMore := total_results response >? offset + Z.of_nat MAX_SEARCH_RESULTS in
  let nextCursor :=
    if hasMore
    then Some (base64 (cursor_text (offset + Z.of_nat MAX_SEARCH_RESULTS) query))
    else None in
  {| slim_query := query;
     slim_total := total_results response;
     slim_results := results;
     has_more := hasMore;
     next_cursor := present nextCursor |}.

Record ChatChoice := { message_content : string }.

Record ChatCompletionResponse := {
  choices : list ChatChoice;
  sources : option (list SearchResult);
}.

Record SlimChatResponse := {
  answer : string;
  sources_used : Z;
  model : string;
}.

Definition toSlimChatResponse (response : ChatCompletionResponse) : SlimChatResponse :=
  {| answer := match choices response with
               | c :: _ => message_content c       (* [x || ""] of a string is [x] *)
               | [] => ""
               end;
     sources_used := match sources response with
                     | Some l => Z.of_nat (List.length l)
                     | None => 0
                     end;
     model := "default" |}.
End Transformers.

Record Document := {
  doc_id : string;
  doc_title : string;
  doc_status : string;
  doc_chunk_count : Z;
}.

Record ListDocumentsResponse := {
  documents : list Document;
  docs_has_more : bool;
  docs_next_cursor : option string;          (* [string | null] *)
  total_count : Z;
}.

Record SlimListDocumentsResponse := {
  slim_docs_total : Z;
  slim_documents : list Document;           (* the four fields that are kept *)
  slim_docs_has_more : bool;
  slim_docs_next_cursor : option string;
}.

Definition toSlimListDocumentsResponse (response : ListDocumentsResponse)
  : SlimListDocumentsResponse :=
  let documents :=
    map (fun d => {| doc_id := doc_id d; doc_title := doc_title d;
                     doc_status := doc_status d; doc_chunk_count := doc_chunk_count d |})
        (take MAX_DOCUMENTS (documents response)) in
  {| slim_docs_total := total_count response;
     slim_documents := documents;
     slim_docs_has_more :=
       docs_has_more response || (total_count response >? Z.of_nat MAX_DOCUMENTS);
     slim_docs_next_cursor := present (docs_next_cursor response) |}.

Record Collection := {
  col_id : string;
  col_name : string;
  col_document_count : Z;
}.

Record ListCollectionsResponse := {
  collections : list Collection;
  cols_has_more : bool;
  cols_next_cursor : option string;
}.

Record SlimListCollectionsResponse := {
  slim_cols_total : Z;
  slim_collections : list Collection;
  slim_cols_has_more : bool;
  slim_cols_next_cursor : option string;
}.

Definition toSlimListCollectionsResponse (response : ListCollectionsResponse)
  : SlimListCollectionsResponse :=
  let collections :=
    map (fun c => {| col_id := col_id c; col_name := col_name c;
                     col_document_count := col_document_count c |})
        (take MAX_COLLECTIONS (collections response)) in
  {| slim_cols_total := Z.of_nat (List.length (Tools.collections response));
     slim_collections := collections;
     slim_cols_has_more :=
       cols_has_more response
       || (Z.of_nat (List.length (Tools.collections response)) >? Z.of_nat MAX_COLLECTIONS);
     slim_cols_next_cursor := present (cols_next_cursor response) |}.

Record TimeTravelQueryResponse := {
  rows : list json;
  columns : list string;
  row_count : Z;
  table_name : string;
  snapshot_id : option string;               (* [string | null] *)
}.

Record SlimTimeTravelQueryResponse := {
  slim_table_name : string;
  slim_row_count : Z;
  slim_columns : list string;
  sample_rows : list json;
  truncated : bool;
  slim_snapshot_id : option string;
}.

Definition toSlimTimeTravelQueryResponse (response : TimeTravelQueryResponse)
  : SlimTimeTravelQueryResponse :=
  {| slim_table_name := table_name response;
     slim_row_count := row_count response;
     slim_columns := columns response;
     sample_rows := take MAX_SAMPLE_ROWS (rows response);
     truncated := row_count response >? Z.of_nat MAX_SAMPLE_ROWS;
     slim_snapshot_id := snapshot_id response |}.

Record Snapshot := {
  snap_id : string;
  snap_operation : string;
  snap_committed_at : string;
}.

Record ListSnapshotsResponse := {
  snapshots : list Snapshot;
  snaps_table_name : string;
  snaps_total : Z;
}.

Record SlimListSnapshotsResponse := {
  slim_snaps_table_name : string;
  slim_snaps_total : Z;
  slim_snapshots : list Snapshot;
  slim_snaps_has_more : bool;
}.

Definition toSlimListSnapshotsResponse (response : ListSnapshotsResponse)
  : SlimListSnapshotsResponse :=
  {| slim_snaps_table_name := snaps_table_name response;
     slim_snaps_total := snaps_total response;
     slim_snapshots :=
       map (fun s => {| snap_id := snap_id s; snap_operation := snap_operation s;
                        snap_committed_at := snap_committed_at s |})
           (take MAX_SNAPSHOTS (snapshots response));
     slim_snaps_has_more := snaps_total response >? Z.of_nat MAX_SNAPSHOTS |}.

(** *** Reading a search cursor

    The first statements of [ToolExecutor.search]: the offset is taken from
    the cursor when that decodes to JSON with a truthy [offset], and is 0
    otherwise.  [base64_decode] is [Buffer.from(c, "base64").toString()]. *)
Section Cursor.
Context {imports : Imports}.
Variable base64_decode : string -> string.

Definition cursor_offset (cursor : option string) : json :=
  match present cursor with
  | None => JNum 0
  | Some c =>
      match JSON_parse (base64_decode c) with
      | None => JNum 0                     (* [JSON.parse] throws: caught *)
      | Some JNull => JNum 0               (* [decoded.offset] throws: caught *)
      | Some decoded =>
          if truthy (prop "offset" decoded)
          then default (JNum 0) (prop "offset" decoded)
          else JNum 0
      end
  end.
End Cursor.

(** *** Tagged tool definitions *)

(** The JSON Schema fragments the registry is written with. *)
Definition of_type (t : string) : json := JObj [("type", JStr t)].

Definition of_type_described (t d : string) : json :=
  JObj [("type", JStr t); ("description", JStr d)].

Definition string_enum (values : list string) : json :=
  JObj [("type", JStr "string"); ("enum", JArr (map JStr values))].

Definition array_of (items : json) : json :=
  JObj [("type", JStr "array"); ("items", items)].

Definition object_schema (properties : list (string * json)) (required : list string) : json :=
  match required with
  | [] => JObj [("type", JStr "object"); ("properties", JObj properties)]
  | _ => JObj [("type", JStr "object"); ("properties", JObj properties);
               ("required", JArr (map JStr required))]
  end.

Definition TAGGED_TOOLS : list TaggedTool :=
  [ {| name := "search_tools";
       tags := [TagRead];
       description := "Find available tools by name, tag, or description. Returns tool info at specified detail level.";
       inputSchema :=
         object_schema
           [("query", of_type_described "string" "Search term");
            ("tags", array_of (string_enum ["read"; "write"; "admin"; "search"; "time-travel"]));
            ("detail",
             JObj [("type", JStr "string");
                   ("enum", JArr [JStr "name"; JStr "summary"; JStr "full"]);
                   ("description",
                    JStr "name=names only, summary=+descriptions, full=+schemas")])]
           [] |};
    {| name := "search";
       tags := [TagRead; TagSearch];
       description := "Hybrid search (dense+sparse+BM25). Returns ranked chunks with cursor pagination.";
       inputSchema :=
         object_schema
           [("query", of_type "string");
            ("collection_ids", array_of (of_type "string"));
            ("top_k", of_type_described "number" "1-100, default 10");
            ("rerank", of_type_described "boolean" "default true");
            ("cursor", of_type_described "string" "Pagination cursor")]
           ["query"] |};
    {| name := "ask_question";
       tags := [TagRead; TagSearch];
       description := "RAG-based Q&A. Returns AI answer with source count.";
       inputSchema :=
         object_schema
           [("question", of_type "string");
            ("collection_ids", array_of (of_type "string"));
            ("model", of_type "string")]
           ["question"] |};
    {| name := "get_document";
       tags := [TagRead];
       description := "Get document by ID. Optionally include full content.";
       inputSchema :=
         object_schema
           [("document_id", of_type "string"); ("include_content", of_type "boolean")]
           ["document_id"] |};
    {| name := "list_documents";
       tags := [TagRead];
       description := "List documents with filters. Cursor pagination.";
       inputSchema :=
         object_schema
           [("collection_id", of_type "string");
            ("status", string_enum ["pending"; "processing"; "ready"; "failed"]);
            ("search", of_type "string");
            ("limit", of_type "number");
            ("cursor", of_type "string")]
           [] |};
    {| name := "list_collections";
       tags := [TagRead];
       description := "List all collections. Cursor pagination.";
       inputSchema :=
         object_schema [("limit", of_type "number"); ("cursor", of_type "string")] [] |};
    {| name := "upload_document";
       tags := [TagWrite];
       description := "Upload text document. Auto-chunked and indexed.";
       inputSchema :=
         object_schema
           [("title", of_type "string");
            ("content", of_type "string");
            ("content_type", string_enum ["text/plain"; "text/markdown"; "text/html"]);
            ("collection_id", of_type "string");
            ("metadata", of_type "object")]
           ["title"; "content"] |};
    {| name := "time_travel_query";
       tags := [TagRead; TagTimeTravel; TagAdmin];
       description := "Query historical Iceberg data at snapshot/timestamp.";
       inputSchema :=
         object_schema
           [("table_name", of_type_described "string" "documents|chunks|entities");
            ("namespace", of_type "string");
            ("snapshot_id", of_type "string");
            ("as_of_timestamp", of_type_described "string" "ISO 8601");
            ("columns", array_of (of_type "string"));
            ("where", of_type "string");
            ("limit", of_type "number")]
           ["table_name"] |};
    {| name := "time_travel_diff";
       tags := [TagRead; TagTimeTravel; TagAdmin];
       description := "Compare two snapshots. Returns added/deleted/changed counts.";
       inputSchema :=
         object_schema
           [("table_name", of_type "string");
            ("namespace", of_type "string");
            ("from_snapshot_id", of_type "string");
            ("to_snapshot_id", of_type "string")]
           ["table_name"; "from_snapshot_id"; "to_snapshot_id"] |};
    {| name := "list_snapshots";
       tags := [TagRead; TagTimeTravel];
       description := "List Iceberg table snapshots for time-travel.";
       inputSchema :=
         object_schema
           [("table_name", of_type "string");
            ("namespace", of_type "string");
            ("limit", of_type "number")]
           ["table_name"] |} ].

(** The legacy format: name, description and schema, without the tags. *)
Definition TOOL_DEFINITIONS : json :=
  JArr (map (fun t => JObj [("name", JStr (name t));
                            ("description", JStr (description t));
                            ("inputSchema", inputSchema t)])
            TAGGED_TOOLS).

(** *** Tool discovery *)

Record ToolSearchResult := {
  result_name : string;
  result_tags : option (list ToolTag);
  result_description : option string;
  result_inputSchema : option json;
}.

Definition at_detail (detail : DetailLevel) (t : TaggedTool) : ToolSearchResult :=
  match detail with
  | DetailName =>
      {| result_name := name t; result_tags := None;
         result_description := None; result_inputSchema := None |}
  | DetailSummary =>
      {| result_name := name t; result_tags := Some (tags t);
         result_description := Some (description t); result_inputSchema := None |}
  | DetailFull =>
      {| result_name := name t; result_tags := Some (tags t);
         result_description := Some (description t);
         result_inputSchema := Some (inputSchema t) |}
  end.

Section Discovery.
(** [String.prototype.toLowerCase] is the platform's. *)
Variable toLowerCase : string -> string.

(** [tags.some((tag) => t.tags.includes(tag))] *)
Definition has_some_tag (wanted : list ToolTag) (t : TaggedTool) : bool :=
  existsb (fun tag => existsb (ToolTag_eqb tag) (tags t)) wanted.

Definition matches_query (q : string) (t : TaggedTool) : bool :=
  includes q (toLowerCase (name t)) || includes q (toLowerCase (description t)).

(** [searchTools(query?, tags?, detail = "summary")] over a registry;
    [searchTools] below is the function of the source, over [TAGGED_TOOLS]. *)
Definition searchTools_in (registry : list TaggedTool)
    (query : option string) (wanted : option (list ToolTag)) (detail : option DetailLevel)
  : list ToolSearchResult :=
  let tools := registry in
  let tools :=
    match wanted with
    | Some (tag :: more) => List.filter (has_some_tag (tag :: more)) tools
    | _ => tools
    end in
  let tools :=
    match present query with
    | Some query => let q := toLowerCase query in List.filter (matches_query q) tools
    | None => tools
    end in
  map (at_detail (default DetailSummary detail)) tools.

Definition searchTools := searchTools_in TAGGED_TOOLS.
End Discovery.

(** *** Tool executor *)

(** The ten private handlers of the class: each validates its arguments and
    calls the API; what their promises come to is given. *)
Record Handlers := {
  searchToolsHandler : json -> ToolOutcome;
  search : json -> ToolOutcome;
  askQuestion : json -> ToolOutcome;
  getDocument : json -> ToolOutcome;
  listDocuments : json -> ToolOutcome;
  listCollections : json -> ToolOutcome;
  uploadDocument : json -> ToolOutcome;
  timeTravelQuery : json -> ToolOutcome;
  timeTravelDiff : json -> ToolOutcome;
  listSnapshots : json -> ToolOutcome;
}.

(** The [switch] of [execute] compares with [===]: a name that is not a
    string matches no case.  The message of the [default] case is a
    template literal, which throws in place of the error it was to build
    when the name cannot be converted. *)
Definition execute (this : Handlers) (toolName args : json) : ToolOutcome :=
  let unknown :=
    match js_string toolName with
    | Some text => Rejected (ErrorInstance "Error" ("Unknown tool: " +:+ text))
    | None => Rejected not_primitive
    end in
  match toolName with
  | JStr n =>
      if String.eqb n "search_tools" then searchToolsHandler this args
      else if String.eqb n "search" then search this args
      else if String.eqb n "ask_question" then askQuestion this args
      else if String.eqb n "get_document" then getDocument this args
      else if String.eqb n "list_documents" then listDocuments this args
      else if String.eqb n "list_collections" then listCollections this args
      else if String.eqb n "upload_document" then uploadDocument this args
      else if String.eqb n "time_travel_query" then timeTravelQuery this args
      else if String.eqb n "time_travel_diff" then timeTravelDiff this args
      else if String.eqb n "list_snapshots" then listSnapshots this args
      else unknown
  | _ => unknown
  end.

(** The handlers, in the order of the cases. *)
Definition handlers (this : Handlers) : list (json -> ToolOutcome) :=
  [searchToolsHandler this; search this; askQuestion this; getDocument this;
   listDocuments this; listCollections this; uploadDocument this;
   timeTravelQuery this; timeTravelDiff this; listSnapshots this].

Definition new_ToolExecutor (this : Handlers) : ToolExecutor :=
  Build_ToolExecutor (execute this).

End Tools.

(** The module environment of http-transport.ts once tools.ts is linked
    in: the registry is the one above, [JSON.parse] stays the platform's. *)
Definition linked (parse : string -> option json) : Imports :=
  {| JSON_parse := parse; TOOL_DEFINITIONS := Tools.TOOL_DEFINITIONS |}.

(* ===================================================================== *)
(** ** resources.ts: resource URIs and the resource handler *)
(* ===================================================================== *)

Module Resources.

Record ResourceDefinition := {
  uri : string;
  name : option json;             (* [doc.title], whatever the API sent *)
  description : string;
  mimeType : string;
}.

Record ResourceContent := {
  content_uri : string;
  content_mimeType : json;
  text : option json;
}.

Inductive ResourceType := Document | Collection | DocumentsList | CollectionsList.

Record ParsedUri := {
  type : ResourceType;
  id : option string;
  includeContent : option bool;
}.

(** *** The three regular expressions of [parseUri]

    Each has the shape [^prefix([^/]+)suffix$], where the suffix is empty
    or starts with a slash; so the group is the longest run of characters
    other than a slash that follows the prefix, it must not be empty, and
    what follows it must be the suffix. *)
Fixpoint strip_prefix (p s : string) : option string :=
  match p, s with
  | EmptyString, _ => Some s
  | String a p', String b s' => if Ascii.eqb a b then strip_prefix p' s' else None
  | String _ _, EmptyString => None
  end.

Fixpoint segment (s : string) : string * string :=
  match s with
  | EmptyString => (EmptyString, EmptyString)
  | String c rest =>
      if Ascii.eqb c "/" then (EmptyString, s)
      else let (a, b) := segment rest in (String c a, b)
  end.

Definition match_segment (prefix suffix uri : string) : option string :=
  match strip_prefix prefix uri with
  | Some r =>
      let (group, rest) := segment r in
      if negb (String.eqb group "") && String.eqb rest suffix then Some group else None
  | None => None
  end.

Definition parseUri (uri : string) : outcome ParsedUri :=
  if String.eqb uri "lakehouse://documents" then
    Done {| type := DocumentsList; id := None; includeContent := None |}
  else if String.eqb uri "lakehouse://collections" then
    Done {| type := CollectionsList; id := None; includeContent := None |}
  else
    match match_segment "lakehouse://documents/" "/content" uri with
    | Some group => Done {| type := Document; id := Some group; includeContent := Some true |}
    | None =>
        match match_segment "lakehouse://documents/" "" uri with
        | Some group => Done {| type := Document; id := Some group; includeContent := None |}
        | None =>
            match match_segment "lakehouse://collections/" "" uri with
            | Some group =>
                Done {| type := Collection; id := Some group; includeContent := None |}
            | None =>
                Threw (ErrorInstance "Error" ("Invalid resource URI format: " +:+ uri))
            end
        end
    end.

(** *** JSON.stringify(value, null, 2) *)
Fixpoint stringify_indented (indent : string) (v : json) : string :=
  let inner := indent +:+ "  " in
  let separator := "," +:+ newline +:+ inner in
  match v with
  | JArr items =>
      match items with
      | [] => "[]"
      | _ => "[" +:+ newline +:+ inner
                 +:+ join separator (map (stringify_indented inner) items)
                 +:+ newline +:+ indent +:+ "]"
      end
  | JObj props =>
      match props with
      | [] => "{}"
      | _ => "{" +:+ newline +:+ inner
                 +:+ join separator
                       (map (fun kv => quote (fst kv) +:+ ": "
                                       +:+ stringify_indented inner (snd kv)) props)
                 +:+ newline +:+ indent +:+ "}"
      end
  | _ => JSON_stringify v
  end.

(** What a [for ... of] loop runs over: the items of an array, the
    characters of a string; nothing else that JSON holds is iterable. *)
Definition iterable (v : option json) : option (list json) :=
  match v with
  | Some (JArr items) => Some items
  | Some (JStr s) => Some (map (fun c => JStr (String c "")) (list_ascii_of_string s))
  | _ => None
  end.

Definition null_property (key : string) : thrown :=
  ErrorInstance "TypeError"
    ("Cannot read properties of null (reading '" +:+ key +:+ "')").

(** The template literals of a resource throw when a part cannot be
    converted. *)
Definition document_resource (doc : json) : outcome ResourceDefinition :=
  match doc with
  | JNull => Threw (null_property "id")
  | _ =>
      match template (prop "id" doc), template (prop "title" doc),
            template (prop "status" doc), template (prop "chunk_count" doc) with
      | Some id, Some title, Some status, Some chunk_count =>
          Done {| uri := "lakehouse://documents/" +:+ id;
                  name := prop "title" doc;
                  description := "Document: " +:+ title +:+ " (" +:+ status +:+ ", "
                                 +:+ chunk_count +:+ " chunks)";
                  mimeType := "application/json" |}
      | _, _, _, _ => Threw not_primitive
      end
  end.

Definition collection_resource (collection : json) : outcome ResourceDefinition :=
  match collection with
  | JNull => Threw (null_property "id")
  | _ =>
      match template (prop "id" collection), template (prop "name" collection),
            template (prop "document_count" collection) with
      | Some id, Some name, Some document_count =>
          Done {| uri := "lakehouse://collections/" +:+ id;
                  name := prop "name" collection;
                  description := "Collection: " +:+ name +:+ " (" +:+ document_count
                                 +:+ " documents)";
                  mimeType := "application/json" |}
      | _, _, _ => Threw not_primitive
      end
  end.

Definition all_documents : ResourceDefinition :=
  {| uri := "lakehouse://documents";
     name := Some (JStr "All Documents");
     description := "List of all documents in the knowledge base";
     mimeType := "application/json" |}.

Definition all_collections : ResourceDefinition :=
  {| uri := "lakehouse://collections";
     name := Some (JStr "All Collections");
     description := "List of all document collections";
     mimeType := "application/json" |}.

(** A loop that pushes one resource per item: the resources pushed, and
    the exception that ended the loop early, if one did. *)
Fixpoint push_each (make : json -> outcome ResourceDefinition) (items : list json)
    (resources : list ResourceDefinition) : list ResourceDefinition * option thrown :=
  match items with
  | [] => (resources, None)
  | item :: rest =>
      match make item with
      | Done r => push_each make rest (app resources [r])
      | Threw e => (resources, Some e)
      end
  end.

(** [response.key], to be iterated over. *)
Definition listing (key : string) (response : json) : option (list json) :=
  match response with
  | JNull => None                             (* reading the property throws *)
  | _ => iterable (prop key response)         (* not iterable: the loop throws *)
  end.

Section Handler.
(** [this.client.get(path, params)], as what its promise comes to. *)
Variable get : string -> option (list (string * json)) -> ToolOutcome.

(** [listResources]: whatever is thrown inside the [try] is logged and
    dropped, and the resources pushed until then are returned. *)
Definition listResources : list ResourceDefinition :=
  let resources := [] in
  match get "/api/v1/documents" (Some [("limit", JNum 20)]) with
  | Rejected _ => resources
  | Resolved docsResponse =>
      match listing "documents" docsResponse with
      | None => resources
      | Some docs =>
          match push_each document_resource docs resources with
          | (resources, Some _) => resources
          | (resources, None) =>
              match get "/api/v1/collections" (Some [("limit", JNum 20)]) with
              | Rejected _ => resources
              | Resolved collectionsResponse =>
                  match listing "collections" collectionsResponse with
                  | None => resources
                  | Some collections =>
                      match push_each collection_resource collections resources with
                      | (resources, Some _) => resources
                      | (resources, None) => app resources [all_documents; all_collections]
                      end
                  end
              end
          end
      end
  end.

Definition readDocument (id : option string) (includeContent : option bool)
  : outcome ResourceContent :=
  match present id with
  | None => Threw (ErrorInstance "Error" "Document ID is required")
  | Some id =>
      if default false includeContent then
        match get ("/api/v1/documents/" +:+ id) (Some [("include_content", JBool true)]) with
        | Rejected e => Threw e
        | Resolved JNull => Threw (null_property "content_type")
        | Resolved doc =>
            Done {| content_uri := "lakehouse://documents/" +:+ id +:+ "/content";
                    content_mimeType :=
                      if truthy (prop "content_type" doc)
                      then default (JStr "text/plain") (prop "content_type" doc)
                      else JStr "text/plain";
                    text := prop "content" doc |}
        end
      else
        match get ("/api/v1/documents/" +:+ id) None with
        | Rejected e => Threw e
        | Resolved doc =>
            Done {| content_uri := "lakehouse://documents/" +:+ id;
                    content_mimeType := JStr "application/json";
                    text := Some (JStr (stringify_indented "" doc)) |}
        end
  end.

Definition readCollection (id : option string) : outcome ResourceContent :=
  match present id with
  | None => Threw (ErrorInstance "Error" "Collection ID is required")
  | Some id =>
      match get ("/api/v1/collections/" +:+ id) None with
      | Rejected e => Threw e
      | Resolved collection =>
          Done {| content_uri := "lakehouse://collections/" +:+ id;
                  content_mimeType := JStr "application/json";
                  text := Some (JStr (stringify_indented "" collection)) |}
      end
  end.

Definition readDocumentsList : outcome ResourceContent :=
  match get "/api/v1/documents" (Some [("limit", JNum 100)]) with
  | Rejected e => Threw e
  | Resolved response =>
      Done {| content_uri := "lakehouse://documents";
              content_mimeType := JStr "application/json";
              text := Some (JStr (stringify_indented "" response)) |}
  end.

Definition readCollectionsList : outcome ResourceContent :=
  match get "/api/v1/collections" (Some [("limit", JNum 100)]) with
  | Rejected e => Threw e
  | Resolved response =>
      Done {| content_uri := "lakehouse://collections";
              content_mimeType := JStr "application/json";
              text := Some (JStr (stringify_indented "" response)) |}
  end.

(** The [switch] of [readResource] covers the four types; its [default]
    branch has no type left to run for. *)
Definition readResource (uri : string) : outcome ResourceContent :=
  match parseUri uri with
  | Threw e => Threw e
  | Done parsedUri =>
      match type parsedUri with
      | Document => readDocument (id parsedUri) (includeContent parsedUri)
      | Collection => readCollection (id parsedUri)
      | DocumentsList => readDocumentsList
      | CollectionsList => readCollectionsList
      end
  end.
End Handler.

End Resources.

(** ** Vocabulary of the properties of resources.ts *)

(** The shapes [parseUri] accepts, with what it makes of each. *)
Definition parsed_as (uri : string) (p : Resources.ParsedUri) : Prop :=
  (uri = "lakehouse://documents"
   /\ p = {| Resources.type := Resources.DocumentsList; Resources.id := None;
             Resources.includeContent := None |})
  \/ (uri = "lakehouse://collections"
      /\ p = {| Resources.type := Resources.CollectionsList; Resources.id := None;
                Resources.includeContent := None |})
  \/ (exists id, id <> "" /\ includes "/" id = false
                 /\ uri = "lakehouse://documents/" +:+ id +:+ "/content"
                 /\ p = {| Resources.type := Resources.Document; Resources.id := Some id;
                           Resources.includeContent := Some true |})
  \/ (exists id, id <> "" /\ includes "/" id = false
                 /\ uri = "lakehouse://documents/" +:+ id
                 /\ p = {| Resources.type := Resources.Document; Resources.id := Some id;
                           Resources.includeContent := None |})
  \/ (exists id, id <> "" /\ includes "/" id = false
                 /\ uri = "lakehouse://collections/" +:+ id
                 /\ p = {| Resources.type := Resources.Collection; Resources.id := Some id;
                           Resources.includeContent := None |}).


(* ===================================================================== *)
(** ** api-client.ts: the HTTP client of the REST API *)
(* ===================================================================== *)

Module Api.

Record ServerConfig := {
  apiKey : string;
  baseUrl : string;
  timeout : option Z;
}.

Record ApiClient := {
  client_apiKey : string;
  client_baseUrl : string;
  client_timeout : Z;
}.

(** [s.replace(/\/$/, "")]: the pattern matches a slash that ends the
    string, and nothing else. *)
Fixpoint drop_trailing_slash (s : string) : string :=
  match s with
  | EmptyString => EmptyString
  | String c rest =>
      if Ascii.eqb c "/" && String.eqb rest "" then EmptyString
      else String c (drop_trailing_slash rest)
  end.

Definition new_ApiClient (config : ServerConfig) : ApiClient :=
  {| client_apiKey := apiKey config;
     client_baseUrl := drop_trailing_slash (baseUrl config);
     client_timeout := default 30000 (timeout config) |}.

Record RequestInit := {
  init_method : string;
  init_headers : list (string * string);
  init_body : option string;
}.

(** What [fetch] comes to: a rejection, or a response with its [ok] flag,
    its status and what [response.json()] comes to. *)
Inductive FetchOutcome :=
  | FetchRejected (e : thrown)
  | FetchResponse (ok : bool) (status : Z) (data : outcome json).

(** The query parameters that are set: those that are not [undefined],
    each as [String(value)]. *)
(** The value of a query parameter: [string | number | boolean]. *)
Inductive ParamValue :=
  | ParamString (s : string)
  | ParamNumber (n : Z)
  | ParamBoolean (b : bool).

(** [String(value)] *)
Definition param_text (value : ParamValue) : string :=
  match value with
  | ParamString s => s
  | ParamNumber n => pretty n
  | ParamBoolean true => "true"
  | ParamBoolean false => "false"
  end.

Definition search_params (params : option (list (string * option ParamValue)))
  : list (string * string) :=
  match params with
  | Some entries =>
      omap (fun kv => match snd kv with
                      | Some value => Some (fst kv, param_text value)
                      | None => None
                      end) entries
  | None => []
  end.

Section Client.
(** The platform: [href base query] is [url.toString()] for
    [url = new URL(base)] after [url.searchParams.set] of each pair of
    [query] in turn, and [None] when [new URL] throws its TypeError. *)
Variable href : string -> list (string * string) -> option string.
Variable fetch : string -> RequestInit -> FetchOutcome.
Variable this : ApiClient.

(** The second argument of [fetch], the abort signal apart. *)
Definition request_init (method : string) (body : option json) : RequestInit :=
  let headers := [("Authorization", "Bearer " +:+ client_apiKey this);
                  ("Content-Type", "application/json");
                  ("Accept", "application/json")] in
  {| init_method := method;
     init_headers := headers;
     init_body := if truthy body then option_map JSON_stringify body else None |}.

(** The body of the [try] block. *)
Definition attempt (url method : string) (body : option json) : outcome json :=
  match fetch url (request_init method body) with
  | FetchRejected e => Threw e
  | FetchResponse ok status (Threw e) => Threw e
  | FetchResponse ok status (Done data) =>
      if negb ok then
        match data with
        | JNull =>
            Threw (ErrorInstance "TypeError"
                     "Cannot read properties of null (reading 'error')")
        | _ =>
            let message := opt_prop "message" (prop "error" data) in
            if truthy message then
              match template message with          (* [new Error(message)] *)
              | Some text => Threw (ErrorInstance "Error" text)
              | None => Threw not_primitive
              end
            else
              Threw (ErrorInstance "Error"
                       ("API request failed with status " +:+ pretty status))
        end
      else
        match data with
        | JObj props =>
            match assoc "data" props with
            | Some wrapped => Done wrapped
            | None => Done data
            end
        | _ => Done data
        end
  end.

Definition request (method path : string) (body : option json)
    (params : option (list (string * option ParamValue))) : ToolOutcome :=
  match href (client_baseUrl this +:+ path) (search_params params) with
  | None => Rejected (ErrorInstance "TypeError" "Invalid URL")
  | Some url =>
      match attempt url method body with
      | Done data => Resolved data
      | Threw (ErrorInstance name message) =>
          if String.eqb name "AbortError"
          then Rejected (ErrorInstance "Error"
                           ("Request timeout after " +:+ pretty (client_timeout this)
                            +:+ "ms"))
          else Rejected (ErrorInstance name message)
      | Threw (NonError _) => Rejected (ErrorInstance "Error" "Unknown error occurred")
      end
  end.

Definition get (path : string) (params : option (list (string * option ParamValue)))
  : ToolOutcome :=
  request "GET" path None params.

Definition post (path : string) (body : option json) : ToolOutcome :=
  request "POST" path body None.

Definition put (path : string) (body : option json) : ToolOutcome :=
  request "PUT" path body None.

Definition delete (path : string) : ToolOutcome :=
  request "DELETE" path None None.
End Client.

End Api.

(* ===================================================================== *)
(** ** server.ts: the stdio server's handlers and the server factory *)
(* ===================================================================== *)

Module Server.

Definition SERVER_NAME : string := "lakehouse42".
Definition SERVER_VERSION : string := "0.1.0".

(** [error instanceof Error ? error.message : "Unknown error occurred"] *)
Definition message_of (e : thrown) : string :=
  match e with
  | ErrorInstance _ msg => msg
  | NonError _ => "Unknown error occurred"
  end.

(** The handler of [tools/list]. *)
Definition listTools {imports : Imports} : json := JObj [("tools", TOOL_DEFINITIONS)].

(** The handler of [tools/call], on the [name] and [arguments] of
    [request.params]. *)
Definition callTool (toolExecutor : ToolExecutor) (name : json) (args : option json) : json :=
  match execute toolExecutor name (if truthy args then default (JObj []) args else JObj []) with
  | Resolved result =>
      JObj [("content", JArr [JObj [("type", JStr "text");
                                    ("text", JStr (JSON_stringify result))]])]
  | Rejected e =>
      JObj [("content",
             JArr [JObj [("type", JStr "text");
                         ("text", JStr (JSON_stringify
                                          (JObj [("error", JStr (message_of e))])))]]);
            ("isError", JBool true)]
  end.

(** The handler of [resources/read]. *)
Definition readResource (get : string -> option (list (string * json)) -> ToolOutcome)
    (uri : string) : outcome json :=
  match Resources.readResource get uri with
  | Done content =>
      Done (JObj [("contents",
                   JArr [obj [("uri", Some (JStr (Resources.content_uri content)));
                              ("mimeType", Some (Resources.content_mimeType content));
                              ("text", Resources.text content)]])])
  | Threw e =>
      Threw (ErrorInstance "Error"
               ("Failed to read resource " +:+ uri +:+ ": " +:+ message_of e))
  end.

(** [Partial<ServerConfig>] *)
Record PartialConfig := {
  config_apiKey : option string;
  config_baseUrl : option string;
  config_timeout : option Z;
}.

(** [a || b] on strings that may be missing. *)
Definition or_else (a b : option string) : option string :=
  match present a with
  | Some x => Some x
  | None => b
  end.

(** [a || "literal"] *)
Definition or_literal (a : option string) (b : string) : string :=
  match present a with
  | Some x => x
  | None => b
  end.

(** [createServer], as the configuration its server is constructed with;
    [env] is [process.env]. *)
Definition createServer (config : option PartialConfig) (env : string -> option string)
  : outcome Api.ServerConfig :=
  let apiKey := or_else (config ≫= config_apiKey) (env "LAKEHOUSE42_API_KEY") in
  let baseUrl :=
    or_literal (or_else (config ≫= config_baseUrl) (env "LAKEHOUSE42_BASE_URL"))
               "https://api.lakehouse42.com" in
  match present apiKey with
  | None =>
      Threw (ErrorInstance "Error"
               ("LAKEHOUSE42_API_KEY environment variable is required. "
                +:+ "Get your API key at https://app.lakehouse42.com/settings/api"))
  | Some apiKey =>
      Done {| Api.apiKey := apiKey;
              Api.baseUrl := baseUrl;
              Api.timeout := config ≫= config_timeout |}
  end.

(** The client of the server [createServer] makes. *)
Definition client_of (config : option PartialConfig) (env : string -> option string)
  : outcome Api.ApiClient :=
  match createServer config env with
  | Done config => Done (Api.new_ApiClient config)
  | Threw e => Threw e
  end.

End Server.

(* ===================================================================== *)
(** ** Sample collaborators *)
(* ===================================================================== *)

Module Sample.

(** [toLowerCase] on ASCII text. *)
Definition lower_char (c : ascii) : ascii :=
  let n := N_of_ascii c in
  if (65 <=? n)%N && (n <=? 90)%N then ascii_of_N (n + 32) else c.

Fixpoint lower (s : string) : string :=
  match s with
  | EmptyString => EmptyString
  | String c rest => String (lower_char c) (lower rest)
  end.

(** Base64 decoding of text that is its own bytes; characters outside the
    alphabet are skipped. *)
Definition base64_value (c : ascii) : option N :=
  let n := N_of_ascii c in
  if (65 <=? n)%N && (n <=? 90)%N then Some (n - 65)%N
  else if (97 <=? n)%N && (n <=? 122)%N then Some (n - 71)%N
  else if (48 <=? n)%N && (n <=? 57)%N then Some (n + 4)%N
  else if (n =? 43)%N then Some 62%N
  else if (n =? 47)%N then Some 63%N
  else None.

Fixpoint decode_sextets (l : list N) : list N :=
  match l with
  | a :: b :: c :: d :: rest =>
      let n := (a * 262144 + b * 4096 + c * 64 + d)%N in
      (n / 65536)%N :: ((n / 256) mod 256)%N :: (n mod 256)%N :: decode_sextets rest
  | [a; b; c] =>
      let n := (a * 262144 + b * 4096 + c * 64)%N in
      [(n / 65536)%N; ((n / 256) mod 256)%N]
  | [a; b] => [((a * 262144 + b * 4096) / 65536)%N]
  | _ => []
  end.

Definition base64_decode (s : string) : string :=
  string_of_list_ascii
    (map ascii_of_N (decode_sextets (omap base64_value (list_ascii_of_string s)))).

(** Scores as integers, rounding as the identity. *)
Definition hit (n : Z) : Tools.SearchResult Z :=
  {| Tools.document_id := "d-" +:+ pretty n; Tools.document_name := "Document " +:+ pretty n;
     Tools.content := "content"; Tools.score := n |}.

Definition page : Tools.SearchResponse Z :=
  {| Tools.results := map hit [1; 2; 3; 4; 5; 6; 7]; Tools.total_results := 12 |}.

(** Handlers that answer with the name of their tool and their arguments. *)
Definition named (tool : string) (args : json) : ToolOutcome :=
  Resolved (JObj [("tool", JStr tool); ("arguments", args)]).

Definition handlers : Tools.Handlers :=
  {| Tools.searchToolsHandler := named "search_tools";
     Tools.search := named "search";
     Tools.askQuestion := named "ask_question";
     Tools.getDocument := named "get_document";
     Tools.listDocuments := named "list_documents";
     Tools.listCollections := named "list_collections";
     Tools.uploadDocument := named "upload_document";
     Tools.timeTravelQuery := named "time_travel_query";
     Tools.timeTravelDiff := named "time_travel_diff";
     Tools.listSnapshots := named "list_snapshots" |}.

Definition transport : HttpTransport :=
  new_HttpTransport {| options_toolExecutor := Tools.new_ToolExecutor handlers;
                       options_serverName := None; options_serverVersion := None |}.

(** An executor whose tools throw a string, not an [Error]. *)
Definition throwing_tools : ToolExecutor :=
  {| execute := fun _ _ => Rejected (NonError (JStr "not found")) |}.

Definition throwing_transport : HttpTransport :=
  new_HttpTransport {| options_toolExecutor := throwing_tools;
                       options_serverName := None; options_serverVersion := None |}.

(** An API that knows two documents and whose collections are unavailable. *)
Definition report : json :=
  JObj [("id", JStr "doc-1"); ("title", JStr "Report"); ("status", JStr "ready");
        ("chunk_count", JNum 4)].

Definition notes : json :=
  JObj [("id", JStr "a/content"); ("title", JStr "Notes"); ("status", JStr "ready");
        ("chunk_count", JNum 1)].

Definition api (path : string) (params : option (list (string * json))) : ToolOutcome :=
  if String.eqb path "/api/v1/documents" then
    Resolved (JObj [("documents", JArr [report; notes]); ("has_more", JBool false);
                    ("next_cursor", JNull); ("total_count", JNum 2)])
  else if String.eqb path "/api/v1/documents/doc-1" then Resolved report
  else Rejected (ErrorInstance "Error" "API request failed with status 503").

(** A platform on which every URL is valid and every request is aborted. *)
Definition href (base : string) (query : list (string * string)) : option string :=
  Some base.

Definition aborted (url : string) (init : Api.RequestInit) : Api.FetchOutcome :=
  Api.FetchRejected (ErrorInstance "AbortError" "This operation was aborted").

(** A platform that answers every request with a wrapped value. *)
Definition wrapped (url : string) (init : Api.RequestInit) : Api.FetchOutcome :=
  Api.FetchResponse true 200 (Done (JObj [("data", JStr url); ("meta", JObj [])])).

Definition client : Api.ApiClient :=
  Api.new_ApiClient {| Api.apiKey := "key"; Api.baseUrl := "https://api.example.com/";
                       Api.timeout := None |}.

(** [{"id":3,"method":"tools/call","params":{"name":"frobnicate"}}] *)
Definition unknown_tool_text : string :=
  "{" +:+ q "id" +:+ ":3," +:+ q "method" +:+ ":" +:+ q "tools/call" +:+ ","
      +:+ q "params" +:+ ":{" +:+ q "name" +:+ ":" +:+ q "frobnicate" +:+ "}}".

Definition unknown_tool_request : json :=
  JObj [("id", JNum 3); ("method", JStr "tools/call");
        ("params", JObj [("name", JStr "frobnicate")])].

(** [{"id":9,"method":{"toString":1}}]: a method that no template literal
    can convert to text. *)
Definition unprintable_method_text : string :=
  "{" +:+ q "id" +:+ ":9," +:+ q "method" +:+ ":{" +:+ q "toString" +:+ ":1}}".

Definition unprintable_method_request : json :=
  JObj [("id", JNum 9); ("method", JObj [("toString", JNum 1)])].

(** [{"id":4,"method":"tools/call","params":{"name":{"toString":1}}}] *)
Definition unprintable_tool_text : string :=
  "{" +:+ q "id" +:+ ":4," +:+ q "method" +:+ ":" +:+ q "tools/call" +:+ ","
      +:+ q "params" +:+ ":{" +:+ q "name" +:+ ":{" +:+ q "toString" +:+ ":1}}}".

Definition unprintable_tool_request : json :=
  JObj [("id", JNum 4); ("method", JStr "tools/call");
        ("params", JObj [("name", JObj [("toString", JNum 1)])])].

End Sample.

(* ===================================================================== *)
(** ** Properties of the dispatcher *)
(* ===================================================================== *)

Lemma add_calls_nil w : add_calls [] w = w.
Proof. destruct w. unfold add_calls. simpl. by rewrite app_nil_r. Qed.

Lemma prefix_refl s : String.prefix s s = true.
Proof. induction s as [|c s IH]; simpl; [done|]. by destruct (ascii_dec c c). Qed.

Lemma includes_self s : includes s s = true.
Proof. destruct s as [|a s]; [done|]. cbn [includes]. by rewrite prefix_refl. Qed.

Lemma includes_suffix p s : includes s (p +:+ s) = true.
Proof.
  induction p as [|c p IH].
  - exact (includes_self s).
  - change (includes s (String c (p +:+ s)) = true). cbn [includes].
    rewrite IH. apply orb_true_r.
Qed.

(** Case analysis on every [match] and [if] whose scrutinee is atomic. *)
Ltac split_cases :=
  repeat match goal with
         | |- context [match ?x with _ => _ end] =>
             lazymatch x with
             | context [match _ with _ => _ end] => fail
             | _ => destruct x eqn:?
             end
         | |- context [if ?x then _ else _] =>
             lazymatch x with
             | context [if _ then _ else _] => fail
             | _ => destruct x eqn:?
             end
         end.

Ltac unfold_monad :=
  unfold try_catch, bind, call_tool, throw, ret, res_setHeader, res_writeHead,
    res_write, res_end, modify_res, modify_sessions, get_sessions in *.

Section Dispatcher.
Context {imports : Imports}.
Variable this : HttpTransport.

Lemma processRequest_null w :
  processRequest this JNull w
  = (Threw (ErrorInstance "TypeError"
              "Cannot destructure property 'id' of 'request' as it is null."), w).
Proof. reflexivity. Qed.

(** The dispatcher answers every request that is not null, and touches
    nothing but the log of tool calls. *)
Lemma processRequest_answers request :
  request <> JNull ->
  exists r calls,
    (forall w, processRequest this request w = (Done r, add_calls calls w))
    /\ response_id r = prop "id" request.
Proof.
  intros Hnn. unfold processRequest.
  destruct request; try congruence; unfold_monad; split_cases; simplify_eq/=.
  all: try (eexists _, []; split; [intros w; rewrite add_calls_nil|]; reflexivity).
  all: eexists _, [_]; split; [intros w|]; reflexivity.
Qed.

Lemma processRequest_unknown request :
  request <> JNull ->
  known_method (prop "method" request) = false ->
  forall w, processRequest this request w
            = (Done match template (prop "method" request) with
                    | Some text =>
                        failure (prop "id" request) (-32601) ("Method not found: " +:+ text)
                    | None =>
                        failure (prop "id" request) (-32000) (error_message not_primitive)
                    end, w).
Proof.
  intros Hnn Hk w. unfold processRequest, known_method in *.
  destruct request; try congruence; unfold_monad;
    destruct (prop "method" _) as [[]|]; try reflexivity.
  all: try by destruct (template _).
  all: repeat (apply orb_false_elim in Hk as [Hk ?]).
  all: by repeat match goal with Heq : String.eqb _ _ = false |- _ => rewrite Heq; clear Heq end.
Qed.

Lemma processRequest_tools_call request :
  request <> JNull ->
  prop "method" request = Some (JStr "tools/call") ->
  let id := prop "id" request in
  let params := prop "params" request in
  let name := opt_prop "name" params in
  forall w, processRequest this request w =
    if truthy name then
      (Done match execute (toolExecutor this) (default JNull name) (call_arguments params) with
            | Resolved v => success id (text_content (JSON_stringify v))
            | Rejected e => failure id (-32000) (error_message e)
            end,
       add_calls [(default JNull name, call_arguments params)] w)
    else (Done (failure id (-32000) "Tool name required"), w).
Proof.
  intros Hnn Hm id params name w. subst id params name.
  unfold processRequest, call_arguments.
  destruct request; try congruence; rewrite Hm; unfold_monad; simpl;
    split_cases; simplify_eq/=; reflexivity.
Qed.

(** C6. A request whose method is none of [initialize], [tools/list],
    [tools/call], [ping] and can be converted to text by the template
    literal (a string is its own text) is answered with error -32601, and
    the message ends with the method as given.  When the conversion throws,
    the answer is the error -32000 with the message of the TypeError.
    Every answer carries the id of its request, absent when that one is
    absent. *)
Theorem C6_unknown_method_and_id_echo request :
  request <> JNull ->
  exists r calls,
    (forall w, processRequest this request w = (Done r, add_calls calls w))
    /\ response_id r = prop "id" request
    /\ (known_method (prop "method" request) = false ->
        (forall text,
           template (prop "method" request) = Some text ->
           error r = Some {| code := -32601; message := "Method not found: " +:+ text |}
           /\ result r = None
           /\ includes text ("Method not found: " +:+ text) = true
           /\ calls = [])
        /\ (forall m,
              prop "method" request = Some (JStr m) ->
              error r = Some {| code := -32601; message := "Method not found: " +:+ m |})
        /\ (prop "method" request = None ->
            error r = Some {| code := -32601; message := "Method not found: undefined" |})
        /\ (forall props,
              prop "method" request = Some (JObj props) ->
              assoc "toString" props = None ->
              error r = Some {| code := -32601;
                                message := "Method not found: [object Object]" |})
        /\ (template (prop "method" request) = None ->
            error r = Some {| code := -32000;
                              message := "Cannot convert object to primitive value" |}
            /\ result r = None
            /\ calls = [])
        /\ (forall props value,
              prop "method" request = Some (JObj props) ->
              assoc "toString" props = Some value ->
              error r = Some {| code := -32000;
                                message := "Cannot convert object to primitive value" |})).
Proof.
  intros Hnn.
  destruct (processRequest_answers request Hnn) as (r & calls & Hrun & Hid).
  exists r, calls. split; [done|]. split; [done|].
  intros Hk. pose proof (processRequest_unknown request Hnn Hk) as Hu.
  pose proof (Hu {| sessions := ∅; res := fresh_response; toolCalls := [] |}) as Hw0.
  rewrite Hrun in Hw0. injection Hw0 as Hr Hc.
  assert (calls = []) as Hcalls by (unfold add_calls in Hc; by simplify_eq/=).
  split; [|split; [|split; [|split; [|split]]]].
  - intros text Ht. rewrite Ht in Hr. subst r. cbn.
    split; [done|]. split; [done|]. split; [apply includes_suffix|done].
  - intros m Hm. rewrite Hm in Hr. by subst r.
  - intros Hm. rewrite Hm in Hr. by subst r.
  - intros props Hm Hown. rewrite Hm in Hr. cbn in Hr. rewrite Hown in Hr. by subst r.
  - intros Ht. rewrite Ht in Hr. by subst r.
  - intros props value Hm Hown. rewrite Hm in Hr. cbn in Hr. rewrite Hown in Hr.
    by subst r.
Qed.
End Dispatcher.

(* ===================================================================== *)
(** ** Properties of the handlers *)
(* ===================================================================== *)

Lemma gtb_expired env s :
  (now env - createdAt s >? SESSION_TTL_MS) = true <-> expired env s.
Proof. unfold expired. rewrite Z.gtb_gt. done. Qed.

Lemma gtb_not_expired env s :
  (now env - createdAt s >? SESSION_TTL_MS) = false <-> ~ expired env s.
Proof. rewrite <- gtb_expired. by destruct (_ >? _). Qed.

Lemma write_events_spec events w :
  write_events events w
  = (Done tt, {| sessions := sessions w;
                 res := {| statusCode := statusCode (res w); headers := headers (res w);
                           chunks := app (chunks (res w)) (frames events);
                           ended := ended (res w) |};
                 toolCalls := toolCalls w |}).
Proof.
  revert w. induction events as [|e events IH]; intros [m [st hs cs en] calls].
  - simpl. unfold ret. by rewrite app_nil_r.
  - cbn [write_events]. unfold_monad. simpl. rewrite IH. simpl.
    by rewrite <- !app_assoc.
Qed.

Lemma bind_ret_l {A B} (a : A) (k : A -> M B) w : bind (ret a) k w = k a w.
Proof. reflexivity. Qed.

Lemma bind_run {A B} (m : M A) (k : A -> M B) w :
  bind m k w = match m w with
               | (Done a, w') => k a w'
               | (Threw e, w') => (Threw e, w')
               end.
Proof. reflexivity. Qed.

Lemma getSession_spec env id w :
  getSession env id w =
  match sessions w !! id with
  | Some session =>
      if now env - createdAt session >? SESSION_TTL_MS
      then (Done None, {| sessions := delete id (sessions w); res := res w;
                          toolCalls := toolCalls w |})
      else (Done (Some session), w)
  | None => (Done None, w)
  end.
Proof.
  unfold getSession. rewrite bind_run. unfold get_sessions.
  destruct (sessions w !! id) as [s|]; [|done]. by destruct (_ >? _).
Qed.

Section Handlers.
Context {imports : Imports}.
Variable this : HttpTransport.

(** The router, as a table. *)
Lemma serve_route env req m :
  serve this env req m =
  match pathname req with
  | None => (Threw (ErrorInstance "TypeError" "Invalid URL"),
             {| sessions := m; res := fresh_response; toolCalls := [] |})
  | Some path =>
      if String.eqb (method req) "OPTIONS" then reply 204 [] None (start m)
      else if is_mcp_path path then
        if String.eqb (method req) "POST" then handlePost this env req (start m)
        else if String.eqb (method req) "GET" then handleGet env req (start m)
        else if String.eqb (method req) "DELETE" then handleDelete req (start m)
        else reply 405 [] None (start m)
      else if String.eqb path "/health" then
        reply 200 json_headers (Some (Body (health_body this))) (start m)
      else reply 404 [] None (start m)
  end.
Proof.
  unfold serve, handleRequest, is_mcp_path. destruct (pathname req) as [path|]; [|done].
  unfold_monad; simpl. by split_cases.
Qed.

Lemma handlePost_cases env req m :
  match body req with
  | BodyError e => handlePost this env req (start m) = (Threw e, start m)
  | BodyText text =>
      match JSON_parse text with
      | None =>
          handlePost this env req (start m)
          = reply 400 json_headers (Some (error_body "Invalid JSON")) (start m)
      | Some request =>
          match resolve env req m with
          | None =>
              exists sessionId,
                present (mcp_session_id req) = Some sessionId
                /\ handlePost this env req (start m)
                   = reply 404 json_headers (Some (error_body "Session not found"))
                       (start (delete sessionId m))
          | Some (k, s0, m0) =>
              handlePost this env req (start m)
              = dispatchAndReply this req request s0 k (start m0)
          end
      end
  end.
Proof.
  unfold handlePost, readBody, resolve, createSession.
  destruct (body req) as [text|e]; [|done].
  rewrite bind_ret_l. destruct (JSON_parse text) as [request|]; [|done].
  destruct (present (mcp_session_id req)) as [sid|]; [|done].
  rewrite bind_run, getSession_spec. cbn [sessions start].
  destruct (m !! sid) as [s|] eqn:Hlk.
  - destruct (_ >? _); [|done]. by exists sid.
  - exists sid. by rewrite delete_id.
Qed.

Lemma dispatchAndReply_null req s0 k m0 :
  exists w, dispatchAndReply this req JNull s0 k (start m0)
            = (Threw (ErrorInstance "TypeError"
                        "Cannot destructure property 'id' of 'request' as it is null."), w)
    /\ sessions w = m0 /\ toolCalls w = []
    /\ statusCode (res w) = None /\ chunks (res w) = [] /\ ended (res w) = false.
Proof. eexists. unfold dispatchAndReply. unfold_monad. simpl. repeat split. Qed.

Lemma dispatchAndReply_answers req request s0 k m0 :
  request <> JNull ->
  exists r calls w,
    (forall w0, processRequest this request w0 = (Done r, add_calls calls w0))
    /\ dispatchAndReply this req request s0 k (start m0) = (Done tt, w)
    /\ sessions w = (if wants_stream req
                     then alter (set_lastEventId (lastEventId s0 + 1)) k m0 else m0)
    /\ statusCode (res w) = Some 200
    /\ chunks (res w) = (if wants_stream req
                         then [IdLine (lastEventId s0 + 1); DataLine r]
                         else [Body (JSON_stringify (response_json r))])
    /\ ended (res w) = true
    /\ header "Mcp-Session-Id" (res w) = Some k
    /\ toolCalls w = calls.
Proof.
  intros Hnn.
  destruct (processRequest_answers this request Hnn) as (r & calls & Hrun & _).
  exists r, calls. unfold dispatchAndReply, wants_stream. unfold_monad. simpl.
  rewrite Hrun. simpl.
  destruct (includes _ _); simpl; (eexists; split; [exact Hrun|]; repeat split; reflexivity).
Qed.

Lemma handleGet_cases env req m :
  match present (mcp_session_id req) with
  | None =>
      handleGet env req (start m)
      = reply 400 json_headers (Some (error_body "Mcp-Session-Id header required")) (start m)
  | Some sessionId =>
      match m !! sessionId with
      | Some session =>
          if now env - createdAt session >? SESSION_TTL_MS then
            handleGet env req (start m)
            = reply 404 json_headers (Some (error_body "Session not found"))
                (start (delete sessionId m))
          else
            exists w, handleGet env req (start m) = (Done tt, w)
              /\ sessions w = m /\ toolCalls w = []
              /\ statusCode (res w) = Some 200
              /\ header "Mcp-Session-Id" (res w) = Some sessionId
              /\ chunks (res w)
                 = match present (last_event_id req) with
                   | Some h => frames (filter (fun e => id_gt (parseInt h) e)
                                         (pendingEvents session))
                   | None => []
                   end
              /\ ended (res w) = false
      | None =>
          handleGet env req (start m)
          = reply 404 json_headers (Some (error_body "Session not found")) (start m)
      end
  end.
Proof.
  unfold handleGet.
  destruct (present (mcp_session_id req)) as [sid|]; [|done].
  rewrite bind_run, getSession_spec. cbn [sessions start].
  destruct (m !! sid) as [s|] eqn:Hlk; [|done].
  destruct (_ >? _); [done|].
  destruct (present (last_event_id req)) as [h|].
  - rewrite bind_run. unfold res_writeHead, modify_res. rewrite write_events_spec.
    eexists. split; [reflexivity|]. simpl. repeat split.
  - eexists. unfold_monad. simpl. repeat split.
Qed.

Lemma handleDelete_spec req m :
  handleDelete req (start m)
  = reply 204 [] None
      (start match present (mcp_session_id req) with
             | Some sessionId => delete sessionId m
             | None => m
             end).
Proof. unfold handleDelete. by destruct (present _). Qed.
End Handlers.

(* ===================================================================== *)
(** ** One request and one session *)
(* ===================================================================== *)

Lemma reply_start status hs chunk m :
  reply status hs chunk (start m)
  = (Done tt,
     {| sessions := m;
        res := {| statusCode := Some status;
                  headers := fold_left (fun acc kv => set_header (fst kv) (snd kv) acc)
                               hs (headers cors_response);
                  chunks := option_list chunk; ended := true |};
        toolCalls := [] |}).
Proof. reflexivity. Qed.

Lemma ids_of_single k k' n :
  ids_of k [(k', n)] = if decide (k' = k) then [n] else [].
Proof. unfold ids_of. cbn. by destruct (decide (k' = k)). Qed.

Lemma ids_of_app k f1 f2 : ids_of k (app f1 f2) = app (ids_of k f1) (ids_of k f2).
Proof. unfold ids_of. by rewrite filter_app, fmap_app. Qed.

Lemma resolve_Some env req m k s0 m0 :
  resolve env req m = Some (k, s0, m0) ->
  target env req = k
  /\ ((present (mcp_session_id req) = Some k /\ m !! k = Some s0
       /\ ~ expired env s0 /\ m0 = m)
      \/ (present (mcp_session_id req) = None /\ k = uuid env
          /\ s0 = new_session env /\ m0 = <[uuid env := new_session env]> m)).
Proof.
  unfold resolve, target. destruct (present _) as [sid|].
  - destruct (m !! sid) as [s|] eqn:Hlk; [|done].
    destruct (_ >? _) eqn:Hexp; [done|]. intros [= <- <- <-].
    split; [done|]. left. by rewrite <- gtb_not_expired.
  - intros [= <- <- <-]. split; [done|]. by right.
Qed.

Section OneSession.
Context {imports : Imports}.
Variable this : HttpTransport.

(** What a request can do to a session that exists: remove it, leave it
    as it is, or add one to its counter while emitting the frame of that
    number.  Only a request that names the session does the first or the
    last. *)
Lemma serve_live env req m k s :
  m !! k = Some s ->
  uuid env <> k ->
  let w := snd (serve this env req m) in
  (sessions w !! k = None /\ ids_of k (emitted env req w) = []
   /\ present (mcp_session_id req) = Some k)
  \/ (sessions w !! k = Some s /\ ids_of k (emitted env req w) = [])
  \/ (sessions w !! k = Some (set_lastEventId (lastEventId s + 1) s)
      /\ ids_of k (emitted env req w) = [lastEventId s + 1]
      /\ present (mcp_session_id req) = Some k).
Proof.
  intros Hk Hu w. subst w. rewrite serve_route. unfold emitted.
  destruct (pathname req) as [path|];
    [|right; left; cbn; by destruct (String.eqb (method req) "POST")].
  destruct (String.eqb (method req) "OPTIONS") eqn:Hopt.
  { apply String.eqb_eq in Hopt. rewrite Hopt. by right; left. }
  destruct (is_mcp_path path).
  2: { right; left. destruct (String.eqb path "/health"); rewrite reply_start; cbn;
       by destruct (String.eqb (method req) "POST"). }
  destruct (String.eqb (method req) "POST") eqn:Hpost.
  - pose proof (handlePost_cases this env req m) as Hc.
    destruct (body req) as [text|e]; [|rewrite Hc; by right; left].
    destruct (JSON_parse text) as [request|]; [|rewrite Hc; by right; left].
    destruct (resolve env req m) as [[[k' s0] m0]|] eqn:Hres.
    + rewrite Hc. apply resolve_Some in Hres as [Ht Hres]. rewrite Ht.
      assert (Hm0 : (k' = k -> s0 = s /\ m0 = m /\ present (mcp_session_id req) = Some k)
                    /\ m0 !! k = Some s).
      { destruct Hres as [(? & Hlk & _ & ->)|(_ & -> & _ & ->)].
        - split; [|done]. intros ->. by simplify_eq.
        - split; [done|]. by rewrite lookup_insert_ne. }
      destruct Hm0 as [Hsame Hm0].
      assert (request = JNull \/ request <> JNull) as [->|Hnn]
        by (destruct request; auto).
      * destruct (dispatchAndReply_null this req s0 k' m0)
          as (w & -> & Hs & _ & _ & Hch & _).
        right; left. cbn [snd]. unfold frame_ids. rewrite Hs, Hch. done.
      * destruct (dispatchAndReply_answers this req request s0 k' m0 Hnn)
          as (r & calls & w & _ & -> & Hs & _ & Hch & _).
        cbn [snd]. unfold frame_ids. rewrite Hs, Hch.
        destruct (wants_stream req); [|by right; left].
        cbn -[ids_of]. rewrite ids_of_single. destruct (decide (k' = k)) as [->|Hne].
        -- destruct (Hsame eq_refl) as (-> & -> & Hp).
           right; right. by rewrite lookup_alter_eq, Hk.
        -- right; left. by rewrite lookup_alter_ne.
    + destruct Hc as (sid & Hp & ->). rewrite reply_start. cbn.
      destruct (decide (sid = k)) as [->|Hne].
      * left. by rewrite lookup_delete_eq.
      * right; left. by rewrite lookup_delete_ne.
  - destruct (String.eqb (method req) "GET").
    { pose proof (handleGet_cases env req m) as Hc.
      destruct (present (mcp_session_id req)) as [sid|]; [|rewrite Hc; by right; left].
      destruct (m !! sid) as [s1|] eqn:Hlk; [|rewrite Hc; by right; left].
      destruct (_ >? _).
      - rewrite Hc, reply_start. cbn. destruct (decide (sid = k)) as [->|Hne].
        + left. by rewrite lookup_delete_eq.
        + right; left. by rewrite lookup_delete_ne.
      - destruct Hc as (w & -> & Hs & _). cbn [snd]. rewrite Hs. by right; left. }
    destruct (String.eqb (method req) "DELETE"); [|by right; left].
    rewrite handleDelete_spec, reply_start. cbn.
    destruct (present (mcp_session_id req)) as [sid|]; [|by right; left].
    destruct (decide (sid = k)) as [->|Hne].
    + left. by rewrite lookup_delete_eq.
    + right; left. by rewrite lookup_delete_ne.
Qed.

(** What a request can do for a session id that is free: nothing, unless
    the request draws that id and creates the session. *)
Lemma serve_absent env req m k :
  m !! k = None ->
  let w := snd (serve this env req m) in
  (sessions w !! k = None /\ ids_of k (emitted env req w) = [])
  \/ (uuid env = k /\ sessions w !! k = Some (new_session env)
      /\ ids_of k (emitted env req w) = [])
  \/ (uuid env = k /\ sessions w !! k = Some (set_lastEventId 1 (new_session env))
      /\ ids_of k (emitted env req w) = [1]).
Proof.
  intros Hk w. subst w. rewrite serve_route. unfold emitted.
  destruct (pathname req) as [path|];
    [|left; cbn; by destruct (String.eqb (method req) "POST")].
  destruct (String.eqb (method req) "OPTIONS") eqn:Hopt.
  { apply String.eqb_eq in Hopt. rewrite Hopt. by left. }
  destruct (is_mcp_path path).
  2: { left. destruct (String.eqb path "/health"); rewrite reply_start; cbn;
       by destruct (String.eqb (method req) "POST"). }
  destruct (String.eqb (method req) "POST") eqn:Hpost.
  - pose proof (handlePost_cases this env req m) as Hc.
    destruct (body req) as [text|e]; [|rewrite Hc; by left].
    destruct (JSON_parse text) as [request|]; [|rewrite Hc; by left].
    destruct (resolve env req m) as [[[k' s0] m0]|] eqn:Hres.
    + rewrite Hc. apply resolve_Some in Hres as [Ht Hres]. rewrite Ht.
      assert (request = JNull \/ request <> JNull) as [->|Hnn]
        by (destruct request; auto).
      * destruct (dispatchAndReply_null this req s0 k' m0)
          as (w & -> & Hs & _ & _ & Hch & _).
        cbn [snd]. unfold frame_ids. rewrite Hs, Hch.
        destruct Hres as [(_ & Hlk & _ & ->)|(_ & -> & -> & ->)]; [by left|].
        destruct (decide (uuid env = k)) as [<-|Hne].
        -- right; left. by rewrite lookup_insert_eq.
        -- left. by rewrite lookup_insert_ne.
      * destruct (dispatchAndReply_answers this req request s0 k' m0 Hnn)
          as (r & calls & w & _ & -> & Hs & _ & Hch & _).
        cbn [snd]. unfold frame_ids. rewrite Hs, Hch.
        destruct Hres as [(_ & Hlk & _ & ->)|(_ & -> & -> & ->)].
        -- left. assert (k' <> k) by congruence.
           destruct (wants_stream req); [|done]. cbn -[ids_of].
           rewrite ids_of_single, lookup_alter_ne by done. by case_decide.
        -- destruct (decide (uuid env = k)) as [<-|Hne].
           ++ destruct (wants_stream req).
              ** right; right. cbn -[ids_of].
                 rewrite ids_of_single, lookup_alter_eq, lookup_insert_eq.
                 by case_decide.
              ** right; left. by rewrite lookup_insert_eq.
           ++ left. destruct (wants_stream req); cbn -[ids_of];
                rewrite ?ids_of_single, ?lookup_alter_ne, lookup_insert_ne by done;
                [by case_decide|done].
    + destruct Hc as (sid & _ & ->). rewrite reply_start. cbn.
      left. split; [|done]. apply lookup_delete_None. by right.
  - left. destruct (String.eqb (method req) "GET").
    { pose proof (handleGet_cases env req m) as Hc.
      destruct (present (mcp_session_id req)) as [sid|]; [|by rewrite Hc].
      destruct (m !! sid) as [s1|] eqn:Hlk; [|by rewrite Hc].
      destruct (_ >? _).
      - rewrite Hc, reply_start. cbn. split; [|done]. apply lookup_delete_None. by right.
      - destruct Hc as (w & -> & Hs & _). cbn [snd]. by rewrite Hs. }
    destruct (String.eqb (method req) "DELETE"); [|done].
    rewrite handleDelete_spec, reply_start. cbn.
    destruct (present (mcp_session_id req)) as [sid|]; [|done].
    split; [|done]. apply lookup_delete_None. by right.
Qed.

(** A request reaches no session but the one its header names and the
    one it creates. *)
Lemma serve_frame env req m k :
  present (mcp_session_id req) <> Some k ->
  uuid env <> k ->
  sessions (snd (serve this env req m)) !! k = m !! k.
Proof.
  intros Hh Hu. destruct (m !! k) as [s|] eqn:Hk.
  - by destruct (serve_live env req m k s Hk Hu) as [(_ & _ & ?)|[[Hs _]|(_ & _ & ?)]].
  - by destruct (serve_absent env req m k Hk) as [[Hs _]|[[? _]|[? _]]].
Qed.
End OneSession.

(* ===================================================================== *)
(** ** Runs: the event counter and the ids emitted *)
(* ===================================================================== *)

Lemma set_lastEventId_same s : set_lastEventId (lastEventId s) s = s.
Proof. by destruct s. Qed.

Lemma set_lastEventId_twice a b s :
  set_lastEventId a (set_lastEventId b s) = set_lastEventId a s.
Proof. reflexivity. Qed.

Lemma sweep_absent t m k : m !! k = None -> sweep t m !! k = None.
Proof. intros Hk. unfold sweep. apply map_lookup_filter_None. by left. Qed.

Lemma sweep_lookup t m k s : sweep t m !! k = Some s -> m !! k = Some s.
Proof. unfold sweep. rewrite map_lookup_filter_Some. by intros [? _]. Qed.

Lemma StronglySorted_seqZ a n : StronglySorted Z.lt (seqZ a (Z.of_nat n)).
Proof.
  revert a. induction n as [|n IH]; intros a.
  - rewrite seqZ_nil by lia. constructor.
  - rewrite seqZ_cons by lia. replace (Z.pred (Z.of_nat (S n))) with (Z.of_nat n) by lia.
    constructor; [apply IH|]. apply Forall_seqZ. lia.
Qed.

Lemma seqZ_length_eq l a (n : nat) : l = seqZ a (Z.of_nat n) -> List.length l = n.
Proof. intros ->. rewrite length_seqZ. lia. Qed.

Section RunProperties.
Context {imports : Imports}.
Variable this : HttpTransport.

Lemma run_app ops1 ops2 m :
  run this (app ops1 ops2) m
  = (fst (run this ops2 (fst (run this ops1 m))),
     app (snd (run this ops1 m)) (snd (run this ops2 (fst (run this ops1 m))))).
Proof.
  revert m. induction ops1 as [|op ops1 IH]; intros m.
  - cbn. by destruct (run this ops2 m).
  - cbn [app run]. rewrite IH. cbn. by rewrite app_assoc.
Qed.

Lemma draws_app k ops1 ops2 : draws k (app ops1 ops2) = (draws k ops1 + draws k ops2)%nat.
Proof.
  induction ops1 as [|[env req|t] ops1 IH]; cbn [app draws]; [done| |done].
  rewrite IH. lia.
Qed.

(** An id that is free and never drawn stays free. *)
Lemma run_dead ops m k :
  m !! k = None -> draws k ops = 0%nat ->
  fst (run this ops m) !! k = None /\ ids_of k (snd (run this ops m)) = [].
Proof.
  revert m. induction ops as [|[env req|t] ops IH]; intros m Hk Hd; [done| |].
  - cbn [draws] in Hd. destruct (decide (uuid env = k)) as [|Hne]; [lia|].
    cbn [run exec fst snd]. rewrite ids_of_app.
    destruct (serve_absent this env req m k Hk) as [[Hs Hi]|[[? _]|[? _]]]; try done.
    rewrite Hi. apply IH; [done|lia].
  - cbn [run exec fst snd draws] in *. apply IH; [by apply sweep_absent|done].
Qed.

(** A session whose id is not drawn again: its frames are numbered on
    from its counter, and the counter has moved by their number. *)
Lemma run_live ops m k s :
  m !! k = Some s -> draws k ops = 0%nat ->
  exists n : nat,
    ids_of k (snd (run this ops m)) = seqZ (lastEventId s + 1) (Z.of_nat n)
    /\ (fst (run this ops m) !! k = None
        \/ fst (run this ops m) !! k
           = Some (set_lastEventId (lastEventId s + Z.of_nat n) s)).
Proof.
  revert m s. induction ops as [|[env req|t] ops IH]; intros m s Hk Hd.
  - exists 0%nat. cbn. split; [done|]. right.
    by rewrite Z.add_0_r, set_lastEventId_same.
  - cbn [draws] in Hd. destruct (decide (uuid env = k)) as [|Hne]; [lia|].
    cbn [run exec fst snd]. rewrite ids_of_app.
    destruct (serve_live this env req m k s Hk Hne)
      as [(Hs & Hi & _)|[(Hs & Hi)|(Hs & Hi & _)]]; rewrite Hi.
    + destruct (run_dead ops _ k Hs) as [Hf Hids]; [lia|].
      exists 0%nat. rewrite Hids. split; [done|]. by left.
    + destruct (IH _ s Hs) as (n & Hids & Hf); [lia|]. by exists n.
    + destruct (IH _ _ Hs) as (n & Hids & Hf); [lia|].
      exists (S n). rewrite Hids. cbn [lastEventId set_lastEventId] in *. split.
      * rewrite (seqZ_cons _ (Z.of_nat (S n))) by lia.
        replace (Z.pred (Z.of_nat (S n))) with (Z.of_nat n) by lia.
        by replace (Z.succ (lastEventId s + 1)) with (lastEventId s + 1 + 1) by lia.
      * destruct Hf as [Hf|Hf]; [by left|right]. rewrite Hf. f_equal.
        unfold set_lastEventId. cbn. f_equal. lia.
  - cbn [run exec fst snd draws] in *.
    destruct (sweep t m !! k) as [s'|] eqn:Hs.
    + apply sweep_lookup in Hs as Hm. assert (s' = s) as -> by congruence.
      destruct (IH _ s Hs Hd) as (n & Hids & Hf). by exists n.
    + destruct (run_dead ops _ k Hs Hd) as [Hf Hids].
      exists 0%nat. cbn [app]. rewrite Hids. split; [done|]. by left.
Qed.

(** An id that is free and drawn at most once: the frames of the session
    it comes to name are numbered from 1. *)
Lemma run_fresh ops m k :
  m !! k = None -> (draws k ops <= 1)%nat ->
  exists n : nat,
    ids_of k (snd (run this ops m)) = seqZ 1 (Z.of_nat n)
    /\ (fst (run this ops m) !! k = None
        \/ exists env, uuid env = k
             /\ fst (run this ops m) !! k
                = Some (set_lastEventId (Z.of_nat n) (new_session env))).
Proof.
  revert m. induction ops as [|[env req|t] ops IH]; intros m Hk Hd.
  - exists 0%nat. split; [done|]. by left.
  - cbn [draws] in Hd. cbn [run exec fst snd]. rewrite ids_of_app.
    destruct (serve_absent this env req m k Hk)
      as [[Hs Hi]|[(Hu & Hs & Hi)|(Hu & Hs & Hi)]]; rewrite Hi.
    + apply IH; [done|]. destruct (decide (uuid env = k)); lia.
    + rewrite decide_True in Hd by done.
      destruct (run_live ops _ k _ Hs) as (n & Hids & Hf); [lia|].
      exists n. split; [done|]. destruct Hf as [Hf|Hf]; [by left|right].
      exists env. split; [done|]. by rewrite Hf.
    + rewrite decide_True in Hd by done.
      destruct (run_live ops _ k _ Hs) as (n & Hids & Hf); [lia|].
      exists (S n). rewrite Hids. cbn [lastEventId set_lastEventId] in *. split.
      * rewrite (seqZ_cons _ (Z.of_nat (S n))) by lia.
        by replace (Z.pred (Z.of_nat (S n))) with (Z.of_nat n) by lia.
      * destruct Hf as [Hf|Hf]; [by left|right]. exists env. split; [done|].
        rewrite Hf. unfold set_lastEventId. cbn. do 2 f_equal. lia.
  - cbn [run exec fst snd draws] in *. apply IH; [by apply sweep_absent|done].
Qed.

(** C4. Over any run in which the id [k] is drawn at most once, and not
    at all when a session already has it: the frames emitted for [k] are
    numbered on from its counter, one by one; the counter has moved by the
    number of those frames; the ids increase strictly and none repeats;
    and the counter at any point of the run is at most the counter at its
    end. *)
Theorem C4_event_ids_strictly_increase ops m k :
  (is_Some (m !! k) -> draws k ops = 0%nat) ->
  (draws k ops <= 1)%nat ->
  let r := run this ops m in
  let ids := ids_of k (snd r) in
  ids = seqZ (counter m k + 1) (Z.of_nat (List.length ids))
  /\ (forall s', fst r !! k = Some s' ->
                 lastEventId s' = counter m k + Z.of_nat (List.length ids))
  /\ StronglySorted Z.lt ids
  /\ NoDup ids
  /\ (forall ops1 ops2 s1 s2,
        ops = app ops1 ops2 ->
        fst (run this ops1 m) !! k = Some s1 ->
        fst r !! k = Some s2 ->
        lastEventId s1 <= lastEventId s2).
Proof.
  intros Hlive Hd r ids.
  assert (exists n : nat,
             ids = seqZ (counter m k + 1) (Z.of_nat n)
             /\ forall s', fst r !! k = Some s' ->
                           lastEventId s' = counter m k + Z.of_nat n)
    as (n & Hids & Hfinal).
  { unfold counter. subst r ids. destruct (m !! k) as [s|] eqn:Hk.
    - destruct (run_live ops m k s Hk) as (n & Hids & Hf); [by apply Hlive|].
      exists n. split; [done|]. intros s' Hs'. destruct Hf as [Hf|Hf]; by simplify_eq.
    - destruct (run_fresh ops m k Hk Hd) as (n & Hids & Hf).
      exists n. split; [done|]. intros s' Hs'.
      destruct Hf as [Hf|(env & _ & Hf)]; by simplify_eq. }
  pose proof (seqZ_length_eq _ _ _ Hids) as Hlen. rewrite Hlen.
  split; [done|]. split; [done|].
  split; [rewrite Hids; apply StronglySorted_seqZ|].
  split; [rewrite Hids; apply NoDup_seqZ|].
  intros ops1 ops2 s1 s2 -> Hs1 Hs2. subst r. rewrite run_app in Hs2. cbn [fst] in Hs2.
  assert (draws k ops2 = 0%nat) as Hd2.
  { rewrite draws_app in Hd, Hlive. destruct (m !! k) as [s|] eqn:Hk.
    - assert (draws k ops1 + draws k ops2 = 0)%nat by (by apply Hlive). lia.
    - destruct (draws k ops1) as [|d] eqn:Hd1; [|lia].
      destruct (run_dead ops1 m k Hk Hd1) as [Hf _]. congruence. }
  destruct (run_live ops2 _ k s1 Hs1 Hd2) as (n2 & _ & [Hf|Hf]); [congruence|].
  rewrite Hf in Hs2. injection Hs2 as <-. cbn. lia.
Qed.
End RunProperties.

(* ===================================================================== *)
(** ** Whole requests *)
(* ===================================================================== *)

Section Requests.
Context {imports : Imports}.
Variable this : HttpTransport.

(** A POST whose body is a JSON-RPC request and whose session is found or
    made: the answer is sent with status 200, as one frame or as a body. *)
Lemma serve_post env req m path text request k s0 m0 :
  method req = "POST" ->
  pathname req = Some path ->
  is_mcp_path path = true ->
  body req = BodyText text ->
  JSON_parse text = Some request ->
  request <> JNull ->
  resolve env req m = Some (k, s0, m0) ->
  exists r calls w,
    (forall w0, processRequest this request w0 = (Done r, add_calls calls w0))
    /\ serve this env req m = (Done tt, w)
    /\ sessions w = (if wants_stream req
                     then alter (set_lastEventId (lastEventId s0 + 1)) k m0 else m0)
    /\ statusCode (res w) = Some 200
    /\ chunks (res w) = (if wants_stream req
                         then [IdLine (lastEventId s0 + 1); DataLine r]
                         else [Body (JSON_stringify (response_json r))])
    /\ ended (res w) = true
    /\ header "Mcp-Session-Id" (res w) = Some k
    /\ toolCalls w = calls.
Proof.
  intros Hm Hp Hmcp Hb Hj Hnn Hres.
  rewrite serve_route, Hp, Hm, Hmcp. cbn [String.eqb Ascii.eqb Bool.eqb].
  pose proof (handlePost_cases this env req m) as Hc.
  rewrite Hb, Hj, Hres in Hc. rewrite Hc.
  apply dispatchAndReply_answers, Hnn.
Qed.

(** How a request ends: an exception escapes before any status is
    written, or the response carries one of five statuses. *)
Lemma serve_outcome env req m :
  let r := serve this env req m in
  (exists e, fst r = Threw e
     /\ statusCode (res (snd r)) = None /\ chunks (res (snd r)) = []
     /\ ended (res (snd r)) = false
     /\ (pathname req = None
         \/ body req = BodyError e
         \/ exists text, body req = BodyText text /\ JSON_parse text = Some JNull))
  \/ (fst r = Done tt
      /\ exists status, statusCode (res (snd r)) = Some status
           /\ (status = 200 \/ status = 204 \/ status = 400
               \/ status = 404 \/ status = 405)).
Proof.
  intros r. subst r. rewrite serve_route.
  destruct (pathname req) as [path|]; [|left; eexists; cbn; repeat split; by left].
  destruct (String.eqb (method req) "OPTIONS"); [right; cbn; eauto 10|].
  destruct (is_mcp_path path).
  2: { right. destruct (String.eqb path "/health"); cbn; eauto 10. }
  destruct (String.eqb (method req) "POST").
  { pose proof (handlePost_cases this env req m) as Hc.
    destruct (body req) as [text|e] eqn:Hb;
      [|left; rewrite Hc; exists e; cbn; repeat split; right; by left].
    destruct (JSON_parse text) as [request|] eqn:Hj;
      [|right; rewrite Hc; cbn; eauto 10].
    destruct (resolve env req m) as [[[k' s0] m0]|] eqn:Hres.
    - rewrite Hc.
      assert (request = JNull \/ request <> JNull) as [->|Hnn]
        by (destruct request; auto).
      + destruct (dispatchAndReply_null this req s0 k' m0)
          as (w & -> & _ & _ & Hst & Hch & He).
        left. eexists. cbn [fst snd]. repeat split; try done. right; right. eauto.
      + destruct (dispatchAndReply_answers this req request s0 k' m0 Hnn)
          as (r & calls & w & _ & -> & _ & Hst & _).
        right. cbn [fst snd]. eauto 10.
    - destruct Hc as (sid & _ & ->). right; cbn; eauto 10. }
  destruct (String.eqb (method req) "GET").
  { pose proof (handleGet_cases env req m) as Hc.
    destruct (present (mcp_session_id req)) as [sid|];
      [|right; rewrite Hc; cbn; eauto 10].
    destruct (m !! sid) as [s1|] eqn:Hlk; [|right; rewrite Hc; cbn; eauto 10].
    destruct (_ >? _); [right; rewrite Hc; cbn; eauto 10|].
    destruct Hc as (w & -> & _ & _ & Hst & _). right. cbn [fst snd]. eauto 10. }
  destruct (String.eqb (method req) "DELETE"); [|right; cbn; eauto 10].
  right. rewrite handleDelete_spec. cbn. eauto 10.
Qed.

(** The session map after a request: the map before, possibly with one
    entry deleted or one session added, and possibly one counter set. *)
Lemma serve_sessions_shape env req m :
  exists m0,
    (m0 = m \/ m0 = <[uuid env := new_session env]> m \/ exists id, m0 = delete id m)
    /\ (sessions (snd (serve this env req m)) = m0
        \/ exists k c, sessions (snd (serve this env req m))
                       = alter (set_lastEventId c) k m0).
Proof.
  rewrite serve_route.
  destruct (pathname req) as [path|]; [|exists m; split; by left].
  destruct (String.eqb (method req) "OPTIONS"); [exists m; split; by left|].
  destruct (is_mcp_path path).
  2: { exists m. destruct (String.eqb path "/health"); split; by left. }
  destruct (String.eqb (method req) "POST").
  { pose proof (handlePost_cases this env req m) as Hc.
    destruct (body req) as [text|e]; [|rewrite Hc; exists m; split; by left].
    destruct (JSON_parse text) as [request|]; [|rewrite Hc; exists m; split; by left].
    destruct (resolve env req m) as [[[k' s0] m0]|] eqn:Hres.
    - rewrite Hc. exists m0. split.
      { apply resolve_Some in Hres as [_ [(_ & _ & _ & ->)|(_ & _ & _ & ->)]]; auto. }
      assert (request = JNull \/ request <> JNull) as [->|Hnn]
        by (destruct request; auto).
      + destruct (dispatchAndReply_null this req s0 k' m0) as (w & -> & Hs & _).
        by left.
      + destruct (dispatchAndReply_answers this req request s0 k' m0 Hnn)
          as (r & calls & w & _ & -> & Hs & _).
        cbn [snd]. rewrite Hs. destruct (wants_stream req); eauto.
    - destruct Hc as (sid & _ & ->). exists (delete sid m). split; [eauto|by left]. }
  destruct (String.eqb (method req) "GET").
  { pose proof (handleGet_cases env req m) as Hc.
    destruct (present (mcp_session_id req)) as [sid|];
      [|rewrite Hc; exists m; split; by left].
    destruct (m !! sid) as [s1|] eqn:Hlk; [|rewrite Hc; exists m; split; by left].
    destruct (_ >? _).
    - rewrite Hc. exists (delete sid m). split; [eauto|by left].
    - destruct Hc as (w & -> & Hs & _). exists m. split; by left. }
  destruct (String.eqb (method req) "DELETE"); [|exists m; split; by left].
  rewrite handleDelete_spec. cbn.
  destruct (present (mcp_session_id req)) as [sid|].
  - exists (delete sid m). split; [eauto|by left].
  - exists m. split; by left.
Qed.

(** No request writes to a buffer: a session's [pendingEvents] are those
    it had, and a new session's are none. *)
Lemma serve_never_buffers env req m k s' :
  sessions (snd (serve this env req m)) !! k = Some s' ->
  pendingEvents s' = []
  \/ exists s, m !! k = Some s /\ pendingEvents s' = pendingEvents s.
Proof.
  destruct (serve_sessions_shape env req m) as (m0 & Hm0 & Hs).
  assert (forall s0, m0 !! k = Some s0 ->
            pendingEvents s0 = []
            \/ exists s, m !! k = Some s /\ pendingEvents s0 = pendingEvents s) as Hbase.
  { intros s0. destruct Hm0 as [->|[->|[id ->]]].
    - eauto.
    - rewrite lookup_insert_Some. intros [[_ <-]|[_ ?]]; eauto.
    - rewrite lookup_delete_Some. intros [_ ?]; eauto. }
  destruct Hs as [->|(k' & c & ->)]; [apply Hbase|].
  rewrite lookup_alter. case_decide; [subst k'|apply Hbase].
  destruct (m0 !! k) as [s0|] eqn:Hlk; [|done]. cbn. intros [= <-]. by apply (Hbase s0).
Qed.

(** From the empty map on, every buffer is empty. *)
Lemma run_buffers_empty ops m :
  (forall k s, m !! k = Some s -> pendingEvents s = []) ->
  forall k s, fst (run this ops m) !! k = Some s -> pendingEvents s = [].
Proof.
  revert m. induction ops as [|[env req|t] ops IH]; intros m Hm; [done| |].
  - cbn [run exec fst]. apply IH. intros k s Hs.
    destruct (serve_never_buffers env req m k s Hs) as [|(s0 & Hs0 & ->)]; eauto.
  - cbn [run exec fst]. apply IH. intros k s Hs. apply sweep_lookup in Hs. eauto.
Qed.
End Requests.

(* ===================================================================== *)
(** ** Replay *)
(* ===================================================================== *)

Lemma frame_ids_frames r events :
  chunks r = frames events -> frame_ids r = event_id <$> events.
Proof.
  unfold frame_ids. intros ->. induction events as [|e events IH]; [done|].
  cbn. by rewrite <- IH.
Qed.

Lemma consecutive_tail a l : consecutive (a :: l) -> consecutive l.
Proof. destruct l as [|b l]; [done|]. by intros [_ ?]. Qed.

Lemma consecutive_above a l : consecutive (a :: l) -> Forall (fun x => a < x) l.
Proof.
  revert a. induction l as [|b l IH]; intros a Hc; [constructor|].
  destruct Hc as [-> Hc]. constructor; [lia|].
  eapply Forall_impl; [apply IH, Hc|]. cbn. lia.
Qed.

Lemma consecutive_sorted l : consecutive l -> StronglySorted Z.lt l.
Proof.
  induction l as [|a l IH]; intros Hc; constructor.
  - eapply IH, consecutive_tail, Hc.
  - by apply consecutive_above.
Qed.

Lemma sorted_lt_NoDup (l : list Z) : StronglySorted Z.lt l -> NoDup l.
Proof.
  induction 1 as [|a l _ IH Ha]; constructor; [|done].
  intros Hin. rewrite Forall_forall in Ha. specialize (Ha a Hin). lia.
Qed.

Lemma fmap_suffix {A B} (f : A -> B) (l' l : list A) :
  l' `suffix_of` l -> (f <$> l') `suffix_of` (f <$> l).
Proof. intros [p ->]. exists (f <$> p). by rewrite fmap_app. Qed.

Lemma consecutive_suffix l l' : consecutive l -> l' `suffix_of` l -> consecutive l'.
Proof.
  intros Hc [p ->]. induction p as [|a p IH]; [done|].
  apply IH. eapply consecutive_tail, Hc.
Qed.

(** In a buffer whose ids are consecutive, the frames after [N] are a tail
    of the buffer. *)
Lemma replay_is_tail (N : Z) (events : list Event) :
  consecutive (event_id <$> events) ->
  filter (fun e => N < event_id e) events `suffix_of` events.
Proof.
  induction events as [|e events IH]; intros Hc; [done|].
  destruct (decide (N < event_id e)) as [Hlt|Hge].
  - rewrite filter_cons_True by done.
    cut (filter (fun e => N < event_id e) events = events); [by intros ->|].
    rewrite fmap_cons in Hc. apply consecutive_above in Hc. rewrite Forall_fmap in Hc.
    clear IH. induction Hc as [|x l Hx Hl IHl]; [done|].
    rewrite filter_cons_True by (cbn in Hx; lia). by rewrite IHl.
  - rewrite filter_cons_False by done. apply suffix_cons_r, IH.
    rewrite fmap_cons in Hc. eapply consecutive_tail, Hc.
Qed.

Lemma id_gt_filter (N : Z) (events : list Event) :
  filter (fun e => id_gt (Some N) e) events = filter (fun e => N < event_id e) events.
Proof.
  apply list_filter_iff. intros e. unfold id_gt.
  rewrite Is_true_true, Z.gtb_gt. lia.
Qed.

Section Claims.
Context {imports : Imports}.
Variable this : HttpTransport.

(** C3. A GET on a live session with [Last-Event-ID] read as [N] answers
    200, writes the frames of exactly the buffered events whose id is
    above [N], in the order of the buffer, and leaves the response open;
    when the ids of the buffer are consecutive, what is replayed is the
    tail of the buffer after [N]: ascending, without gap or repetition. *)
Theorem C3_replay_after_last_event_id env req m path sid s h N :
  method req = "GET" ->
  pathname req = Some path ->
  is_mcp_path path = true ->
  present (mcp_session_id req) = Some sid ->
  m !! sid = Some s ->
  ~ expired env s ->
  present (last_event_id req) = Some h ->
  parseInt h = Some N ->
  let replayed := filter (fun e => N < event_id e) (pendingEvents s) in
  exists w,
    serve this env req m = (Done tt, w)
    /\ statusCode (res w) = Some 200
    /\ chunks (res w) = frames replayed
    /\ frame_ids (res w) = event_id <$> replayed
    /\ (forall e, e ∈ replayed <-> e ∈ pendingEvents s /\ N < event_id e)
    /\ replayed `sublist_of` pendingEvents s
    /\ (consecutive (event_id <$> pendingEvents s) ->
        replayed `suffix_of` pendingEvents s
        /\ consecutive (event_id <$> replayed)
        /\ StronglySorted Z.lt (event_id <$> replayed)
        /\ NoDup (event_id <$> replayed))
    /\ ended (res w) = false
    /\ sessions w = m.
Proof.
  intros Hm Hp Hmcp Hsid Hlk Hlive Hh HN replayed.
  rewrite serve_route, Hp, Hm, Hmcp. cbn [String.eqb Ascii.eqb Bool.eqb].
  pose proof (handleGet_cases env req m) as Hc.
  rewrite Hsid, Hlk, Hh, HN, id_gt_filter in Hc.
  apply gtb_not_expired in Hlive. rewrite Hlive in Hc.
  destruct Hc as (w & Hrun & Hs & _ & Hst & _ & Hch & Hend).
  exists w. split; [done|]. split; [done|]. split; [done|].
  split; [by apply frame_ids_frames|].
  split; [intros e; subst replayed; rewrite list_elem_of_filter; tauto|].
  split; [apply sublist_filter|].
  split; [|done].
  intros Hcons.
  assert (replayed `suffix_of` pendingEvents s) as Htail by (by apply replay_is_tail).
  assert (consecutive (event_id <$> replayed)) as Hc'
    by (eapply consecutive_suffix; [done|]; by apply fmap_suffix).
  split; [done|]. split; [done|].
  split; [by apply consecutive_sorted|by apply sorted_lt_NoDup, consecutive_sorted].
Qed.

Lemma serve_get_gone env req m path sid :
  method req = "GET" ->
  pathname req = Some path ->
  is_mcp_path path = true ->
  present (mcp_session_id req) = Some sid ->
  (m !! sid = None \/ exists s, m !! sid = Some s /\ expired env s) ->
  exists w,
    serve this env req m = (Done tt, w)
    /\ statusCode (res w) = Some 404
    /\ chunks (res w) = [error_body "Session not found"]
    /\ sessions w = delete sid m.
Proof.
  intros Hm Hp Hmcp Hsid Hgone.
  rewrite serve_route, Hp, Hm, Hmcp. cbn [String.eqb Ascii.eqb Bool.eqb].
  pose proof (handleGet_cases env req m) as Hc. rewrite Hsid in Hc.
  destruct Hgone as [Hlk|(s & Hlk & Hexp)]; rewrite Hlk in Hc.
  - rewrite Hc, reply_start. eexists. split; [done|]. cbn. by rewrite delete_id.
  - apply gtb_expired in Hexp. rewrite Hexp in Hc.
    rewrite Hc, reply_start. eexists. by split.
Qed.

(** C7. A session created more than [SESSION_TTL_MS] (thirty minutes)
    before the lookup is not found and its entry is deleted; a GET with
    its id is answered 404.  The age is counted from [createdAt], which no
    request changes: whatever request was served in between, and however
    recently, the GET is answered 404 once that age is passed. *)
Theorem C7_expiry_from_creation env sid s m :
  m !! sid = Some s ->
  expired env s ->
  SESSION_TTL_MS = 30 * 60 * 1000
  /\ (forall w, sessions w = m ->
        getSession env sid w
        = (Done None, {| sessions := delete sid m; res := res w;
                         toolCalls := toolCalls w |}))
  /\ (forall req path,
        method req = "GET" -> pathname req = Some path -> is_mcp_path path = true ->
        present (mcp_session_id req) = Some sid ->
        exists w, serve this env req m = (Done tt, w)
          /\ statusCode (res w) = Some 404
          /\ sessions w = delete sid m
          /\ sessions w !! sid = None)
  /\ (forall env0 req0 req path,
        uuid env0 <> sid ->
        method req = "GET" -> pathname req = Some path -> is_mcp_path path = true ->
        present (mcp_session_id req) = Some sid ->
        let m1 := sessions (snd (serve this env0 req0 m)) in
        (forall s1, m1 !! sid = Some s1 -> createdAt s1 = createdAt s)
        /\ exists w, serve this env req m1 = (Done tt, w)
             /\ statusCode (res w) = Some 404).
Proof.
  intros Hlk Hexp. split; [done|]. split; [|split].
  - intros w Hw. rewrite getSession_spec, Hw, Hlk.
    apply gtb_expired in Hexp. by rewrite Hexp.
  - intros req path Hm Hp Hmcp Hsid.
    destruct (serve_get_gone env req m path sid) as (w & Hrun & Hst & _ & Hs); eauto.
    exists w. rewrite Hs. by rewrite lookup_delete_eq.
  - intros env0 req0 req path Hu Hm Hp Hmcp Hsid m1.
    assert (forall s1, m1 !! sid = Some s1 -> createdAt s1 = createdAt s) as Hkeep.
    { intros s1. subst m1.
      destruct (serve_live this env0 req0 m sid s Hlk Hu)
        as [(Hs & _)|[(Hs & _)|(Hs & _)]]; rewrite Hs; by intros [= <-]. }
    split; [done|].
    destruct (serve_get_gone env req m1 path sid) as (w & Hrun & Hst & _); eauto.
    destruct (m1 !! sid) as [s1|] eqn:Hs1; [right|by left].
    exists s1. split; [done|]. unfold expired in *. by rewrite (Hkeep s1).
Qed.

(** C5. A [tools/call] without a truthy [params.name] is answered with the
    error -32000 [Tool name required], and the executor is not called.
    Otherwise the executor is called once: when it rejects, the answer is
    the error -32000, with the message of the [Error] that was raised, and
    with [Unknown error] for a raised value that is no [Error]; when it
    resolves, the result is one text block holding the JSON text of the
    value.  In each case the POST is answered with status 200. *)
Theorem C5_tools_call request :
  request <> JNull ->
  prop "method" request = Some (JStr "tools/call") ->
  let id := prop "id" request in
  let params := prop "params" request in
  let name := opt_prop "name" params in
  let tool := default JNull name in
  let args := call_arguments params in
  let refused message :=
    {| response_id := id; result := None;
       error := Some {| code := -32000; message := message |} |} in
  (truthy name = false ->
   forall w, processRequest this request w = (Done (refused "Tool name required"), w))
  /\ (opt_prop "name" params = None -> truthy name = false)
  /\ (truthy name = true ->
      forall kind msg,
        execute (toolExecutor this) tool args = Rejected (ErrorInstance kind msg) ->
        forall w, processRequest this request w
                  = (Done (refused msg), add_calls [(tool, args)] w))
  /\ (truthy name = true ->
      forall v,
        execute (toolExecutor this) tool args = Rejected (NonError v) ->
        forall w, processRequest this request w
                  = (Done (refused "Unknown error"), add_calls [(tool, args)] w))
  /\ (truthy name = true ->
      forall v,
        execute (toolExecutor this) tool args = Resolved v ->
        forall w, processRequest this request w
                  = (Done {| response_id := id;
                             result :=
                               Some (JObj [("content",
                                            JArr [JObj [("type", JStr "text");
                                                        ("text",
                                                         JStr (JSON_stringify v))]])]);
                             error := None |},
                     add_calls [(tool, args)] w))
  /\ (forall env req m path text k s0 m0,
        method req = "POST" -> pathname req = Some path -> is_mcp_path path = true ->
        body req = BodyText text -> JSON_parse text = Some request ->
        resolve env req m = Some (k, s0, m0) ->
        exists r calls w,
          (forall w0, processRequest this request w0 = (Done r, add_calls calls w0))
          /\ serve this env req m = (Done tt, w)
          /\ statusCode (res w) = Some 200
          /\ chunks (res w) = (if wants_stream req
                               then [IdLine (lastEventId s0 + 1); DataLine r]
                               else [Body (JSON_stringify (response_json r))])
          /\ ((exists e, error r = Some e /\ result r = None /\ code e = -32000)
              \/ (exists v, result r = Some v /\ error r = None))).
Proof.
  intros Hnn Hm id params name tool args refused.
  pose proof (processRequest_tools_call this request Hnn Hm) as Hrun. cbn zeta in Hrun.
  subst id params name tool args refused.
  split; [|split; [|split; [|split; [|split]]]].
  - intros Hn w. by rewrite Hrun, Hn.
  - by intros ->.
  - intros Hn kind msg Hex w. by rewrite Hrun, Hn, Hex.
  - intros Hn v Hex w. by rewrite Hrun, Hn, Hex.
  - intros Hn v Hex w. by rewrite Hrun, Hn, Hex.
  - intros env req m path text k s0 m0 Hpost Hp Hmcp Hb Hj Hres.
    destruct (serve_post this env req m path text request k s0 m0)
      as (r & calls & w & Hr & Hs & _ & Hst & Hch & _); try done.
    exists r, calls, w. split; [done|]. split; [done|]. split; [done|]. split; [done|].
    specialize (Hr (start m)). rewrite Hrun in Hr.
    destruct (truthy _); [|left; simplify_eq; by eexists].
    destruct (execute _ _ _); simplify_eq; [right|left]; by eexists.
Qed.
End Claims.

Section MoreClaims.
Context {imports : Imports}.
Variable this : HttpTransport.

(** C2, as the code has it.  The router has no top-level catch.  An
    exception raised by the URL constructor, by reading the body or by
    destructuring a [null] request escapes [handleRequest]; then no status
    has been written and the response is not ended.  No request is
    answered 500.  Whatever the outcome, every session other than the one
    the request names and the one it creates is left as it was. *)
Theorem C2_exceptions_escape_other_sessions_kept env req m :
  let r := serve this env req m in
  statusCode (res (snd r)) <> Some 500
  /\ (forall e, fst r = Threw e ->
        statusCode (res (snd r)) = None
        /\ chunks (res (snd r)) = []
        /\ ended (res (snd r)) = false
        /\ (pathname req = None
            \/ body req = BodyError e
            \/ exists text, body req = BodyText text /\ JSON_parse text = Some JNull))
  /\ (pathname req = None -> exists e, fst r = Threw e)
  /\ (forall path e,
        method req = "POST" -> pathname req = Some path -> is_mcp_path path = true ->
        body req = BodyError e -> fst r = Threw e)
  /\ (forall path text,
        method req = "POST" -> pathname req = Some path -> is_mcp_path path = true ->
        body req = BodyText text -> JSON_parse text = Some JNull ->
        is_Some (resolve env req m) -> exists e, fst r = Threw e)
  /\ (forall k,
        present (mcp_session_id req) <> Some k -> uuid env <> k ->
        sessions (snd r) !! k = m !! k).
Proof.
  intros r. pose proof (serve_outcome this env req m) as Ho. cbn zeta in Ho. fold r in Ho.
  split; [|split; [|split; [|split; [|split]]]].
  - destruct Ho as [(e & _ & -> & _)|(_ & st & -> & Hst)]; [done|].
    intros [= ->]. lia.
  - intros e He. destruct Ho as [(e' & He' & ? & ? & ? & ?)|(Hd & _)]; [|congruence].
    by assert (e' = e) as -> by congruence.
  - intros Hp. subst r. rewrite serve_route, Hp. eauto.
  - intros path e Hm Hp Hmcp Hb. subst r.
    rewrite serve_route, Hp, Hm, Hmcp. cbn [String.eqb Ascii.eqb Bool.eqb].
    pose proof (handlePost_cases this env req m) as Hc. rewrite Hb in Hc. by rewrite Hc.
  - intros path text Hm Hp Hmcp Hb Hj [[[k s0] m0] Hres]. subst r.
    rewrite serve_route, Hp, Hm, Hmcp. cbn [String.eqb Ascii.eqb Bool.eqb].
    pose proof (handlePost_cases this env req m) as Hc. rewrite Hb, Hj, Hres in Hc.
    rewrite Hc. destruct (dispatchAndReply_null this req s0 k m0) as (w & -> & _). eauto.
  - intros k Hk Hu. by apply serve_frame.
Qed.

(** C8. [createSession] makes a session with the drawn id, counter zero
    and no buffered event, and puts it in the map.  A POST without session
    header whose body is a JSON-RPC request does so, answers with that id
    in [Mcp-Session-Id], and leaves the counter at the number of frames it
    emitted; a later POST that carries the id, before the session expires,
    is handled against the same session: no session is added, and the
    frame it emits has the next id. *)
Theorem C8_session_created_then_reused env1 req1 env2 req2 m
    path1 text1 request1 path2 text2 request2 :
  m !! uuid env1 = None ->
  method req1 = "POST" -> pathname req1 = Some path1 -> is_mcp_path path1 = true ->
  body req1 = BodyText text1 -> JSON_parse text1 = Some request1 -> request1 <> JNull ->
  present (mcp_session_id req1) = None ->
  method req2 = "POST" -> pathname req2 = Some path2 -> is_mcp_path path2 = true ->
  body req2 = BodyText text2 -> JSON_parse text2 = Some request2 -> request2 <> JNull ->
  present (mcp_session_id req2) = Some (uuid env1) ->
  ~ expired env2 (new_session env1) ->
  let n1 := if wants_stream req1 then 1 else 0 in
  let n2 := if wants_stream req2 then 1 else 0 in
  createSession env1 (start m)
    = (Done (new_session env1), start (<[uuid env1 := new_session env1]> m))
  /\ session_id (new_session env1) = uuid env1
  /\ lastEventId (new_session env1) = 0
  /\ pendingEvents (new_session env1) = []
  /\ exists w1 w2,
       serve this env1 req1 m = (Done tt, w1)
       /\ header "Mcp-Session-Id" (res w1) = Some (uuid env1)
       /\ sessions w1 = <[uuid env1 := set_lastEventId n1 (new_session env1)]> m
       /\ frame_ids (res w1) = seqZ 1 n1
       /\ serve this env2 req2 (sessions w1) = (Done tt, w2)
       /\ header "Mcp-Session-Id" (res w2) = Some (uuid env1)
       /\ sessions w2 = <[uuid env1 := set_lastEventId (n1 + n2) (new_session env1)]> m
       /\ frame_ids (res w2) = seqZ (n1 + 1) n2
       /\ dom (sessions w2) = dom (sessions w1).
Proof.
  intros Hfresh Hm1 Hp1 Hmcp1 Hb1 Hj1 Hnn1 Hh1 Hm2 Hp2 Hmcp2 Hb2 Hj2 Hnn2 Hh2 Hlive n1 n2.
  split; [done|]. split; [done|]. split; [done|]. split; [done|].
  destruct (serve_post this env1 req1 m path1 text1 request1 (uuid env1)
              (new_session env1) (<[uuid env1 := new_session env1]> m))
    as (r1 & c1 & w1 & _ & Hrun1 & Hs1 & _ & Hch1 & _ & Hhd1 & _); try done.
  { unfold resolve. by rewrite Hh1. }
  assert (sessions w1 = <[uuid env1 := set_lastEventId n1 (new_session env1)]> m) as Hs1'.
  { rewrite Hs1. subst n1. destruct (wants_stream req1); [|done].
    by rewrite alter_insert_eq. }
  destruct (serve_post this env2 req2 (sessions w1) path2 text2 request2 (uuid env1)
              (set_lastEventId n1 (new_session env1)) (sessions w1))
    as (r2 & c2 & w2 & _ & Hrun2 & Hs2 & _ & Hch2 & _ & Hhd2 & _); try done.
  { unfold resolve. rewrite Hh2, Hs1', lookup_insert_eq.
    apply gtb_not_expired in Hlive. cbn [createdAt set_lastEventId new_session] in *.
    by rewrite Hlive. }
  assert (sessions w2
          = <[uuid env1 := set_lastEventId (n1 + n2) (new_session env1)]> m) as Hs2'.
  { rewrite Hs2, Hs1'. subst n2. destruct (wants_stream req2).
    - by rewrite alter_insert_eq.
    - by rewrite Z.add_0_r. }
  exists w1, w2. split; [done|]. split; [done|]. split; [done|].
  split. { unfold frame_ids. rewrite Hch1. subst n1. by destruct (wants_stream req1). }
  split; [done|]. split; [done|]. split; [done|].
  split. { unfold frame_ids. rewrite Hch2. subst n1 n2.
           by destruct (wants_stream req1), (wants_stream req2). }
  rewrite Hs2', Hs1'. by rewrite !dom_insert_L.
Qed.

(** C9, as the code has it.  OPTIONS is answered 204 on every path.
    Otherwise the paths [/mcp] and [/] are one endpoint: POST, GET and
    DELETE go to their handlers and every other method is answered 405;
    [/health] is answered 200 with the liveness body, whatever the method;
    every other path is answered 404. *)
Theorem C9_routing_table env req m path :
  pathname req = Some path ->
  let r := serve this env req m in
  (is_mcp_path path = true <-> path = "/mcp" \/ path = "/")
  /\ (method req = "OPTIONS" ->
      r = reply 204 [] None (start m)
      /\ fst r = Done tt /\ statusCode (res (snd r)) = Some 204 /\ sessions (snd r) = m)
  /\ (method req <> "OPTIONS" -> is_mcp_path path = true ->
      (method req = "POST" -> r = handlePost this env req (start m))
      /\ (method req = "GET" -> r = handleGet env req (start m))
      /\ (method req = "DELETE" -> r = handleDelete req (start m))
      /\ (method req <> "POST" -> method req <> "GET" -> method req <> "DELETE" ->
          r = reply 405 [] None (start m)
          /\ fst r = Done tt /\ statusCode (res (snd r)) = Some 405
          /\ sessions (snd r) = m))
  /\ (method req <> "OPTIONS" -> path = "/health" ->
      r = reply 200 json_headers (Some (Body (health_body this))) (start m)
      /\ fst r = Done tt /\ statusCode (res (snd r)) = Some 200
      /\ chunks (res (snd r)) = [Body (health_body this)] /\ sessions (snd r) = m)
  /\ (method req <> "OPTIONS" -> is_mcp_path path = false -> path <> "/health" ->
      r = reply 404 [] None (start m)
      /\ fst r = Done tt /\ statusCode (res (snd r)) = Some 404
      /\ sessions (snd r) = m).
Proof.
  intros Hp r. subst r. rewrite serve_route, Hp.
  split; [|split; [|split; [|split]]].
  - unfold is_mcp_path. rewrite orb_true_iff, !String.eqb_eq. done.
  - by intros ->.
  - intros Ho Hmcp. apply String.eqb_neq in Ho. rewrite Ho, Hmcp.
    split; [by intros ->|]. split; [by intros ->|]. split; [by intros ->|].
    intros H1 H2 H3. apply String.eqb_neq in H1, H2, H3. by rewrite H1, H2, H3.
  - intros Ho ->. apply String.eqb_neq in Ho. by rewrite Ho.
  - intros Ho Hmcp Hh. apply String.eqb_neq in Ho, Hh. by rewrite Ho, Hmcp, Hh.
Qed.

End MoreClaims.

(* ===================================================================== *)
(** ** Further properties of the transport *)
(* ===================================================================== *)

Lemma sweep_spec t m k :
  sweep t m !! k
  = match m !! k with
    | Some s => if t - createdAt s >? SESSION_TTL_MS then None else Some s
    | None => None
    end.
Proof.
  unfold sweep. destruct (m !! k) as [s|] eqn:Hk.
  - destruct (t - createdAt s >? SESSION_TTL_MS) eqn:Hexp.
    + apply map_lookup_filter_None. right. intros s' Hs'. simplify_eq. cbn.
      apply Z.gtb_gt in Hexp. lia.
    + apply map_lookup_filter_Some. split; [done|]. cbn.
      intros Hgt. apply Z.gtb_gt in Hgt. congruence.
  - apply map_lookup_filter_None. by left.
Qed.

Section TransportExtras.
Context {imports : Imports}.
Variable this : HttpTransport.

(** X1. DELETE answers 204 with an empty body whether or not the session
    exists, removes the entry the header names and no other, and is
    idempotent; a GET with that id afterwards is answered 404. *)
Theorem X1_delete_closes_the_session env req m path :
  method req = "DELETE" ->
  pathname req = Some path ->
  is_mcp_path path = true ->
  let r := serve this env req m in
  fst r = Done tt
  /\ statusCode (res (snd r)) = Some 204
  /\ chunks (res (snd r)) = []
  /\ toolCalls (snd r) = []
  /\ sessions (snd r) = match present (mcp_session_id req) with
                        | Some sessionId => delete sessionId m
                        | None => m
                        end
  /\ (forall env', sessions (snd (serve this env' req (sessions (snd r))))
                   = sessions (snd r))
  /\ (forall sessionId env' req' path',
        present (mcp_session_id req) = Some sessionId ->
        method req' = "GET" -> pathname req' = Some path' -> is_mcp_path path' = true ->
        present (mcp_session_id req') = Some sessionId ->
        statusCode (res (snd (serve this env' req' (sessions (snd r))))) = Some 404).
Proof.
  intros Hm Hp Hmcp r.
  assert (forall env0 m0, serve this env0 req m0
            = reply 204 [] None
                (start match present (mcp_session_id req) with
                       | Some sessionId => delete sessionId m0
                       | None => m0
                       end)) as Hrun.
  { intros env0 m0. rewrite serve_route, Hp, Hm, Hmcp.
    cbn [String.eqb Ascii.eqb Bool.eqb]. apply handleDelete_spec. }
  subst r. rewrite !Hrun, reply_start. cbn [fst snd sessions res statusCode chunks toolCalls].
  split; [done|]. split; [done|]. split; [done|]. split; [done|]. split; [done|]. split.
  - intros env'. rewrite Hrun, reply_start. cbn.
    destruct (present (mcp_session_id req)) as [sid|]; [|done].
    apply delete_id, lookup_delete_eq.
  - intros sid env' req' path' Hsid Hm' Hp' Hmcp' Hsid'. rewrite Hsid.
    destruct (serve_get_gone this env' req' (delete sid m) path' sid)
      as (w & -> & Hst & _); try done.
    left. apply lookup_delete_eq.
Qed.

(** X2. The cleanup timer removes exactly the sessions that a lookup at
    that time would not find, and keeps the others as they are; sweeping
    twice is sweeping once, a later sweep makes an earlier one redundant,
    and a lookup finds the same session before and after a sweep. *)
Theorem X2_sweep_agrees_with_lookup t m :
  (forall k s, sweep t m !! k = Some s <->
               m !! k = Some s /\ ~ (t - createdAt s > SESSION_TTL_MS))
  /\ sweep t (sweep t m) = sweep t m
  /\ (forall t', t <= t' -> sweep t' (sweep t m) = sweep t' m)
  /\ (forall env k w,
        now env = t -> sessions w = m ->
        fst (getSession env k {| sessions := sweep t m; res := res w;
                                 toolCalls := toolCalls w |})
        = fst (getSession env k w)).
Proof.
  split; [|split; [|split]].
  - intros k s. unfold sweep. rewrite map_lookup_filter_Some. done.
  - apply map_eq. intros k. rewrite !sweep_spec.
    destruct (m !! k) as [s|]; [|done]. by destruct (_ >? _) eqn:He; [|rewrite He].
  - intros t' Hle. apply map_eq. intros k. rewrite !sweep_spec.
    destruct (m !! k) as [s|]; [|done].
    destruct (t - createdAt s >? _) eqn:He; [|done].
    destruct (t' - createdAt s >? _) eqn:He'; [done|].
    apply Z.gtb_gt in He. rewrite Z.gtb_ltb in He'. apply Z.ltb_ge in He'. lia.
  - intros env k w Ht Hw. rewrite !getSession_spec. cbn [sessions res toolCalls].
    rewrite sweep_spec, Hw, Ht. destruct (m !! k) as [s|]; [|done].
    by destruct (_ >? _) eqn:He; [|rewrite He].
Qed.
End TransportExtras.

Section TransportExtras2.
Context {imports : Imports}.
Variable this : HttpTransport.

Lemma dispatchAndReply_cors req request s0 k m0 :
  cors_ok (res (snd (dispatchAndReply this req request s0 k (start m0)))).
Proof.
  assert (request = JNull \/ request <> JNull) as [->|Hnn] by (destruct request; auto).
  - unfold dispatchAndReply. unfold_monad. cbn. by repeat split.
  - destruct (processRequest_answers this request Hnn) as (r & calls & Hrun & _).
    unfold dispatchAndReply. unfold_monad. cbn. rewrite Hrun. cbn.
    destruct (includes _ _); cbn; by repeat split.
Qed.

Lemma handleGet_cors env req m :
  cors_ok (res (snd (handleGet env req (start m)))).
Proof.
  pose proof (handleGet_cases env req m) as Hc. unfold handleGet in *.
  destruct (present (mcp_session_id req)) as [sid|]; [|rewrite Hc; by repeat split].
  rewrite bind_run, getSession_spec. cbn [sessions start].
  destruct (m !! sid) as [s|]; [|by repeat split].
  destruct (_ >? _); [by repeat split|].
  destruct (present (last_event_id req)) as [h|].
  - rewrite bind_run. unfold res_writeHead, modify_res. rewrite write_events_spec.
    cbn. by repeat split.
  - unfold_monad. cbn. by repeat split.
Qed.

(** X3. Once the URL of the request has been parsed, the response carries
    the four CORS headers with the values the router sets, whatever the
    method, the path and the outcome: no handler overwrites them, and they
    are there even when an exception escapes. *)
Theorem X3_cors_headers_on_every_response env req m path :
  pathname req = Some path ->
  cors_ok (res (snd (serve this env req m))).
Proof.
  intros Hp. rewrite serve_route, Hp.
  destruct (String.eqb (method req) "OPTIONS"); [by repeat split|].
  destruct (is_mcp_path path).
  2: { destruct (String.eqb path "/health"); by repeat split. }
  destruct (String.eqb (method req) "POST").
  { pose proof (handlePost_cases this env req m) as Hc.
    destruct (body req) as [text|e]; [|rewrite Hc; by repeat split].
    destruct (JSON_parse text) as [request|]; [|rewrite Hc; by repeat split].
    destruct (resolve env req m) as [[[k s0] m0]|].
    - rewrite Hc. apply dispatchAndReply_cors.
    - destruct Hc as (sid & _ & ->). by repeat split. }
  destruct (String.eqb (method req) "GET"); [apply handleGet_cors|].
  destruct (String.eqb (method req) "DELETE"); [|by repeat split].
  rewrite handleDelete_spec. by repeat split.
Qed.
End TransportExtras2.

Section TransportExtras3.
Context {imports : Imports}.
Variable this : HttpTransport.

Lemma serve_keyed env req m :
  keyed m -> keyed (sessions (snd (serve this env req m))).
Proof.
  intros Hm. destruct (serve_sessions_shape this env req m) as (m0 & Hm0 & Hs).
  assert (keyed m0) as Hk0.
  { intros k s. destruct Hm0 as [->|[->|[id ->]]].
    - apply Hm.
    - rewrite lookup_insert_Some. intros [[<- <-]|[_ ?]]; [done|by apply Hm].
    - rewrite lookup_delete_Some. intros [_ ?]. by apply Hm. }
  destruct Hs as [->|(k' & c & ->)]; [done|].
  intros k s. rewrite lookup_alter. case_decide; [subst k'|apply Hk0].
  destruct (m0 !! k) as [s0|] eqn:Hlk; [|done]. cbn. intros [= <-]. by apply (Hk0 k s0).
Qed.

(** X4. Every session is stored under its own id: the invariant holds in
    the empty map and is kept by every request and by every sweep of the
    cleanup timer, so it holds after any run. *)
Theorem X4_sessions_keyed_by_their_id ops m :
  keyed m -> keyed (fst (run this ops m)).
Proof.
  revert m. induction ops as [|[env req|t] ops IH]; intros m Hm; [done| |].
  - cbn [run exec fst]. apply IH. by apply serve_keyed.
  - cbn [run exec fst]. apply IH. intros k s Hs. apply sweep_lookup in Hs. by apply Hm.
Qed.

(** A session that was not there before the request is the one
    [createSession] made: for a POST without session header whose body
    parsed. *)
Lemma serve_creates env req m k s :
  m !! k = None ->
  sessions (snd (serve this env req m)) !! k = Some s ->
  k = uuid env
  /\ method req = "POST"
  /\ present (mcp_session_id req) = None
  /\ exists text request, body req = BodyText text /\ JSON_parse text = Some request.
Proof.
  intros Hk. rewrite serve_route.
  destruct (pathname req) as [path|]; [|cbn; congruence].
  destruct (String.eqb (method req) "OPTIONS"); [cbn; congruence|].
  destruct (is_mcp_path path).
  2: { destruct (String.eqb path "/health"); cbn; congruence. }
  destruct (String.eqb (method req) "POST") eqn:Hpost.
  { apply String.eqb_eq in Hpost.
    pose proof (handlePost_cases this env req m) as Hc.
    destruct (body req) as [text|e]; [|rewrite Hc; cbn; congruence].
    destruct (JSON_parse text) as [request|] eqn:Hj; [|rewrite Hc; cbn; congruence].
    destruct (resolve env req m) as [[[k' s0] m0]|] eqn:Hres.
    - rewrite Hc. apply resolve_Some in Hres as [_ Hres].
      assert (sessions (snd (dispatchAndReply this req request s0 k' (start m0))) !! k
              = Some s -> m0 !! k <> None) as Hin.
      { assert (request = JNull \/ request <> JNull) as [->|Hnn]
          by (destruct request; auto).
        - destruct (dispatchAndReply_null this req s0 k' m0) as (w & -> & Hw & _).
          cbn [snd]. rewrite Hw. congruence.
        - destruct (dispatchAndReply_answers this req request s0 k' m0 Hnn)
            as (r & calls & w & _ & -> & Hw & _).
          cbn [snd]. rewrite Hw. destruct (wants_stream req); [|congruence].
          rewrite lookup_alter. case_decide; [subst k'|congruence].
          destruct (m0 !! k); [done|]. cbn. congruence. }
      intros Hs. apply Hin in Hs.
      destruct Hres as [(_ & _ & _ & ->)|(Hnone & -> & _ & ->)]; [done|].
      destruct (decide (k = uuid env)) as [->|Hne].
      + split; [done|]. split; [done|]. split; [done|]. eauto.
      + by rewrite lookup_insert_ne in Hs.
    - destruct Hc as (sid & _ & ->). cbn. rewrite lookup_delete_Some. intros [_ ?].
      congruence. }
  destruct (String.eqb (method req) "GET").
  { pose proof (handleGet_cases env req m) as Hc.
    destruct (present (mcp_session_id req)) as [sid|]; [|rewrite Hc; cbn; congruence].
    destruct (m !! sid) as [s1|] eqn:Hlk; [|rewrite Hc; cbn; congruence].
    destruct (_ >? _).
    - rewrite Hc. cbn. rewrite lookup_delete_Some. intros [_ ?]. congruence.
    - destruct Hc as (w & -> & Hs & _). cbn [snd]. rewrite Hs. congruence. }
  destruct (String.eqb (method req) "DELETE"); [|cbn; congruence].
  rewrite handleDelete_spec. cbn.
  destruct (present (mcp_session_id req)) as [sid|]; [|congruence].
  rewrite lookup_delete_Some. intros [_ ?]. congruence.
Qed.
End TransportExtras3.

Section TransportExtras4.
Context {imports : Imports}.
Variable this : HttpTransport.

(** X5. A request adds at most one session to the map, the one named by
    the id drawn for it, and only a POST without session header does; a
    sweep adds none. *)
Theorem X5_at_most_one_session_added env req m :
  let m' := sessions (snd (serve this env req m)) in
  dom m' ⊆ dom m ∪ {[uuid env]}
  /\ (size m' <= S (size m))%nat
  /\ (method req <> "POST" \/ is_Some (present (mcp_session_id req)) -> dom m' ⊆ dom m)
  /\ (forall t, dom (sweep t m) ⊆ dom m).
Proof.
  intros m'.
  assert (forall k, k ∈ dom m' -> k ∉ dom m ->
            k = uuid env /\ method req = "POST" /\ present (mcp_session_id req) = None)
    as Hnew.
  { intros k [s Hs]%elem_of_dom Hk%not_elem_of_dom.
    destruct (serve_creates this env req m k s Hk Hs) as (? & ? & ? & _). done. }
  assert (dom m' ⊆ dom m ∪ {[uuid env]}) as Hsub.
  { intros k Hk. destruct (decide (k ∈ dom m)) as [|Hn].
    - apply elem_of_union. by left.
    - destruct (Hnew k Hk Hn) as [-> _]. apply elem_of_union. right.
      by apply elem_of_singleton. }
  split; [done|]. split; [|split].
  - rewrite <- !size_dom. etrans; [apply subseteq_size, Hsub|].
    rewrite size_union_alt.
    assert (size ({[uuid env]} ∖ dom m : gset string) <= 1)%nat as Hle.
    { rewrite <- (size_singleton (uuid env) (C := gset string)).
      apply subseteq_size. apply subseteq_difference_l. done. }
    lia.
  - intros Hcond k Hk. destruct (decide (k ∈ dom m)) as [|Hn]; [done|].
    destruct (Hnew k Hk Hn) as (_ & Hp & Hnone).
    destruct Hcond as [?|[x Hx]]; congruence.
  - intros t k [s Hs]%elem_of_dom. apply sweep_lookup in Hs. by apply elem_of_dom.
Qed.

Lemma processRequest_calls request w :
  toolCalls (snd (processRequest this request w)) = toolCalls w
  \/ (prop "method" request = Some (JStr "tools/call")
      /\ truthy (opt_prop "name" (prop "params" request)) = true
      /\ toolCalls (snd (processRequest this request w))
         = app (toolCalls w)
             [(default JNull (opt_prop "name" (prop "params" request)),
               call_arguments (prop "params" request))]).
Proof.
  assert (request = JNull \/ request <> JNull) as [->|Hnn] by (destruct request; auto).
  { by left. }
  destruct (prop "method" request) as [[| | |name| |]|] eqn:Hm;
    try (left; rewrite processRequest_unknown by (by rewrite ?Hm); done).
  destruct (String.eqb name "tools/call") eqn:Hcall.
  - apply String.eqb_eq in Hcall as ->.
    rewrite (processRequest_tools_call this request Hnn Hm).
    destruct (truthy _) eqn:Ht; [right|by left]. done.
  - left. unfold processRequest.
    destruct request; try congruence; try (cbn in Hm; discriminate Hm).
    rewrite Hm. unfold_monad. rewrite Hcall. by split_cases.
Qed.

(** X6. Serving a request calls the tool executor at most once, and only
    for a POST whose body is a [tools/call] request with a truthy name: no
    GET, DELETE, OPTIONS or health check, and no other method of the
    protocol, reaches the executor. *)
Theorem X6_only_tools_call_reaches_the_executor env req m :
  let w := snd (serve this env req m) in
  toolCalls w = []
  \/ (method req = "POST"
      /\ exists text request,
           body req = BodyText text
           /\ JSON_parse text = Some request
           /\ prop "method" request = Some (JStr "tools/call")
           /\ truthy (opt_prop "name" (prop "params" request)) = true
           /\ toolCalls w
              = [(default JNull (opt_prop "name" (prop "params" request)),
                  call_arguments (prop "params" request))]).
Proof.
  intros w. subst w. rewrite serve_route.
  destruct (pathname req) as [path|]; [|by left].
  destruct (String.eqb (method req) "OPTIONS"); [by left|].
  destruct (is_mcp_path path).
  2: { destruct (String.eqb path "/health"); by left. }
  destruct (String.eqb (method req) "POST") eqn:Hpost.
  { apply String.eqb_eq in Hpost.
    pose proof (handlePost_cases this env req m) as Hc.
    destruct (body req) as [text|e]; [|rewrite Hc; by left].
    destruct (JSON_parse text) as [request|] eqn:Hj; [|rewrite Hc; by left].
    destruct (resolve env req m) as [[[k' s0] m0]|] eqn:Hres.
    2: { destruct Hc as (sid & _ & ->). by left. }
    rewrite Hc.
    assert (request = JNull \/ request <> JNull) as [->|Hnn] by (destruct request; auto).
    { destruct (dispatchAndReply_null this req s0 k' m0) as (w & -> & _ & Hw & _).
      left. done. }
    destruct (dispatchAndReply_answers this req request s0 k' m0 Hnn)
      as (r & calls & w & Hrun & -> & _ & _ & _ & _ & _ & Hcalls).
    cbn [snd]. rewrite Hcalls.
    destruct (processRequest_calls request (start m0)) as [Hno|(Hm & Ht & Hone)];
      rewrite Hrun in *; cbn in *.
    - left. done.
    - right. split; [done|]. exists text, request. done. }
  destruct (String.eqb (method req) "GET").
  { pose proof (handleGet_cases env req m) as Hc.
    destruct (present (mcp_session_id req)) as [sid|]; [|rewrite Hc; by left].
    destruct (m !! sid) as [s1|] eqn:Hlk; [|rewrite Hc; by left].
    destruct (_ >? _); [rewrite Hc; by left|].
    destruct Hc as (w & -> & _ & Hcalls & _). left. done. }
  destruct (String.eqb (method req) "DELETE"); [|by left].
  rewrite handleDelete_spec. by left.
Qed.

(** X7. The dispatcher answers every request other than [null] with a
    response in which exactly one of [result] and [error] is set; an error
    carries the code -32601 or -32000. *)
Theorem X7_result_xor_error request :
  request <> JNull ->
  exists r calls,
    (forall w, processRequest this request w = (Done r, add_calls calls w))
    /\ ((exists v, result r = Some v /\ error r = None)
        \/ (exists c msg, result r = None
              /\ error r = Some {| code := c; message := msg |}
              /\ (c = -32601 \/ c = -32000))).
Proof.
  intros Hnn. unfold processRequest.
  destruct request; try congruence; unfold_monad; split_cases; simplify_eq/=.
  all: try (eexists _, []; split; [intros w; rewrite add_calls_nil; reflexivity|];
            cbn; eauto 10).
  all: eexists _, [_]; (split; [intros w; reflexivity|]); cbn; eauto 10.
Qed.
End TransportExtras4.

Lemma append_empty_r (s : string) : s +:+ "" = s.
Proof. induction s as [|c s IH]; [done|]. change (String c (s +:+ "") = String c s). by rewrite IH. Qed.

Section TransportExtras5.
Context {imports : Imports}.
Variable this : HttpTransport.

(** X8. A GET without a (non-empty) session header is answered 400 and
    leaves the map as it is.  A GET on a live session that carries no
    [Last-Event-ID], an empty one, or one in which [parseInt] finds no
    number, replays nothing: the stream is opened with status 200 and left
    open without a frame, whatever the buffer holds. *)
Theorem X8_get_without_usable_cursor env req m path :
  method req = "GET" ->
  pathname req = Some path ->
  is_mcp_path path = true ->
  (present (mcp_session_id req) = None ->
   exists w, serve this env req m = (Done tt, w)
     /\ statusCode (res w) = Some 400
     /\ chunks (res w) = [error_body "Mcp-Session-Id header required"]
     /\ ended (res w) = true
     /\ sessions w = m)
  /\ (forall sid s,
        present (mcp_session_id req) = Some sid ->
        m !! sid = Some s ->
        ~ expired env s ->
        (present (last_event_id req) = None
         \/ exists h, present (last_event_id req) = Some h /\ parseInt h = None) ->
        exists w, serve this env req m = (Done tt, w)
          /\ statusCode (res w) = Some 200
          /\ header "Mcp-Session-Id" (res w) = Some sid
          /\ chunks (res w) = []
          /\ ended (res w) = false
          /\ sessions w = m).
Proof.
  intros Hm Hp Hmcp.
  rewrite serve_route, Hp, Hm, Hmcp. cbn [String.eqb Ascii.eqb Bool.eqb].
  pose proof (handleGet_cases env req m) as Hc. split.
  - intros Hnone. rewrite Hnone in Hc. rewrite Hc, reply_start. eexists. by repeat split.
  - intros sid s Hsid Hlk Hlive Hcur. rewrite Hsid, Hlk in Hc.
    apply gtb_not_expired in Hlive. rewrite Hlive in Hc.
    destruct Hc as (w & Hrun & Hs & _ & Hst & Hh & Hch & Hend).
    exists w. repeat split; try done. rewrite Hch.
    destruct Hcur as [->|(h & -> & ->)]; [done|].
    generalize (pendingEvents s). intros l. induction l as [|e l IH]; [done|].
    rewrite filter_cons_False; [done|]. cbn. tauto.
Qed.

(** X9. A POST that does not ask for an event stream is answered with the
    JSON text of the response as its body, status 200; it emits no frame
    and its session keeps the counter it had (zero for a session the
    request created). *)
Theorem X9_json_answer_consumes_no_event_id env req m path text request k s0 m0 :
  method req = "POST" ->
  pathname req = Some path ->
  is_mcp_path path = true ->
  body req = BodyText text ->
  JSON_parse text = Some request ->
  request <> JNull ->
  resolve env req m = Some (k, s0, m0) ->
  wants_stream req = false ->
  exists r calls w,
    (forall w0, processRequest this request w0 = (Done r, add_calls calls w0))
    /\ serve this env req m = (Done tt, w)
    /\ statusCode (res w) = Some 200
    /\ chunks (res w) = [Body (JSON_stringify (response_json r))]
    /\ wire_text (res w) = JSON_stringify (response_json r)
    /\ frame_ids (res w) = []
    /\ emitted env req w = []
    /\ sessions w !! k = Some s0
    /\ (forall k', k' <> k -> sessions w !! k' = m !! k').
Proof.
  intros Hm Hp Hmcp Hb Hj Hnn Hres Hjson.
  destruct (serve_post this env req m path text request k s0 m0)
    as (r & calls & w & Hrun & Hs & Hmap & Hst & Hch & _); try done.
  rewrite Hjson in *. exists r, calls, w.
  apply resolve_Some in Hres as [_ Hres].
  split; [done|]. split; [done|]. split; [done|]. split; [done|].
  split. { unfold wire_text. rewrite Hch. cbn. apply append_empty_r. }
  split. { unfold frame_ids. by rewrite Hch. }
  split. { unfold emitted, frame_ids. rewrite Hch. by destruct (String.eqb _ _). }
  rewrite Hmap. destruct Hres as [(_ & Hlk & _ & ->)|(_ & -> & -> & ->)].
  - done.
  - split; [apply lookup_insert_eq|]. intros k' Hne. by apply lookup_insert_ne.
Qed.
End TransportExtras5.

(** X10. A transport never reports an empty name or version: the
    constructor uses the given ones when they are not empty and
    [lakehouse42] and [0.1.0] otherwise.  Every [initialize] request is
    answered with those two values as [serverInfo], and every request to
    [/health], whatever its method other than OPTIONS, with status 200 and
    the JSON text that holds them. *)
Theorem X10_server_identity {imports : Imports} options request env req m :
  let this := new_HttpTransport options in
  serverName this <> ""
  /\ serverVersion this <> ""
  /\ (forall n, options_serverName options = Some n -> n <> "" -> serverName this = n)
  /\ (present (options_serverName options) = None -> serverName this = "lakehouse42")
  /\ (forall v, options_serverVersion options = Some v -> v <> "" -> serverVersion this = v)
  /\ (present (options_serverVersion options) = None -> serverVersion this = "0.1.0")
  /\ (request <> JNull ->
      prop "method" request = Some (JStr "initialize") ->
      forall w,
        processRequest this request w
        = (Done {| response_id := prop "id" request;
                   result :=
                     Some (JObj [("protocolVersion", JStr "2025-03-26");
                                 ("capabilities",
                                  JObj [("tools", JObj []); ("resources", JObj [])]);
                                 ("serverInfo",
                                  JObj [("name", JStr (serverName this));
                                        ("version", JStr (serverVersion this))])]);
                   error := None |},
           w))
  /\ (pathname req = Some "/health" ->
      method req <> "OPTIONS" ->
      exists w,
        serve this env req m = (Done tt, w)
        /\ statusCode (res w) = Some 200
        /\ header "Content-Type" (res w) = Some "application/json"
        /\ chunks (res w)
           = [Body (JSON_stringify
                      (JObj [("status", JStr "ok"); ("server", JStr (serverName this));
                             ("version", JStr (serverVersion this))]))]
        /\ ended (res w) = true
        /\ sessions w = m).
Proof.
  intros this.
  split; [|split; [|split; [|split; [|split; [|split; [|split]]]]]].
  - subst this. cbn. destruct (options_serverName options) as [[|c n]|]; done.
  - subst this. cbn. destruct (options_serverVersion options) as [[|c n]|]; done.
  - subst this. cbn. intros n -> Hn. by destruct n.
  - subst this. cbn. by intros ->.
  - subst this. cbn. intros v -> Hv. by destruct v.
  - subst this. cbn. by intros ->.
  - intros Hnn Hm w. unfold processRequest.
    destruct request; try congruence; rewrite Hm; reflexivity.
  - intros Hp Hm. rewrite serve_route, Hp.
    destruct (String.eqb_spec (method req) "OPTIONS") as [|_]; [done|].
    replace (is_mcp_path "/health") with false by reflexivity.
    replace (String.eqb "/health" "/health") with true by reflexivity.
    rewrite reply_start. eexists. split; [reflexivity|]. by repeat split.
Qed.

(* ===================================================================== *)
(** ** Properties of tools.ts *)
(* ===================================================================== *)

Lemma length_append (s t : string) :
  String.length (s +:+ t) = (String.length s + String.length t)%nat.
Proof.
  induction s as [|c s IH]; [done|].
  change (S (String.length (s +:+ t)) = S (String.length s + String.length t)).
  by rewrite IH.
Qed.

Lemma length_substring0 (k : nat) (s : string) :
  String.length (String.substring 0 k s) = Nat.min k (String.length s).
Proof.
  revert k. induction s as [|c s IH]; intros [|k]; cbn; try done. by rewrite IH.
Qed.

Lemma substring0_all (k : nat) (s : string) :
  (String.length s <= k)%nat -> String.substring 0 k s = s.
Proof.
  revert k. induction s as [|c s IH]; intros [|k] Hk; cbn in *; try done; try lia.
  rewrite IH; [done|lia].
Qed.

Lemma truncate_short text n :
  Z.of_nat (String.length text) <= n -> Tools.truncate text n = text.
Proof.
  intros Hle. unfold Tools.truncate.
  by destruct (Z.leb_spec (Z.of_nat (String.length text)) n) as [_|]; [|lia].
Qed.

Lemma truncate_long text n :
  3 <= n ->
  n < Z.of_nat (String.length text) ->
  Tools.truncate text n = String.substring 0 (Z.to_nat (n - 3)) text +:+ "..."
  /\ Z.of_nat (String.length (Tools.truncate text n)) = n.
Proof.
  intros Hn Hlt. unfold Tools.truncate, Tools.slice_to.
  destruct (Z.leb_spec (Z.of_nat (String.length text)) n) as [|_]; [lia|].
  destruct (Z.ltb_spec (n - 3) 0) as [|_]; [lia|].
  rewrite Z.min_l by lia. split; [done|].
  rewrite length_append, length_substring0. cbn. lia.
Qed.

Lemma truncate_length_le text n :
  3 <= n -> Z.of_nat (String.length (Tools.truncate text n)) <= n.
Proof.
  intros Hn. destruct (Z.le_gt_cases (Z.of_nat (String.length text)) n) as [Hle|Hgt].
  - by rewrite truncate_short.
  - destruct (truncate_long text n Hn Hgt) as [_ ->]. lia.
Qed.

(** X11. With a limit of at least 3, [truncate] returns a text that is no
    longer than the limit: the text itself when it fits, and otherwise its
    first [limit - 3] characters followed by three dots, exactly [limit]
    characters long.  Truncating twice is truncating once. *)
Theorem X11_truncate_fits_the_limit text n :
  3 <= n ->
  Z.of_nat (String.length (Tools.truncate text n)) <= n
  /\ (Z.of_nat (String.length text) <= n -> Tools.truncate text n = text)
  /\ (n < Z.of_nat (String.length text) ->
      Tools.truncate text n = String.substring 0 (Z.to_nat (n - 3)) text +:+ "..."
      /\ Z.of_nat (String.length (Tools.truncate text n)) = n)
  /\ Tools.truncate (Tools.truncate text n) n = Tools.truncate text n.
Proof.
  intros Hn.
  split; [by apply truncate_length_le|].
  split; [apply truncate_short|].
  split; [by apply truncate_long|].
  apply truncate_short. by apply truncate_length_le.
Qed.

Lemma X11_witness :
  Tools.truncate "abcdefghij" 8 = "abcde..."
  /\ Z.of_nat (String.length (Tools.truncate "abcdefghij" 8)) = 8.
Proof.
  destruct (X11_truncate_fits_the_limit "abcdefghij" 8) as (_ & _ & Hlong & _).
  - lia.
  - apply Hlong. cbn. lia.
Defined.

(** X12. Below 3 the limit is not kept: for a text longer than a limit
    [n] with [0 <= n < 3], [slice] is given a negative end and counts from
    the end of the text, so the result is the text without its last
    [3 - n] characters followed by three dots, longer than the limit. *)
Theorem X12_truncate_below_three text n :
  0 <= n < 3 ->
  n < Z.of_nat (String.length text) ->
  let len := Z.of_nat (String.length text) in
  Tools.truncate text n
  = String.substring 0 (Z.to_nat (Z.max (len + n - 3) 0)) text +:+ "..."
  /\ Z.of_nat (String.length (Tools.truncate text n)) = Z.max (len + n - 3) 0 + 3
  /\ n < Z.of_nat (String.length (Tools.truncate text n)).
Proof.
  intros Hn Hlt len. unfold Tools.truncate, Tools.slice_to. fold len.
  destruct (Z.leb_spec len n) as [|_]; [lia|].
  destruct (Z.ltb_spec (n - 3) 0) as [_|]; [|lia].
  replace (len + (n - 3)) with (len + n - 3) by lia.
  split; [done|].
  rewrite length_append, length_substring0. cbn. subst len. lia.
Qed.

Lemma X12_witness :
  Tools.truncate "abcdefghij" 2 = "abcdefghi..."
  /\ 2 < Z.of_nat (String.length (Tools.truncate "abcdefghij" 2)).
Proof.
  destruct (X12_truncate_below_three "abcdefghij" 2) as (Heq & _ & Hlong).
  - lia.
  - cbn. lia.
  - split; [exact Heq|exact Hlong].
Defined.

Lemma base64_bytes_nonempty a l : Tools.base64_bytes (a :: l) <> "".
Proof. destruct l as [|b [|c l]]; done. Qed.

Lemma cursor_nonempty offset query :
  Tools.base64 (Tools.cursor_text offset query) <> "".
Proof.
  unfold Tools.base64, Tools.cursor_text.
  destruct (JSON_stringify _) as [|c s] eqn:Hs.
  - exfalso. revert Hs. cbn [JSON_stringify]. done.
  - cbn. apply base64_bytes_nonempty.
Qed.

Lemma present_nonempty (s : string) : s <> "" -> present (Some s) = Some s.
Proof. by destruct s. Qed.

Section SlimSearch.
Variable number : Type.
Variable round2 : number -> number.

Lemma slim_next_cursor (response : Tools.SearchResponse number) (query : string) (offset : Z) :
  let slim := Tools.toSlimSearchResponse number round2 response query offset in
  Tools.next_cursor number slim
  = if Tools.has_more number slim
    then Some (Tools.base64 (Tools.cursor_text (offset + 5) query)) else None.
Proof.
  cbn. destruct (_ >? _); [|done]. apply present_nonempty, cursor_nonempty.
Qed.

(** X13. The slim search response carries the first five results at most,
    in their order, each snippet no longer than 200 characters; it reports
    more results exactly when the total exceeds the offset plus five, and
    it carries a cursor exactly then. *)
Theorem X13_slim_search_response
    (response : Tools.SearchResponse number) (query : string) (offset : Z) :
  let slim := Tools.toSlimSearchResponse number round2 response query offset in
  List.length (Tools.slim_results number slim)
  = Nat.min 5 (List.length (Tools.results number response))
  /\ Tools.slim_title number <$> Tools.slim_results number slim
     = take 5 (Tools.document_name number <$> Tools.results number response)
  /\ Forall (fun r => Z.of_nat (String.length (Tools.snippet number r)) <= 200)
            (Tools.slim_results number slim)
  /\ (Tools.has_more number slim = true
      <-> Tools.total_results number response > offset + 5)
  /\ (is_Some (Tools.next_cursor number slim) <-> Tools.has_more number slim = true)
  /\ (Tools.has_more number slim = true ->
      Tools.next_cursor number slim
      = Some (Tools.base64 (Tools.cursor_text (offset + 5) query)))
  /\ Tools.slim_total number slim = Tools.total_results number response.
Proof.
  intros slim. subst slim. unfold Tools.toSlimSearchResponse. cbn.
  split; [|split; [|split; [|split; [|split; [|split]]]]].
  - rewrite length_map, length_take. done.
  - rewrite <- fmap_take. generalize (take 5 (Tools.results number response)).
    intros l. induction l as [|r l IH]; [done|]. cbn. by rewrite <- IH.
  - apply Forall_forall. intros r Hr. apply list_elem_of_In, in_map_iff in Hr as (x & <- & _).
    cbn. by apply truncate_length_le.
  - rewrite Z.gtb_gt. done.
  - destruct (_ >? _); [|split; [by intros [? ?]|done]].
    rewrite present_nonempty by apply cursor_nonempty. split; [done|eauto].
  - intros ->. apply present_nonempty, cursor_nonempty.
  - done.
Qed.
End SlimSearch.

Section CursorProperties.
Context {imports : Imports}.
Variable base64_decode : string -> string.
Variable number : Type.
Variable round2 : number -> number.

(** X14. The cursor that a slim search response carries is read back by
    [search] as the offset of the next page, the old offset plus five,
    provided decoding undoes the encoding of its text and [JSON.parse]
    reads that text back.  A missing or empty cursor, one that does not
    decode to JSON, and one that decodes to [null] all give the offset 0. *)
Theorem X14_cursor_round_trip
    (response : Tools.SearchResponse number) (query : string) (offset : Z) :
  let slim := Tools.toSlimSearchResponse number round2 response query offset in
  let text := Tools.cursor_text (offset + 5) query in
  (Tools.has_more number slim = true ->
   base64_decode (Tools.base64 text) = text ->
   JSON_parse text = Some (JObj [("offset", JNum (offset + 5)); ("query", JStr query)]) ->
   Tools.cursor_offset base64_decode (Tools.next_cursor number slim) = JNum (offset + 5))
  /\ Tools.cursor_offset base64_decode None = JNum 0
  /\ Tools.cursor_offset base64_decode (Some "") = JNum 0
  /\ (forall c, JSON_parse (base64_decode c) = None ->
                Tools.cursor_offset base64_decode (Some c) = JNum 0)
  /\ (forall c, JSON_parse (base64_decode c) = Some JNull ->
                Tools.cursor_offset base64_decode (Some c) = JNum 0).
Proof.
  intros slim text. split; [|split; [done|split; [done|split]]].
  - intros Hmore Hdec Hparse.
    pose proof (slim_next_cursor number round2 response query offset) as Hcur.
    cbn zeta in Hcur. fold slim in Hcur. rewrite Hcur, Hmore. fold text.
    unfold Tools.cursor_offset.
    rewrite present_nonempty by apply cursor_nonempty.
    rewrite Hdec, Hparse. cbn.
    destruct (Z.eqb_spec (offset + 5) 0) as [->|]; done.
  - intros c Hc. unfold Tools.cursor_offset. destruct c as [|a c]; [done|].
    cbn [present]. by rewrite Hc.
  - intros c Hc. unfold Tools.cursor_offset. destruct c as [|a c]; [done|].
    cbn [present]. by rewrite Hc.
Qed.
End CursorProperties.

Lemma take_all_iff {A} (n : nat) (l : list A) : take n l = l <-> (List.length l <= n)%nat.
Proof.
  split.
  - intros Heq. rewrite <- Heq, length_take. lia.
  - apply firstn_all2.
Qed.

Lemma map_collection_id (l : list Tools.Collection) :
  map (fun c => {| Tools.col_id := Tools.col_id c; Tools.col_name := Tools.col_name c;
                   Tools.col_document_count := Tools.col_document_count c |}) l = l.
Proof. induction l as [|[] l IH]; [done|]. cbn. by rewrite IH. Qed.

Lemma map_document_id (l : list Tools.Document) :
  map (fun d => {| Tools.doc_id := Tools.doc_id d; Tools.doc_title := Tools.doc_title d;
                   Tools.doc_status := Tools.doc_status d;
                   Tools.doc_chunk_count := Tools.doc_chunk_count d |}) l = l.
Proof. induction l as [|[] l IH]; [done|]. cbn. by rewrite IH. Qed.

Lemma map_snapshot_id (l : list Tools.Snapshot) :
  map (fun s => {| Tools.snap_id := Tools.snap_id s;
                   Tools.snap_operation := Tools.snap_operation s;
                   Tools.snap_committed_at := Tools.snap_committed_at s |}) l = l.
Proof. induction l as [|[] l IH]; [done|]. cbn. by rewrite IH. Qed.

(** X15. The slim list of collections is the first ten collections of the
    response; its total is the number of collections received; whenever a
    collection is left out it says that there are more, and when the API
    reports no more and nothing is left out it says so too.  The cursor of
    the API is passed on unless it is null or empty. *)
Theorem X15_slim_collections (response : Tools.ListCollectionsResponse) :
  let slim := Tools.toSlimListCollectionsResponse response in
  let n := List.length (Tools.collections response) in
  Tools.slim_collections slim = take 10 (Tools.collections response)
  /\ List.length (Tools.slim_collections slim) = Nat.min 10 n
  /\ Tools.slim_cols_total slim = Z.of_nat n
  /\ (Tools.slim_collections slim <> Tools.collections response ->
      Tools.slim_cols_has_more slim = true)
  /\ (Tools.slim_cols_has_more slim = false <->
      Tools.cols_has_more response = false
      /\ Tools.slim_collections slim = Tools.collections response)
  /\ Tools.slim_cols_next_cursor slim = present (Tools.cols_next_cursor response).
Proof.
  intros slim n. subst slim. unfold Tools.toSlimListCollectionsResponse. cbn.
  rewrite map_collection_id. fold n.
  change (Z.of_nat Tools.MAX_COLLECTIONS) with 10. change Tools.MAX_COLLECTIONS with 10%nat.
  assert (take 10 (Tools.collections response) = Tools.collections response
          <-> (Z.of_nat n >? 10) = false) as Hall.
  { rewrite take_all_iff. fold n. destruct (Z.gtb_spec (Z.of_nat n) 10); split; try done; lia. }
  split; [done|]. split; [by rewrite length_take|]. split; [done|]. split; [|split; [|done]].
  - intros Hne. destruct (Z.of_nat n >? 10) eqn:Hn; [apply orb_true_r|].
    exfalso. apply Hne, Hall. done.
  - rewrite orb_false_iff, Hall. done.
Qed.

(** X16. The slim list of documents is the first ten documents of the
    response and keeps the total the API reports; it says that there are
    more when the API says so or when that total exceeds ten.  When the
    total the API reports is at least the number of documents it sent, a
    document is never left out silently. *)
Theorem X16_slim_documents (response : Tools.ListDocumentsResponse) :
  let slim := Tools.toSlimListDocumentsResponse response in
  Tools.slim_documents slim = take 10 (Tools.documents response)
  /\ (List.length (Tools.slim_documents slim) <= 10)%nat
  /\ Tools.slim_docs_total slim = Tools.total_count response
  /\ (Tools.slim_docs_has_more slim = true <->
      Tools.docs_has_more response = true \/ Tools.total_count response > 10)
  /\ (Z.of_nat (List.length (Tools.documents response)) <= Tools.total_count response ->
      Tools.slim_documents slim <> Tools.documents response ->
      Tools.slim_docs_has_more slim = true)
  /\ Tools.slim_docs_next_cursor slim = present (Tools.docs_next_cursor response).
Proof.
  intros slim. subst slim. unfold Tools.toSlimListDocumentsResponse. cbn.
  rewrite map_document_id.
  change (Z.of_nat Tools.MAX_DOCUMENTS) with 10. change Tools.MAX_DOCUMENTS with 10%nat.
  split; [done|]. split; [rewrite length_take; lia|]. split; [done|].
  split; [|split; [|done]].
  - rewrite orb_true_iff, Z.gtb_gt. done.
  - intros Hcount Hne. apply orb_true_iff. right. apply Z.gtb_gt.
    destruct (decide (List.length (Tools.documents response) <= 10)%nat) as [Hle|Hgt]; [|lia].
    exfalso. apply Hne, take_all_iff. done.
Qed.

Lemma X16_witness :
  let d := {| Tools.doc_id := "d"; Tools.doc_title := "t"; Tools.doc_status := "ready";
              Tools.doc_chunk_count := 1 |} in
  let response := {| Tools.documents := replicate 12 d; Tools.docs_has_more := false;
                     Tools.docs_next_cursor := None; Tools.total_count := 12 |} in
  Tools.slim_docs_has_more (Tools.toSlimListDocumentsResponse response) = true.
Proof.
  intros d response.
  destruct (X16_slim_documents response) as (_ & _ & _ & _ & Hmore & _).
  apply Hmore.
  - cbn. lia.
  - cbn. intros Heq. discriminate Heq.
Defined.

(** X17. The slim time-travel response carries the first three rows at
    most and is marked truncated exactly when the row count the API reports
    exceeds three; the slim list of snapshots carries the first ten at most
    and says that there are more exactly when the reported total exceeds
    ten.  When the reported number is the number of items received, the
    mark is set exactly when an item is left out. *)
Theorem X17_slim_rows_and_snapshots
    (query : Tools.TimeTravelQueryResponse) (listing : Tools.ListSnapshotsResponse) :
  let slim_query := Tools.toSlimTimeTravelQueryResponse query in
  let slim_listing := Tools.toSlimListSnapshotsResponse listing in
  Tools.sample_rows slim_query = take 3 (Tools.rows query)
  /\ (Tools.truncated slim_query = true <-> Tools.row_count query > 3)
  /\ (Tools.row_count query = Z.of_nat (List.length (Tools.rows query)) ->
      (Tools.truncated slim_query = true
       <-> Tools.sample_rows slim_query <> Tools.rows query))
  /\ Tools.slim_snapshots slim_listing = take 10 (Tools.snapshots listing)
  /\ (Tools.slim_snaps_has_more slim_listing = true <-> Tools.snaps_total listing > 10)
  /\ (Tools.snaps_total listing = Z.of_nat (List.length (Tools.snapshots listing)) ->
      (Tools.slim_snaps_has_more slim_listing = true
       <-> Tools.slim_snapshots slim_listing <> Tools.snapshots listing)).
Proof.
  intros slim_query slim_listing. subst slim_query slim_listing.
  unfold Tools.toSlimTimeTravelQueryResponse, Tools.toSlimListSnapshotsResponse. cbn.
  rewrite map_snapshot_id.
  change (Z.of_nat Tools.MAX_SNAPSHOTS) with 10. change Tools.MAX_SNAPSHOTS with 10%nat.
  change (Z.of_nat Tools.MAX_SAMPLE_ROWS) with 3. change Tools.MAX_SAMPLE_ROWS with 3%nat.
  split; [done|]. split; [by rewrite Z.gtb_gt|]. split; [|split; [done|split]].
  - intros ->. rewrite Z.gtb_gt, take_all_iff. lia.
  - by rewrite Z.gtb_gt.
  - intros ->. rewrite Z.gtb_gt, take_all_iff. lia.
Qed.

Lemma X17_witness :
  let query := {| Tools.rows := [JNum 1; JNum 2; JNum 3; JNum 4]; Tools.columns := ["n"];
                  Tools.row_count := 4; Tools.table_name := "documents";
                  Tools.snapshot_id := None |} in
  Tools.truncated (Tools.toSlimTimeTravelQueryResponse query) = true
  <-> Tools.sample_rows (Tools.toSlimTimeTravelQueryResponse query) <> Tools.rows query.
Proof.
  intros query.
  destruct (X17_slim_rows_and_snapshots query
              {| Tools.snapshots := []; Tools.snaps_table_name := "documents";
                 Tools.snaps_total := 0 |}) as (_ & _ & Hrows & _).
  apply Hrows. reflexivity.
Defined.

Lemma filter_sublist {A} (p : A -> bool) (l : list A) : List.filter p l `sublist_of` l.
Proof.
  induction l as [|a l IH]; cbn; [done|].
  destruct (p a); by constructor.
Qed.

Lemma map_sublist {A B} (f : A -> B) (l1 l2 : list A) :
  l1 `sublist_of` l2 -> map f l1 `sublist_of` map f l2.
Proof. induction 1; cbn; by constructor. Qed.

Lemma result_name_at_detail detail (l : list Tools.TaggedTool) :
  map Tools.result_name (map (Tools.at_detail detail) l) = map Tools.name l.
Proof.
  induction l as [|t l IH]; [done|]. cbn. rewrite IH. by destruct detail.
Qed.

Section DiscoveryProperties.
Variable toLowerCase : string -> string.

(** X18. [searchTools] selects from the registry: the tools found come in
    registry order without repetition, they are exactly the registered
    tools that carry one of the wanted tags (when tags are given) and
    whose lower-cased name or description contains the lower-cased query
    (when one is given); the detail level changes what is shown of a tool,
    never which tools are found; with no query and no tags all ten tools
    are found. *)
Theorem X18_search_tools_selects_from_the_registry
    (query : option string) (wanted : option (list Tools.ToolTag))
    (detail : option Tools.DetailLevel) :
  let found := Tools.searchTools toLowerCase query wanted detail in
  map Tools.result_name found `sublist_of` map Tools.name Tools.TAGGED_TOOLS
  /\ NoDup (map Tools.result_name found)
  /\ (forall r, In r found <->
        exists t, In t Tools.TAGGED_TOOLS
                  /\ r = Tools.at_detail (default Tools.DetailSummary detail) t
                  /\ (forall tag more, wanted = Some (tag :: more) ->
                        exists g, In g (tag :: more) /\ In g (Tools.tags t))
                  /\ (forall q, present query = Some q ->
                        includes (toLowerCase q) (toLowerCase (Tools.name t)) = true
                        \/ includes (toLowerCase q) (toLowerCase (Tools.description t))
                           = true))
  /\ (forall detail',
        map Tools.result_name (Tools.searchTools toLowerCase query wanted detail')
        = map Tools.result_name found)
  /\ (present query = None -> wanted = None \/ wanted = Some [] ->
      map Tools.result_name found = map Tools.name Tools.TAGGED_TOOLS).
Proof.
  intros found. subst found. unfold Tools.searchTools, Tools.searchTools_in.
  set (byTag := match wanted with
                | Some (tag :: more) =>
                    List.filter (Tools.has_some_tag (tag :: more)) Tools.TAGGED_TOOLS
                | _ => Tools.TAGGED_TOOLS
                end).
  set (byQuery := match present query with
                  | Some q => List.filter (Tools.matches_query toLowerCase (toLowerCase q)) byTag
                  | None => byTag
                  end).
  assert (byQuery `sublist_of` Tools.TAGGED_TOOLS) as Hsub.
  { transitivity byTag.
    - subst byQuery. destruct (present query); [apply filter_sublist|done].
    - subst byTag. destruct wanted as [[|tag more]|]; try done. apply filter_sublist. }
  assert (forall t, In t byTag <->
            In t Tools.TAGGED_TOOLS
            /\ forall tag more, wanted = Some (tag :: more) ->
                 exists g, In g (tag :: more) /\ In g (Tools.tags t)) as HbyTag.
  { intros t. subst byTag. destruct wanted as [[|tag more]|].
    - split; [by intros ?; split|by intros [? _]].
    - rewrite filter_In. unfold Tools.has_some_tag. rewrite existsb_exists.
      split.
      + intros [Hin (g & Hg & Hex)]. split; [done|]. intros tag' more' [= <- <-].
        exists g. split; [done|]. apply existsb_exists in Hex as (g' & Hg' & Heq).
        by destruct g, g'.
      + intros [Hin Hex]. split; [done|]. destruct (Hex tag more eq_refl) as (g & Hg & Ht).
        exists g. split; [done|]. apply existsb_exists. exists g. split; [done|].
        by destruct g.
    - split; [by intros ?; split|by intros [? _]]. }
  assert (forall t, In t byQuery <->
            In t byTag
            /\ forall q, present query = Some q ->
                 includes (toLowerCase q) (toLowerCase (Tools.name t)) = true
                 \/ includes (toLowerCase q) (toLowerCase (Tools.description t)) = true)
    as HbyQuery.
  { intros t. subst byQuery. destruct (present query) as [q|].
    - rewrite filter_In. unfold Tools.matches_query. rewrite orb_true_iff. split.
      + intros [Hin Hq]. split; [done|]. by intros q' [= <-].
      + intros [Hin Hq]. split; [done|]. by apply Hq.
    - split; [by intros ?; split|by intros [? _]]. }
  rewrite result_name_at_detail.
  split; [by apply map_sublist|].
  split; [|split; [|split]].
  - assert (NoDup (map Tools.name Tools.TAGGED_TOOLS)) as Hnd.
    { apply (bool_decide_unpack _). by vm_compute. }
    apply (sublist_NoDup _ _ Hnd). by apply map_sublist.
  - intros r. rewrite in_map_iff. split.
    + intros (t & <- & Hin). apply HbyQuery in Hin as [Hin Hq].
      apply HbyTag in Hin as [Hin Ht]. by exists t.
    + intros (t & Hin & -> & Ht & Hq). exists t. split; [done|].
      apply HbyQuery. split; [|done]. apply HbyTag. done.
  - intros detail'. by rewrite result_name_at_detail.
  - intros Hq Hw. subst byQuery byTag. rewrite Hq. by destruct Hw as [->| ->].
Qed.
End DiscoveryProperties.

Lemma execute_unknown (this : Tools.Handlers) (toolName args : json) :
  (forall t, In t Tools.TAGGED_TOOLS -> toolName <> JStr (Tools.name t)) ->
  Tools.execute this toolName args
  = match js_string toolName with
    | Some text => Rejected (ErrorInstance "Error" ("Unknown tool: " +:+ text))
    | None => Rejected (ErrorInstance "TypeError" "Cannot convert object to primitive value")
    end.
Proof.
  intros Hno. unfold Tools.execute. destruct toolName as [| | |n| |]; try reflexivity.
  assert (Forall (fun t => n <> Tools.name t) Tools.TAGGED_TOOLS) as Hall.
  { apply Forall_forall. intros t Ht Heq. apply list_elem_of_In in Ht.
    apply (Hno t Ht). by rewrite Heq. }
  unfold Tools.TAGGED_TOOLS in Hall.
  repeat (apply Forall_cons in Hall as [? Hall]). cbn [Tools.name] in *.
  repeat match goal with
  | |- context [String.eqb n ?s] => destruct (String.eqb_spec n s) as [?|_]; [done|]
  end.
  reflexivity.
Qed.

Lemma execute_registered (this : Tools.Handlers) (args : json) (i : nat) t h :
  Tools.TAGGED_TOOLS !! i = Some t ->
  Tools.handlers this !! i = Some h ->
  Tools.execute this (JStr (Tools.name t)) args = h args.
Proof.
  intros Ht Hh.
  do 10 (destruct i as [|i]; [cbn in Ht, Hh; by simplify_eq|]).
  discriminate Ht.
Qed.

(** X19. The tool executor and the registry agree: the name of the i-th
    registered tool is dispatched to the i-th handler, for each of the ten
    tools.  For any other name no handler is run: a string is rejected
    with the error [Unknown tool: <name>], and so is every value the
    template literal can convert to text; a value it cannot convert (an
    object with a [toString] property of its own) is rejected with the
    TypeError of the conversion. *)
Theorem X19_executor_agrees_with_registry (this : Tools.Handlers) (args : json) :
  List.length (Tools.handlers this) = List.length Tools.TAGGED_TOOLS
  /\ (forall i t h,
        Tools.TAGGED_TOOLS !! i = Some t ->
        Tools.handlers this !! i = Some h ->
        Tools.execute this (JStr (Tools.name t)) args = h args)
  /\ (forall n,
        (forall t, In t Tools.TAGGED_TOOLS -> n <> Tools.name t) ->
        Tools.execute this (JStr n) args
        = Rejected (ErrorInstance "Error" ("Unknown tool: " +:+ n)))
  /\ (forall toolName text,
        (forall t, In t Tools.TAGGED_TOOLS -> toolName <> JStr (Tools.name t)) ->
        js_string toolName = Some text ->
        Tools.execute this toolName args
        = Rejected (ErrorInstance "Error" ("Unknown tool: " +:+ text)))
  /\ (forall toolName,
        js_string toolName = None ->
        Tools.execute this toolName args
        = Rejected (ErrorInstance "TypeError" "Cannot convert object to primitive value"))
  /\ (forall props value,
        assoc "toString" props = Some value ->
        Tools.execute this (JObj props) args
        = Rejected (ErrorInstance "TypeError" "Cannot convert object to primitive value")).
Proof.
  split; [reflexivity|]. split; [|split; [|split; [|split]]].
  - intros i t h. apply execute_registered.
  - intros n Hno. rewrite execute_unknown; [done|]. intros t Ht [= ->]. by apply (Hno t).
  - intros toolName text Hno Htext. by rewrite execute_unknown, Htext.
  - intros toolName Hnone. rewrite execute_unknown; [by rewrite Hnone|].
    intros t _ ->. discriminate Hnone.
  - intros props value Hown. rewrite execute_unknown; [cbn; by rewrite Hown|]. done.
Qed.

Section WithRegistry.
Variable parse : string -> option json.
Variable handlers : Tools.Handlers.
Variable this : HttpTransport.
Hypothesis executor : toolExecutor this = Tools.new_ToolExecutor handlers.

(** X20. With the executor and the registry of tools.ts linked in, a
    [tools/call] over HTTP that names a tool the executor does not know is
    answered under HTTP status 200 with the JSON-RPC error -32000: with the
    message [Unknown tool: <name>] when the name can be converted to text,
    as every string can, and with the message of the conversion's
    TypeError otherwise.  [tools/list] answers with the ten registered
    tools in registry order, each with its name, description and input
    schema and without its tags. *)
Theorem X20_http_unknown_tool_and_listing request :
  request <> JNull ->
  let id := prop "id" request in
  let params := prop "params" request in
  let toolName := default JNull (opt_prop "name" params) in
  let answered message :=
    (forall w, processRequest (imports := linked parse) this request w
               = (Done {| response_id := id; result := None;
                          error := Some {| code := -32000; message := message |} |},
                  add_calls [(toolName, call_arguments params)] w))
    /\ forall env req m path text k s0 m0,
         method req = "POST" -> pathname req = Some path -> is_mcp_path path = true ->
         body req = BodyText text -> parse text = Some request ->
         resolve env req m = Some (k, s0, m0) ->
         wants_stream req = false ->
         exists w,
           serve (imports := linked parse) this env req m = (Done tt, w)
           /\ statusCode (res w) = Some 200
           /\ chunks (res w)
              = [Body (JSON_stringify
                         (let failed := JObj [("code", JNum (-32000));
                                              ("message", JStr message)] in
                          match id with
                          | Some value =>
                              JObj [("jsonrpc", JStr "2.0"); ("id", value);
                                    ("error", failed)]
                          | None => JObj [("jsonrpc", JStr "2.0"); ("error", failed)]
                          end))] in
  (prop "method" request = Some (JStr "tools/call") ->
   truthy (opt_prop "name" params) = true ->
   (forall t, In t Tools.TAGGED_TOOLS -> toolName <> JStr (Tools.name t)) ->
   (forall text, js_string toolName = Some text -> answered ("Unknown tool: " +:+ text))
   /\ (forall n, toolName = JStr n -> answered ("Unknown tool: " +:+ n))
   /\ (js_string toolName = None -> answered "Cannot convert object to primitive value"))
  /\ (prop "method" request = Some (JStr "tools/list") ->
      exists tools,
        (forall w, processRequest (imports := linked parse) this request w
                   = (Done {| response_id := id;
                              result := Some (JObj [("tools", JArr tools)]);
                              error := None |}, w))
        /\ map (prop "name") tools
           = map (fun t => Some (JStr (Tools.name t))) Tools.TAGGED_TOOLS
        /\ Forall (fun tool => prop "tags" tool = None
                               /\ is_Some (prop "description" tool)
                               /\ is_Some (prop "inputSchema" tool)) tools).
Proof.
  intros Hnn id params toolName answered. split.
  - intros Hm Hname Hno.
    pose proof (processRequest_tools_call (imports := linked parse) this request Hnn Hm)
      as Hrun.
    cbn zeta in Hrun. fold params in Hrun. rewrite Hname in Hrun.
    fold toolName in Hrun. rewrite executor in Hrun.
    change (execute (Tools.new_ToolExecutor handlers)) with (Tools.execute handlers) in Hrun.
    rewrite (execute_unknown handlers toolName _ Hno) in Hrun.
    assert (forall message,
              (forall w, processRequest (imports := linked parse) this request w
                         = (Done {| response_id := id; result := None;
                                    error := Some {| code := -32000;
                                                     message := message |} |},
                            add_calls [(toolName, call_arguments params)] w)) ->
              answered message) as Hanswered.
    { intros message Hmessage. split; [exact Hmessage|].
      intros env req m path text k s0 m0 Hpost Hp Hmcp Hb Hj Hres Hstream.
      destruct (serve_post (imports := linked parse) this env req m path text request
                  k s0 m0) as (r & calls & w & Hr & Hs & _ & Hst & Hch & _); try done.
      exists w. split; [done|]. split; [done|].
      rewrite Hch, Hstream.
      specialize (Hr (start m)). rewrite Hmessage in Hr. injection Hr as <- _.
      unfold response_json, obj. cbn. by destruct id. }
    split; [|split].
    + intros text Htext. apply Hanswered. intros w. by rewrite Hrun, Htext.
    + intros n Hn. apply Hanswered. intros w. by rewrite Hrun, Hn.
    + intros Hnone. apply Hanswered. intros w. by rewrite Hrun, Hnone.
  - intros Hm. eexists. split.
    + intros w. unfold processRequest.
      destruct request; try congruence; rewrite Hm; reflexivity.
    + split; [reflexivity|]. vm_compute. repeat constructor; eauto.
Qed.
End WithRegistry.

(* ===================================================================== *)
(** ** Properties of resources.ts *)
(* ===================================================================== *)

Lemma app_cons (c : ascii) (s t : string) : String c s +:+ t = String c (s +:+ t).
Proof. reflexivity. Qed.

Lemma app_inv_head (p s t : string) : p +:+ s = p +:+ t -> s = t.
Proof.
  induction p as [|c p IH]; [done|]. rewrite !app_cons. intros [= Heq]. by apply IH.
Qed.

Lemma includes_slash_cons (c : ascii) (s : string) :
  includes "/" (String c s) = Ascii.eqb c "/" || includes "/" s.
Proof.
  change (includes "/" (String c s)) with (String.prefix "/" (String c s) || includes "/" s).
  change (String.prefix "/" (String c s))
    with (if ascii_dec "/" c then String.prefix "" s else false).
  destruct (ascii_dec "/" c) as [<-|Hne]; [by destruct s|].
  by destruct (Ascii.eqb_spec c "/") as [->|_].
Qed.

Lemma includes_slash_app (s t : string) :
  includes "/" (s +:+ t) = includes "/" s || includes "/" t.
Proof.
  induction s as [|c s IH]; [done|].
  rewrite app_cons, !includes_slash_cons, IH. by rewrite orb_assoc.
Qed.

Lemma strip_prefix_app (p s : string) : Resources.strip_prefix p (p +:+ s) = Some s.
Proof.
  induction p as [|c p IH]; [by destruct s|].
  rewrite app_cons. cbn. by rewrite Ascii.eqb_refl.
Qed.

Lemma strip_prefix_Some (p s r : string) :
  Resources.strip_prefix p s = Some r -> s = p +:+ r.
Proof.
  revert s. induction p as [|c p IH]; intros s.
  - destruct s; intros [= <-]; reflexivity.
  - destruct s as [|b s]; cbn; [done|].
    destruct (Ascii.eqb_spec c b) as [->|]; [|done].
    intros Hs. rewrite app_cons. f_equal. by apply IH.
Qed.

Lemma segment_spec (s : string) :
  s = fst (Resources.segment s) +:+ snd (Resources.segment s)
  /\ includes "/" (fst (Resources.segment s)) = false
  /\ (snd (Resources.segment s) = ""
      \/ exists r, snd (Resources.segment s) = "/" +:+ r).
Proof.
  induction s as [|c s (IH1 & IH2 & IH3)]; [by repeat split; try left|].
  cbn [Resources.segment]. destruct (Ascii.eqb_spec c "/") as [->|Hne].
  - cbn [fst snd]. split; [done|]. split; [done|]. right. by exists s.
  - destruct (Resources.segment s) as [a b]. cbn [fst snd] in *.
    split; [by rewrite app_cons, <- IH1|]. split; [|done].
    rewrite includes_slash_cons, IH2. by destruct (Ascii.eqb_spec c "/").
Qed.

Lemma segment_app (group rest : string) :
  includes "/" group = false ->
  rest = "" \/ (exists r, rest = "/" +:+ r) ->
  Resources.segment (group +:+ rest) = (group, rest).
Proof.
  intros Hg Hrest. induction group as [|c group IH].
  - destruct Hrest as [->|[r ->]]; reflexivity.
  - rewrite includes_slash_cons in Hg. apply orb_false_elim in Hg as [Hc Hg].
    rewrite app_cons. cbn [Resources.segment]. rewrite Hc, (IH Hg). done.
Qed.

Lemma match_segment_spec (prefix suffix uri group : string) :
  suffix = "" \/ (exists r, suffix = "/" +:+ r) ->
  Resources.match_segment prefix suffix uri = Some group
  <-> group <> "" /\ includes "/" group = false /\ uri = prefix +:+ group +:+ suffix.
Proof.
  intros Hsuffix. unfold Resources.match_segment. split.
  - destruct (Resources.strip_prefix prefix uri) as [r|] eqn:Hr; [|done].
    apply strip_prefix_Some in Hr. destruct (segment_spec r) as (Hs1 & Hs2 & _).
    destruct (Resources.segment r) as [a b]. cbn [fst snd] in *.
    destruct (String.eqb_spec a ""); [done|].
    destruct (String.eqb_spec b suffix) as [->|]; [|done].
    cbn. intros [= <-]. by rewrite Hr, Hs1.
  - intros (Hne & Hg & ->). rewrite strip_prefix_app, segment_app by done.
    destruct (String.eqb_spec group ""); [done|]. by rewrite String.eqb_refl.
Qed.

Lemma length_app_ne (p s : string) : s <> "" -> p +:+ s <> p.
Proof.
  intros Hs Heq. apply (f_equal String.length) in Heq. rewrite length_append in Heq.
  destruct s; [done|]. cbn in Heq. lia.
Qed.

Lemma not_a_list_uri (p group suffix : string) :
  group <> "" ->
  (p +:+ "/" +:+ group +:+ suffix =? p)%string = false.
Proof.
  intros Hg. apply String.eqb_neq, length_app_ne. done.
Qed.

Lemma parse_documents_list :
  Resources.parseUri "lakehouse://documents"
  = Done {| Resources.type := Resources.DocumentsList; Resources.id := None;
            Resources.includeContent := None |}.
Proof. reflexivity. Qed.

Lemma parse_collections_list :
  Resources.parseUri "lakehouse://collections"
  = Done {| Resources.type := Resources.CollectionsList; Resources.id := None;
            Resources.includeContent := None |}.
Proof. reflexivity. Qed.

Lemma parse_document_content (id : string) :
  id <> "" -> includes "/" id = false ->
  Resources.parseUri ("lakehouse://documents/" +:+ id +:+ "/content")
  = Done {| Resources.type := Resources.Document; Resources.id := Some id;
            Resources.includeContent := Some true |}.
Proof.
  intros Hne Hid. unfold Resources.parseUri.
  change ("lakehouse://documents/" +:+ id +:+ "/content")
    with ("lakehouse://documents" +:+ "/" +:+ id +:+ "/content") at 1.
  rewrite not_a_list_uri by done.
  replace (String.eqb ("lakehouse://documents/" +:+ id +:+ "/content")
                      "lakehouse://collections") with false by reflexivity.
  assert (Resources.match_segment "lakehouse://documents/" "/content"
            ("lakehouse://documents/" +:+ id +:+ "/content") = Some id) as ->; [|done].
  apply match_segment_spec; [right; by exists "content"|done].
Qed.

Lemma parse_document (id : string) :
  id <> "" -> includes "/" id = false ->
  Resources.parseUri ("lakehouse://documents/" +:+ id)
  = Done {| Resources.type := Resources.Document; Resources.id := Some id;
            Resources.includeContent := None |}.
Proof.
  intros Hne Hid. unfold Resources.parseUri.
  rewrite <- (append_empty_r id) at 1.
  change ("lakehouse://documents/" +:+ id +:+ "")
    with ("lakehouse://documents" +:+ "/" +:+ id +:+ "") at 1.
  rewrite not_a_list_uri by done.
  replace (String.eqb ("lakehouse://documents/" +:+ id) "lakehouse://collections")
    with false by reflexivity.
  destruct (Resources.match_segment "lakehouse://documents/" "/content" _) as [g|] eqn:Hg.
  { apply match_segment_spec in Hg as (_ & _ & Hg); [|right; by exists "content"].
    apply app_inv_head in Hg. rewrite Hg, includes_slash_app in Hid.
    by rewrite orb_true_r in Hid. }
  assert (Resources.match_segment "lakehouse://documents/" ""
            ("lakehouse://documents/" +:+ id) = Some id) as ->; [|done].
  apply match_segment_spec; [by left|]. by rewrite append_empty_r.
Qed.

Lemma parse_collection (id : string) :
  id <> "" -> includes "/" id = false ->
  Resources.parseUri ("lakehouse://collections/" +:+ id)
  = Done {| Resources.type := Resources.Collection; Resources.id := Some id;
            Resources.includeContent := None |}.
Proof.
  intros Hne Hid. unfold Resources.parseUri.
  replace (String.eqb ("lakehouse://collections/" +:+ id) "lakehouse://documents")
    with false by reflexivity.
  rewrite <- (append_empty_r id) at 1.
  change ("lakehouse://collections/" +:+ id +:+ "")
    with ("lakehouse://collections" +:+ "/" +:+ id +:+ "") at 1.
  rewrite not_a_list_uri by done.
  replace (Resources.match_segment "lakehouse://documents/" "/content"
             ("lakehouse://collections/" +:+ id)) with (@None string) by reflexivity.
  replace (Resources.match_segment "lakehouse://documents/" ""
             ("lakehouse://collections/" +:+ id)) with (@None string) by reflexivity.
  assert (Resources.match_segment "lakehouse://collections/" ""
            ("lakehouse://collections/" +:+ id) = Some id) as ->; [|done].
  apply match_segment_spec; [by left|]. by rewrite append_empty_r.
Qed.

Lemma parseUri_shape (uri : string) :
  match Resources.parseUri uri with
  | Done p => parsed_as uri p
  | Threw e => e = ErrorInstance "Error" ("Invalid resource URI format: " +:+ uri)
  end.
Proof.
  unfold Resources.parseUri, parsed_as.
  destruct (String.eqb_spec uri "lakehouse://documents") as [->|_]; [by left|].
  destruct (String.eqb_spec uri "lakehouse://collections") as [->|_]; [by right; left|].
  destruct (Resources.match_segment "lakehouse://documents/" "/content" uri) as [g|] eqn:H1.
  { apply match_segment_spec in H1 as (? & ? & ?); [|right; by exists "content"].
    right; right; left. by exists g. }
  destruct (Resources.match_segment "lakehouse://documents/" "" uri) as [g|] eqn:H2.
  { apply match_segment_spec in H2 as (? & ? & H2); [|by left].
    rewrite append_empty_r in H2. right; right; right; left. by exists g. }
  destruct (Resources.match_segment "lakehouse://collections/" "" uri) as [g|] eqn:H3.
  { apply match_segment_spec in H3 as (? & ? & H3); [|by left].
    rewrite append_empty_r in H3. right; right; right; right. by exists g. }
  done.
Qed.

Lemma parsed_as_parse (uri : string) (p : Resources.ParsedUri) :
  parsed_as uri p -> Resources.parseUri uri = Done p.
Proof.
  intros [[-> ->]|[[-> ->]|[(id & ? & ? & -> & ->)|[(id & ? & ? & -> & ->)|
                                                     (id & ? & ? & -> & ->)]]]].
  - apply parse_documents_list.
  - apply parse_collections_list.
  - by apply parse_document_content.
  - by apply parse_document.
  - by apply parse_collection.
Qed.

(** X21. [parseUri] accepts exactly five shapes of URI: the two list URIs,
    and a document, a document's content and a collection, each with an id
    that is not empty and holds no slash; it returns the type and the id
    the URI shows.  Every other string is refused with the error
    [Invalid resource URI format: <uri>]. *)
Theorem X21_parseUri_accepts_five_shapes (uri : string) :
  (forall p, Resources.parseUri uri = Done p <-> parsed_as uri p)
  /\ (forall e, Resources.parseUri uri = Threw e ->
                e = ErrorInstance "Error" ("Invalid resource URI format: " +:+ uri))
  /\ ((forall p, ~ parsed_as uri p) ->
      Resources.parseUri uri
      = Threw (ErrorInstance "Error" ("Invalid resource URI format: " +:+ uri))).
Proof.
  pose proof (parseUri_shape uri) as Hshape.
  split; [|split].
  - intros p. split; [|apply parsed_as_parse].
    intros Hp. by rewrite Hp in Hshape.
  - intros e He. by rewrite He in Hshape.
  - intros Hnone. destruct (Resources.parseUri uri) as [p|e]; [|by subst e].
    by destruct (Hnone p).
Qed.

Section ResourceHandler.
Variable get : string -> option (list (string * json)) -> ToolOutcome.

(** X22. A resource that is read comes back under the URI that was asked
    for.  When reading fails, the URI was refused by [parseUri], or the API
    client rejected the request and its error is passed on, or the API
    answered null where a document with content was expected; the errors
    of [readDocument] and [readCollection] for a missing id never arise. *)
Theorem X22_readResource_answers_under_the_uri (uri : string) :
  match Resources.readResource get uri with
  | Done content =>
      Resources.content_uri content = uri
      /\ exists p, Resources.parseUri uri = Done p
  | Threw e =>
      Resources.parseUri uri
      = Threw (ErrorInstance "Error" ("Invalid resource URI format: " +:+ uri))
        /\ e = ErrorInstance "Error" ("Invalid resource URI format: " +:+ uri)
      \/ (exists p path params,
            Resources.parseUri uri = Done p /\ get path params = Rejected e)
      \/ (exists id,
            uri = "lakehouse://documents/" +:+ id +:+ "/content"
            /\ get ("/api/v1/documents/" +:+ id) (Some [("include_content", JBool true)])
               = Resolved JNull
            /\ e = Resources.null_property "content_type")
  end.
Proof.
  pose proof (parseUri_shape uri) as Hshape. unfold Resources.readResource.
  destruct (Resources.parseUri uri) as [p|e]; [|left; by subst e].
  destruct Hshape as [[-> ->]|[[-> ->]|[(id & Hne & ? & -> & ->)|[(id & Hne & ? & -> & ->)|
                                                     (id & Hne & ? & -> & ->)]]]];
    cbn [Resources.type Resources.id Resources.includeContent].
  - unfold Resources.readDocumentsList. destruct (get _ _) eqn:Hg; [by eauto|].
    right; left. eauto.
  - unfold Resources.readCollectionsList. destruct (get _ _) eqn:Hg; [by eauto|].
    right; left. eauto.
  - unfold Resources.readDocument. rewrite present_nonempty by done. cbn [default].
    destruct (get _ _) as [doc|e] eqn:Hg; [|right; left; eauto].
    destruct doc; try (split; [done|by eauto]).
    right; right. by exists id.
  - unfold Resources.readDocument. rewrite present_nonempty by done. cbn [default].
    destruct (get _ _) as [doc|e] eqn:Hg; [by eauto|right; left; eauto].
  - unfold Resources.readCollection. rewrite present_nonempty by done.
    destruct (get _ _) as [doc|e] eqn:Hg; [by eauto|right; left; eauto].
Qed.
End ResourceHandler.

Lemma push_each_all make items acc rs :
  Forall2 (fun item r => make item = Done r) items rs ->
  Resources.push_each make items acc = (app acc rs, None).
Proof.
  intros Hall. revert acc. induction Hall as [|item r items rs Hr _ IH]; intros acc.
  - by rewrite app_nil_r.
  - cbn. rewrite Hr, IH, <- app_assoc. done.
Qed.

Lemma push_each_stops make good bad rest acc rs e :
  Forall2 (fun item r => make item = Done r) good rs ->
  make bad = Threw e ->
  Resources.push_each make (app good (bad :: rest)) acc = (app acc rs, Some e).
Proof.
  intros Hall Hbad. revert acc. induction Hall as [|item r items rs Hr _ IH]; intros acc.
  - cbn. by rewrite Hbad, app_nil_r.
  - cbn. rewrite Hr, IH, <- app_assoc. done.
Qed.

Lemma push_each_prefix make items acc :
  exists rs, fst (Resources.push_each make items acc) = app acc rs
             /\ Forall (fun r => exists item, In item items /\ make item = Done r) rs.
Proof.
  revert acc. induction items as [|item items IH]; intros acc.
  - exists []. by rewrite app_nil_r.
  - cbn. destruct (make item) as [r|e] eqn:Hr.
    + destruct (IH (app acc [r])) as (rs & -> & Hrs). exists (r :: rs).
      split; [by rewrite <- app_assoc|]. constructor; [by eauto|].
      eapply Forall_impl; [exact Hrs|]. intros r' (item' & ? & ?). eauto.
    + exists []. by rewrite app_nil_r.
Qed.

Lemma document_resource_uri item r :
  Resources.document_resource item = Done r ->
  exists id, template (prop "id" item) = Some id
             /\ Resources.uri r = "lakehouse://documents/" +:+ id.
Proof.
  unfold Resources.document_resource.
  destruct (template (prop "id" item)) as [id|],
    (template (prop "title" item)) as [title|],
    (template (prop "status" item)) as [status|],
    (template (prop "chunk_count" item)) as [chunk_count|];
    destruct item; try done; intros [= <-]; by exists id.
Qed.

Lemma collection_resource_uri item r :
  Resources.collection_resource item = Done r ->
  exists id, template (prop "id" item) = Some id
             /\ Resources.uri r = "lakehouse://collections/" +:+ id.
Proof.
  unfold Resources.collection_resource.
  destruct (template (prop "id" item)) as [id|],
    (template (prop "name" item)) as [name|],
    (template (prop "document_count" item)) as [document_count|];
    destruct item; try done; intros [= <-]; by exists id.
Qed.

Section ResourceListing.
Variable get : string -> option (list (string * json)) -> ToolOutcome.

(** X23. [listResources] returns what it had gathered when something went
    wrong, not always the empty list: nothing when the documents cannot be
    fetched; the document resources alone, without the two aggregate
    resources, when the collections cannot be fetched; the resources up to
    the first entry that cannot be read when an entry is null; and
    otherwise one resource per document, one per collection and the two
    aggregate resources, in this order. *)
Theorem X23_listResources_keeps_what_it_gathered :
  let documents_answer := get "/api/v1/documents" (Some [("limit", JNum 20)]) in
  let collections_answer := get "/api/v1/collections" (Some [("limit", JNum 20)]) in
  (forall e, documents_answer = Rejected e -> Resources.listResources get = [])
  /\ (forall response docs rs e,
        documents_answer = Resolved response ->
        Resources.listing "documents" response = Some docs ->
        Forall2 (fun doc r => Resources.document_resource doc = Done r) docs rs ->
        collections_answer = Rejected e ->
        Resources.listResources get = rs)
  /\ (forall response good rest rs,
        documents_answer = Resolved response ->
        Resources.listing "documents" response = Some (app good (JNull :: rest)) ->
        Forall2 (fun doc r => Resources.document_resource doc = Done r) good rs ->
        Resources.listResources get = rs)
  /\ (forall response docs rs response' collections rs',
        documents_answer = Resolved response ->
        Resources.listing "documents" response = Some docs ->
        Forall2 (fun doc r => Resources.document_resource doc = Done r) docs rs ->
        collections_answer = Resolved response' ->
        Resources.listing "collections" response' = Some collections ->
        Forall2 (fun c r => Resources.collection_resource c = Done r) collections rs' ->
        Resources.listResources get
        = app rs (app rs' [Resources.all_documents; Resources.all_collections]))
  /\ (In Resources.all_collections (Resources.listResources get) ->
      exists response response',
        documents_answer = Resolved response /\ collections_answer = Resolved response').
Proof.
  intros documents_answer collections_answer. unfold Resources.listResources.
  fold documents_answer collections_answer.
  split; [|split; [|split; [|split]]].
  - by intros e ->.
  - intros response docs rs e -> -> Hrs ->. by rewrite (push_each_all _ _ _ rs).
  - intros response good rest rs -> -> Hrs.
    by rewrite (push_each_stops _ _ _ _ _ rs (Resources.null_property "id")).
  - intros response docs rs response' collections rs' -> -> Hrs -> -> Hrs'.
    rewrite (push_each_all _ _ _ rs) by done. cbn [app].
    rewrite (push_each_all _ _ _ rs') by done. by rewrite app_assoc.
  - destruct documents_answer as [response|e]; [|done].
    destruct (Resources.listing "documents" response) as [docs|]; [|done].
    destruct (push_each_prefix Resources.document_resource docs []) as (rs & Hfst & Hrs).
    destruct (Resources.push_each Resources.document_resource docs [])
      as [resources [e|]] eqn:Hpush; cbn [fst app] in Hfst; subst resources.
    { intros Hin. exfalso. rewrite Forall_forall in Hrs.
      apply list_elem_of_In, Hrs in Hin as (item & _ & Hitem).
      apply document_resource_uri in Hitem as (id & _ & Huri).
      revert Huri. apply String.eqb_neq. reflexivity. }
    destruct collections_answer as [response'|e]; [by eauto|].
    intros Hin. exfalso. rewrite Forall_forall in Hrs.
    apply list_elem_of_In, Hrs in Hin as (item & _ & Hitem).
    apply document_resource_uri in Hitem as (id & _ & Huri).
    revert Huri. apply String.eqb_neq. reflexivity.
Qed.

(** X24. A document or collection whose id is a string is listed under the
    URI made of that id, and it is listed whenever the other parts of its
    description can be converted to text.  It can be read back under that
    URI when the id is not empty and holds no slash: then [parseUri] finds
    the type and the id again.  An id with a slash is
    listed all the same, and its URI does not lead back to it: it is
    refused, or, when the id ends in [/content], read as the content of
    another document. *)
Theorem X24_listed_resources_read_back (item : json) (id : string) :
  prop "id" item = Some (JStr id) ->
  (forall r, Resources.document_resource item = Done r ->
             Resources.uri r = "lakehouse://documents/" +:+ id)
  /\ (forall r, Resources.collection_resource item = Done r ->
                Resources.uri r = "lakehouse://collections/" +:+ id)
  /\ (is_Some (template (prop "title" item)) ->
      is_Some (template (prop "status" item)) ->
      is_Some (template (prop "chunk_count" item)) ->
      exists r, Resources.document_resource item = Done r)
  /\ (is_Some (template (prop "name" item)) ->
      is_Some (template (prop "document_count" item)) ->
      exists r, Resources.collection_resource item = Done r)
  /\ (id <> "" -> includes "/" id = false ->
      Resources.parseUri ("lakehouse://documents/" +:+ id)
      = Done {| Resources.type := Resources.Document; Resources.id := Some id;
                Resources.includeContent := None |}
      /\ Resources.parseUri ("lakehouse://collections/" +:+ id)
         = Done {| Resources.type := Resources.Collection; Resources.id := Some id;
                   Resources.includeContent := None |})
  /\ (includes "/" id = true ->
      forall p, Resources.parseUri ("lakehouse://documents/" +:+ id) = Done p ->
                exists other, id = other +:+ "/content"
                              /\ Resources.id p = Some other
                              /\ Resources.includeContent p = Some true)
  /\ (includes "/" id = true ->
      Resources.parseUri ("lakehouse://collections/" +:+ id)
      = Threw (ErrorInstance "Error"
                 ("Invalid resource URI format: lakehouse://collections/" +:+ id))).
Proof.
  intros Hid. split; [|split; [|split; [|split; [|split; [|split]]]]].
  - intros r Hr. apply document_resource_uri in Hr as (text & Htext & ->).
    rewrite Hid in Htext. cbn in Htext. by simplify_eq.
  - intros r Hr. apply collection_resource_uri in Hr as (text & Htext & ->).
    rewrite Hid in Htext. cbn in Htext. by simplify_eq.
  - intros [title Htitle] [status Hstatus] [count Hcount].
    unfold Resources.document_resource. rewrite Hid, Htitle, Hstatus, Hcount. cbn.
    destruct item; try discriminate Hid; by eexists.
  - intros [name Hname] [count Hcount].
    unfold Resources.collection_resource. rewrite Hid, Hname, Hcount. cbn.
    destruct item; try discriminate Hid; by eexists.
  - intros Hne Hclean. split; [by apply parse_document|by apply parse_collection].
  - intros Hslash p Hp. pose proof (parseUri_shape ("lakehouse://documents/" +:+ id)) as Hs.
    rewrite Hp in Hs.
    destruct Hs as [[Hu _]|[[Hu _]|[(g & ? & ? & Hu & ->)|[(g & ? & Hg & Hu & ->)|
                                                     (g & ? & ? & Hu & ->)]]]].
    + exfalso. revert Hu. change ("lakehouse://documents/" +:+ id)
        with ("lakehouse://documents" +:+ "/" +:+ id). apply length_app_ne. done.
    + exfalso. revert Hu. apply String.eqb_neq. reflexivity.
    + apply app_inv_head in Hu. by exists g.
    + apply app_inv_head in Hu. congruence.
    + exfalso. revert Hu. apply String.eqb_neq. reflexivity.
  - intros Hslash.
    pose proof (parseUri_shape ("lakehouse://collections/" +:+ id)) as Hs.
    destruct (Resources.parseUri _) as [p|e]; [exfalso|by subst e].
    destruct Hs as [[Hu _]|[[Hu _]|[(g & ? & ? & Hu & ->)|[(g & ? & Hg & Hu & ->)|
                                                     (g & ? & Hg & Hu & ->)]]]].
    + revert Hu. apply String.eqb_neq. reflexivity.
    + revert Hu. change ("lakehouse://collections/" +:+ id)
        with ("lakehouse://collections" +:+ "/" +:+ id). apply length_app_ne. done.
    + revert Hu. apply String.eqb_neq. reflexivity.
    + revert Hu. apply String.eqb_neq. reflexivity.
    + apply app_inv_head in Hu. congruence.
Qed.
End ResourceListing.

(* ===================================================================== *)
(** ** Properties of api-client.ts and server.ts *)
(* ===================================================================== *)

Lemma drop_trailing_slash_app (b : string) : Api.drop_trailing_slash (b +:+ "/") = b.
Proof.
  induction b as [|c b IH]; [done|].
  rewrite app_cons. cbn [Api.drop_trailing_slash]. rewrite IH.
  destruct (b +:+ "/") as [|d r] eqn:Hb.
  - by destruct b.
  - replace (String.eqb (String d r) "") with false by reflexivity.
    by rewrite andb_false_r.
Qed.

Lemma drop_trailing_slash_id (s : string) :
  (forall b, s <> b +:+ "/") -> Api.drop_trailing_slash s = s.
Proof.
  induction s as [|c s IH]; intros Hs; [done|].
  cbn [Api.drop_trailing_slash].
  destruct (Ascii.eqb_spec c "/") as [->|_]; cbn [andb].
  - destruct (String.eqb_spec s "") as [->|_]; [by destruct (Hs "")|].
    rewrite IH; [done|]. intros b ->. by apply (Hs (String "/" b)).
  - rewrite IH; [done|]. intros b ->. by apply (Hs (String c b)).
Qed.

Section ClientProperties.
Variable href : string -> list (string * string) -> option string.
Variable fetch : string -> Api.RequestInit -> Api.FetchOutcome.
Variable this : Api.ApiClient.

(** X25. What a caller of the API client can see.  A rejection is always
    an [Error] instance, and never an [AbortError]: an abort, of the
    request or of the reading of its body, is reported as
    [Request timeout after <timeout>ms].  An answer with a status that is
    not ok never resolves, and an ok answer whose body is JSON always
    does: with the value under [data] when the body is an object that has
    this key, with the body otherwise. *)
Theorem X25_api_client_outcomes (method path : string) (body : option json)
    (params : option (list (string * option Api.ParamValue))) :
  let result := Api.request href fetch this method path body params in
  let base := Api.client_baseUrl this +:+ path in
  let init := Api.request_init this method body in
  (forall e, result = Rejected e ->
             exists name message, e = ErrorInstance name message /\ name <> "AbortError")
  /\ (forall url message,
        href base (Api.search_params params) = Some url ->
        fetch url init = Api.FetchRejected (ErrorInstance "AbortError" message)
        \/ (exists ok status,
              fetch url init
              = Api.FetchResponse ok status (Threw (ErrorInstance "AbortError" message))) ->
        result = Rejected (ErrorInstance "Error"
                             ("Request timeout after " +:+ pretty (Api.client_timeout this)
                              +:+ "ms")))
  /\ (forall url status data,
        href base (Api.search_params params) = Some url ->
        fetch url init = Api.FetchResponse false status data ->
        exists e, result = Rejected e)
  /\ (forall url status data,
        href base (Api.search_params params) = Some url ->
        fetch url init = Api.FetchResponse true status (Done data) ->
        result = Resolved (default data (prop "data" data))).
Proof.
  intros result base init. subst result. unfold Api.request. fold base.
  split; [|split; [|split]].
  - intros e. destruct (href _ _) as [url|].
    2: { intros [= <-]. by eexists _, _. }
    destruct (Api.attempt fetch this url method body) as [data|[name message|v]];
      [done| |].
    + destruct (String.eqb_spec name "AbortError") as [->|Hne]; intros [= <-];
        by eexists _, _.
    + intros [= <-]. by eexists _, _.
  - intros url message -> Hfetch. unfold Api.attempt. fold init.
    by destruct Hfetch as [->|(ok & status & ->)].
  - intros url status data -> Hfetch. unfold Api.attempt. fold init. rewrite Hfetch.
    destruct data as [data|[name message|v]].
    + cbn [negb]. destruct data; cbn; repeat case_match; simplify_eq; eauto.
    + destruct (String.eqb name "AbortError"); eauto.
    + eauto.
  - intros url status data -> Hfetch. unfold Api.attempt. fold init. rewrite Hfetch.
    cbn [negb]. destruct data as [| | | | |props]; try done.
    cbn [prop]. by destruct (assoc "data" props).
Qed.
End ClientProperties.

(** X26. The client is constructed with the base URL less one trailing
    slash: a base URL that does not end in a slash is kept, and adding a
    slash to any base URL changes nothing, so the same URLs are requested
    either way.  Without a timeout in the configuration the timeout is
    30000 ms. *)
Theorem X26_base_url_without_trailing_slash (key base : string) (t : option Z) :
  let client s := Api.new_ApiClient {| Api.apiKey := key; Api.baseUrl := s;
                                       Api.timeout := t |} in
  Api.client_baseUrl (client (base +:+ "/")) = base
  /\ ((forall b, base <> b +:+ "/") -> client (base +:+ "/") = client base)
  /\ (t = None -> Api.client_timeout (client base) = 30000)
  /\ Api.client_apiKey (client base) = key.
Proof.
  intros client. subst client. unfold Api.new_ApiClient. cbn.
  split; [apply drop_trailing_slash_app|]. split; [|split; [by intros ->|done]].
  intros Hb. by rewrite drop_trailing_slash_app, drop_trailing_slash_id.
Qed.

Section BothTransports.
Context {imports : Imports}.
Variable this : HttpTransport.

(** X27. The stdio server and the HTTP transport answer [tools/list] with
    the same result, the registry under [tools], and a [tools/call] that
    the executor resolves with the same content, one text block holding
    the JSON text of the value.  When the executor rejects, the stdio
    handler does not fail: it returns a result marked [isError] whose text
    is the JSON object holding the message, where the HTTP transport
    answers with the JSON-RPC error -32000: both with the message of the
    [Error] that was raised, and with [Unknown error occurred] and
    [Unknown error] for a raised value that is no [Error]. *)
Theorem X27_stdio_and_http_agree request :
  request <> JNull ->
  let id := prop "id" request in
  let params := prop "params" request in
  let name := default JNull (opt_prop "name" params) in
  let args := opt_prop "arguments" params in
  let stdio := Server.callTool (toolExecutor this) name args in
  let block text :=
    JArr [JObj [("type", JStr "text"); ("text", JStr text)]] in
  let refused message :=
    {| response_id := id; result := None;
       error := Some {| code := -32000; message := message |} |} in
  (prop "method" request = Some (JStr "tools/list") ->
   Server.listTools = JObj [("tools", TOOL_DEFINITIONS)]
   /\ forall w, processRequest this request w
                = (Done {| response_id := id;
                           result := Some (JObj [("tools", TOOL_DEFINITIONS)]);
                           error := None |}, w))
  /\ (prop "method" request = Some (JStr "tools/call") ->
      truthy (opt_prop "name" params) = true ->
      (forall v,
         execute (toolExecutor this) name (call_arguments params) = Resolved v ->
         stdio = JObj [("content", block (JSON_stringify v))]
         /\ forall w, fst (processRequest this request w)
                      = Done {| response_id := id; result := Some stdio; error := None |})
      /\ (forall kind msg,
            execute (toolExecutor this) name (call_arguments params)
            = Rejected (ErrorInstance kind msg) ->
            stdio = JObj [("content",
                           block (JSON_stringify (JObj [("error", JStr msg)])));
                          ("isError", JBool true)]
            /\ forall w, fst (processRequest this request w) = Done (refused msg))
      /\ (forall v,
            execute (toolExecutor this) name (call_arguments params)
            = Rejected (NonError v) ->
            stdio = JObj [("content",
                           block (JSON_stringify
                                    (JObj [("error", JStr "Unknown error occurred")])));
                          ("isError", JBool true)]
            /\ forall w, fst (processRequest this request w)
                         = Done (refused "Unknown error"))).
Proof.
  intros Hnn id params name args stdio block refused. split.
  - intros Hm. split; [reflexivity|]. intros w. unfold processRequest.
    destruct request; try congruence; rewrite Hm; reflexivity.
  - intros Hm Hname.
    pose proof (processRequest_tools_call this request Hnn Hm) as Hrun.
    cbn zeta in Hrun. fold params in Hrun. rewrite Hname in Hrun. fold name in Hrun.
    subst stdio. unfold Server.callTool.
    change (if truthy args then default (JObj []) args else JObj [])
      with (call_arguments params).
    split; [|split].
    + intros v Hv. rewrite Hv. split; [done|]. intros w. by rewrite Hrun, Hv.
    + intros kind msg He. rewrite He. split; [done|]. intros w. by rewrite Hrun, He.
    + intros v He. rewrite He. split; [done|]. intros w. by rewrite Hrun, He.
Qed.
End BothTransports.

Section ReadHandler.
Variable get : string -> option (list (string * json)) -> ToolOutcome.

(** X28. The [resources/read] handler of the stdio server answers with
    one content entry, under the URI that was asked for; when it fails,
    the error names that URI, and for a URI that [parseUri] refuses the
    message is [Failed to read resource <uri>: Invalid resource URI
    format: <uri>], the API not being called upon. *)
Theorem X28_read_handler_names_the_uri (uri : string) :
  match Server.readResource get uri with
  | Done answer =>
      exists content, prop "contents" answer = Some (JArr [content])
                      /\ prop "uri" content = Some (JStr uri)
                      /\ is_Some (prop "mimeType" content)
  | Threw e =>
      exists reason, e = ErrorInstance "Error"
                           ("Failed to read resource " +:+ uri +:+ ": " +:+ reason)
                     /\ ((forall p, ~ parsed_as uri p) ->
                         reason = "Invalid resource URI format: " +:+ uri)
  end.
Proof.
  pose proof (Hshape := parseUri_shape uri).
  unfold Server.readResource.
  pose proof (Hread := fun p => parsed_as_parse uri p).
  destruct (Resources.readResource get uri) as [content|e] eqn:Hr.
  - eexists. split; [reflexivity|].
    assert (Resources.content_uri content = uri) as ->.
    { revert Hr. unfold Resources.readResource.
      destruct (Resources.parseUri uri) as [p|e']; [|done].
      destruct Hshape as [[-> ->]|[[-> ->]|[(id & Hne & ? & -> & ->)|
        [(id & Hne & ? & -> & ->)|(id & Hne & ? & -> & ->)]]]];
        cbn [Resources.type Resources.id Resources.includeContent];
        unfold Resources.readDocumentsList, Resources.readCollectionsList,
          Resources.readDocument, Resources.readCollection;
        rewrite ?present_nonempty by done; cbn [default];
        destruct (get _ _) as [[]|]; try done; by intros [= <-]. }
    unfold obj. cbn. split; [done|]. by destruct (Resources.text content).
  - eexists. split; [reflexivity|]. intros Hnone.
    revert Hr. unfold Resources.readResource.
    destruct (Resources.parseUri uri) as [p|e']; [by destruct (Hnone p)|].
    subst e'. by intros [= <-].
Qed.
End ReadHandler.

(** X29. [createServer] makes a server exactly when an API key that is
    not empty is found, in the configuration first and in the environment
    otherwise; an empty key counts as none.  The client then holds that
    key, and a base URL taken from the configuration, else from the
    environment, else the public endpoint, less one trailing slash. *)
Theorem X29_createServer_needs_a_key (config : option Server.PartialConfig)
    (env : string -> option string) :
  let given := present (config ≫= Server.config_apiKey) in
  let inherited := present (env "LAKEHOUSE42_API_KEY") in
  (given = None -> inherited = None ->
   exists message, Server.client_of config env = Threw (ErrorInstance "Error" message))
  /\ (forall key, given = Some key \/ (given = None /\ inherited = Some key) ->
        exists client,
          Server.client_of config env = Done client
          /\ Api.client_apiKey client = key
          /\ key <> ""
          /\ (present (config ≫= Server.config_baseUrl) = None ->
              present (env "LAKEHOUSE42_BASE_URL") = None ->
              Api.client_baseUrl client = "https://api.lakehouse42.com")
          /\ (forall base, present (config ≫= Server.config_baseUrl) = Some (base +:+ "/") ->
                Api.client_baseUrl client = base)).
Proof.
  intros given inherited. subst given inherited.
  unfold Server.client_of, Server.createServer, Server.or_else, Server.or_literal.
  split.
  - intros -> Hnone. rewrite Hnone. by eexists.
  - intros key Hkey.
    assert (present (match present (config ≫= Server.config_apiKey) with
                     | Some x => Some x
                     | None => env "LAKEHOUSE42_API_KEY"
                     end) = Some key /\ key <> "") as [-> Hne].
    { destruct Hkey as [Hg|[Hg Hi]]; rewrite Hg.
      - destruct (config ≫= Server.config_apiKey) as [[|c k]|]; try done.
        cbn in Hg. by simplify_eq.
      - destruct (env "LAKEHOUSE42_API_KEY") as [[|c k]|]; try done.
        cbn in Hi. by simplify_eq. }
    eexists. split; [reflexivity|]. cbn. split; [done|]. split; [done|]. split.
    + intros -> Hb. destruct (env "LAKEHOUSE42_BASE_URL") as [[|c k]|]; try done.
    + intros base ->. rewrite present_nonempty by (by destruct base).
      apply drop_trailing_slash_app.
Qed.

(* ===================================================================== *)
(** ** The properties at the worked inputs *)
(* ===================================================================== *)

Import Example.

(** C1, where the code departs from it.  A ping POSTed with
    [Accept: text/event-stream] to the empty map: the frame [id: 1] with the
    answer goes out and the counter of the new session becomes 1, but the
    session's [pendingEvents] stay empty.  [handlePost] has no statement
    that appends to them. *)
Theorem C1_ping_frame_is_not_buffered :
  let r := serve (imports := runtime) transport (at_ 0 "s-1")
             (post None (Some "text/event-stream") ping_text) ∅ in
  fst r = Done tt
  /\ statusCode (res (snd r)) = Some 200
  /\ chunks (res (snd r)) = [IdLine 1; DataLine (reply 1)]
  /\ wire_text (res (snd r))
     = "id: 1" +:+ newline +:+ "data: " +:+ ping_reply_text +:+ newline +:+ newline
  /\ sessions (snd r) !! "s-1"
     = Some {| session_id := "s-1"; createdAt := 0; lastEventId := 1;
               pendingEvents := [] |}.
Proof. vm_compute. repeat split. Qed.

(** A request with the body [null] and no session header: the exception
    of the destructuring escapes, and no status is written. *)
Lemma C2_counterexample_null_body :
  let r := serve (imports := runtime) transport (at_ 0 "s-1") (post None None "null") ∅ in
  fst r = Threw (ErrorInstance "TypeError"
                   "Cannot destructure property 'id' of 'request' as it is null.")
  /\ statusCode (res (snd r)) <> Some 500
  /\ statusCode (res (snd r)) = None
  /\ ended (res (snd r)) = false.
Proof. vm_compute. repeat split. discriminate. Qed.

Lemma C2_witness :
  let r := serve (imports := runtime) transport (at_ 0 "u-9")
             (post (Some "s-2") None "null") {[ "s-1" := used; "s-2" := used ]} in
  statusCode (res (snd r)) <> Some 500
  /\ sessions (snd r) !! "s-1" = Some used.
Proof.
  intros r.
  destruct (C2_exceptions_escape_other_sessions_kept (imports := runtime) transport
              (at_ 0 "u-9") (post (Some "s-2") None "null")
              {[ "s-1" := used; "s-2" := used ]})
    as (Hst & _ & _ & _ & _ & Hkeep).
  split; [exact Hst|].
  refine (eq_trans (Hkeep "s-1" _ _) _).
  - vm_compute. intros Heq. discriminate Heq.
  - vm_compute. intros Heq. discriminate Heq.
  - vm_compute. reflexivity.
Defined.

Lemma C3_witness :
  exists w,
    serve (imports := runtime) transport (at_ 1000 "u-9") (get (Some "s-1") (Some "1"))
      {[ "s-1" := buffered ]} = (Done tt, w)
    /\ frame_ids (res w) = [2; 3]
    /\ ended (res w) = false.
Proof.
  destruct (C3_replay_after_last_event_id (imports := runtime) transport
              (at_ 1000 "u-9") (get (Some "s-1") (Some "1")) {[ "s-1" := buffered ]}
              "/mcp" "s-1" buffered "1" 1)
    as (w & Hrun & _ & _ & Hids & _ & _ & _ & Hend & _);
    try reflexivity.
  - unfold expired. vm_compute. intros Heq. discriminate Heq.
  - exists w. split; [exact Hrun|]. split; [exact Hids|exact Hend].
Defined.

Lemma C4_witness :
  let ids := ids_of "s-1" (snd (run (imports := runtime) transport session_life ∅)) in
  ids = seqZ 1 (Z.of_nat (List.length ids))
  /\ StronglySorted Z.lt ids
  /\ NoDup ids.
Proof.
  intros ids.
  destruct (C4_event_ids_strictly_increase (imports := runtime) transport
              session_life ∅ "s-1")
    as (Hids & _ & Hsorted & Hnodup & _).
  - intros [s Hs]. vm_compute in Hs. discriminate.
  - vm_compute. lia.
  - split; [exact Hids|]. split; [exact Hsorted|exact Hnodup].
Defined.

(** C5 as it was claimed fails when what the executor raises is not an
    [Error]: a tool that throws the string [not found] is answered with the
    message [Unknown error], which does not carry what was raised. *)
Lemma C5_counterexample_raised_string :
  execute (toolExecutor Sample.throwing_transport) (JStr "missing_tool") (JObj [])
  = Rejected (NonError (JStr "not found"))
  /\ (forall w,
        processRequest (imports := runtime) Sample.throwing_transport call_request w
        = (Done {| response_id := None; result := None;
                   error := Some {| code := -32000; message := "Unknown error" |} |},
           add_calls [(JStr "missing_tool", JObj [])] w))
  /\ includes "not found" "Unknown error" = false.
Proof. split; [reflexivity|]. split; [reflexivity|]. reflexivity. Qed.

Lemma C5_witness :
  (forall w, processRequest (imports := runtime) transport call_request w
             = (Done {| response_id := None; result := None;
                        error := Some {| code := -32000; message := "not found" |} |},
                add_calls [(JStr "missing_tool", JObj [])] w))
  /\ exists w,
       serve (imports := runtime) transport (at_ 0 "s-1") (post None None call_text) ∅
       = (Done tt, w)
       /\ statusCode (res w) = Some 200.
Proof.
  destruct (C5_tools_call (imports := runtime) transport call_request)
    as (_ & _ & Hreject & _ & _ & Hhttp).
  - intros Heq. discriminate Heq.
  - reflexivity.
  - split.
    + apply (Hreject eq_refl "Error" "not found"). reflexivity.
    + destruct (Hhttp (at_ 0 "s-1") (post None None call_text) ∅ "/mcp" call_text "s-1"
                  (new_session (at_ 0 "s-1"))
                  (<["s-1" := new_session (at_ 0 "s-1")]> ∅))
        as (r & calls & w & _ & Hrun & Hst & _); try reflexivity.
      exists w. split; [exact Hrun|exact Hst].
Defined.

(** C6 as it was claimed fails for a method that cannot be converted to
    text: the request [{"id":9,"method":{"toString":1}}] names none of the
    four methods, and the answer is the error -32000, not -32601, because
    the template literal of the message throws inside the [try]. *)
Lemma C6_counterexample_unprintable_method :
  parse_json Sample.unprintable_method_text = Some Sample.unprintable_method_request
  /\ known_method (prop "method" Sample.unprintable_method_request) = false
  /\ (forall w,
        processRequest (imports := runtime) transport Sample.unprintable_method_request w
        = (Done {| response_id := Some (JNum 9); result := None;
                   error := Some {| code := -32000;
                                    message :=
                                      "Cannot convert object to primitive value" |} |},
           w))
  /\ (forall r w w',
        processRequest (imports := runtime) transport Sample.unprintable_method_request w
        = (Done r, w') ->
        forall msg, error r <> Some {| code := -32601; message := msg |}).
Proof.
  split; [vm_compute; reflexivity|]. split; [reflexivity|]. split; [reflexivity|].
  intros r w w' Hrun msg Heq.
  assert (processRequest (imports := runtime) transport
            Sample.unprintable_method_request w
          = (Done {| response_id := Some (JNum 9); result := None;
                     error := Some {| code := -32000;
                                      message :=
                                        "Cannot convert object to primitive value" |} |},
             w)) as Hcode by reflexivity.
  rewrite Hcode in Hrun. injection Hrun as <- _. discriminate Heq.
Qed.

Lemma C6_witness :
  exists r,
    (forall w, processRequest (imports := runtime) transport frobnicate_request w
               = (Done r, w))
    /\ response_id r = Some (JNum 7)
    /\ error r = Some {| code := -32601; message := "Method not found: frobnicate" |}.
Proof.
  destruct (C6_unknown_method_and_id_echo (imports := runtime) transport frobnicate_request)
    as (r & calls & Hrun & Hid & Hunknown).
  - intros Heq. discriminate Heq.
  - destruct (Hunknown eq_refl) as (Htext & Hstring & _).
    destruct (Htext "frobnicate" eq_refl) as (_ & _ & _ & ->).
    exists r. split; [|split; [exact Hid|exact (Hstring "frobnicate" eq_refl)]].
    intros w. rewrite Hrun. by rewrite add_calls_nil.
Defined.

Lemma C7_witness :
  exists w,
    serve (imports := runtime) transport (at_ 1800001 "u-9") (get (Some "s-1") None)
      {[ "s-1" := used ]} = (Done tt, w)
    /\ statusCode (res w) = Some 404
    /\ sessions w !! "s-1" = None.
Proof.
  destruct (C7_expiry_from_creation (imports := runtime) transport
              (at_ 1800001 "u-9") "s-1" used {[ "s-1" := used ]})
    as (_ & _ & Hget & _).
  - reflexivity.
  - unfold expired. vm_compute. reflexivity.
  - destruct (Hget (get (Some "s-1") None) "/mcp") as (w & Hrun & Hst & _ & Hgone);
      try reflexivity.
    exists w. split; [exact Hrun|]. split; [exact Hst|exact Hgone].
Defined.

(** C8 as it was claimed fails for a first POST whose body is not JSON:
    it is answered 400 before any session is made, so the map stays empty
    and no [Mcp-Session-Id] header is sent. *)
Lemma C8_counterexample_malformed_first_post :
  let r := serve (imports := runtime) transport (at_ 0 "s-1") (post None None "{") ∅ in
  fst r = Done tt
  /\ statusCode (res (snd r)) = Some 400
  /\ chunks (res (snd r)) = [error_body "Invalid JSON"]
  /\ sessions (snd r) = ∅
  /\ header "Mcp-Session-Id" (res (snd r)) = None.
Proof. vm_compute. repeat split. Qed.

Lemma C8_witness :
  exists w1 w2,
    serve (imports := runtime) transport (at_ 0 "s-1")
      (post None (Some "text/event-stream") ping_text) ∅ = (Done tt, w1)
    /\ header "Mcp-Session-Id" (res w1) = Some "s-1"
    /\ frame_ids (res w1) = seqZ 1 1
    /\ serve (imports := runtime) transport (at_ 60000 "u-2")
         (post (Some "s-1") (Some "text/event-stream") ping_text) (sessions w1)
       = (Done tt, w2)
    /\ frame_ids (res w2) = seqZ 2 1
    /\ dom (sessions w2) = dom (sessions w1).
Proof.
  destruct (C8_session_created_then_reused (imports := runtime) transport
              (at_ 0 "s-1") (post None (Some "text/event-stream") ping_text)
              (at_ 60000 "u-2") (post (Some "s-1") (Some "text/event-stream") ping_text)
              ∅ "/mcp" ping_text ping_request "/mcp" ping_text ping_request)
    as (_ & _ & _ & _ & w1 & w2 & H1 & Hh1 & _ & Hf1 & H2 & _ & _ & Hf2 & Hdom);
    try reflexivity.
  - intros Heq. discriminate Heq.
  - intros Heq. discriminate Heq.
  - unfold expired. vm_compute. intros Heq. discriminate Heq.
  - exists w1, w2. split; [exact H1|]. split; [exact Hh1|]. split; [exact Hf1|].
    split; [exact H2|]. split; [exact Hf2|exact Hdom].
Defined.

(** A PUT on the path [/]: answered 405 as on [/mcp], not 404. *)
Lemma C9_counterexample_root_path :
  let r := serve (imports := runtime) transport (at_ 0 "u-1")
             (request "PUT" "/" None None None "") ∅ in
  fst r = Done tt
  /\ statusCode (res (snd r)) = Some 405
  /\ statusCode (res (snd r)) <> Some 404.
Proof. vm_compute. repeat split. intros Heq. discriminate Heq. Qed.

Lemma C9_witness :
  let r := serve (imports := runtime) transport (at_ 0 "u-1")
             (request "PUT" "/elsewhere" None None None "") ∅ in
  fst r = Done tt /\ statusCode (res (snd r)) = Some 404.
Proof.
  intros r.
  destruct (C9_routing_table (imports := runtime) transport (at_ 0 "u-1")
              (request "PUT" "/elsewhere" None None None "") ∅ "/elsewhere" eq_refl)
    as (_ & _ & _ & _ & Helse).
  destruct Helse as (_ & Hdone & Hst & _).
  - intros Heq. discriminate Heq.
  - reflexivity.
  - intros Heq. discriminate Heq.
  - split; [exact Hdone|exact Hst].
Defined.



(* ===================================================================== *)
(** ** Further checks of the model at the worked inputs *)
(* ===================================================================== *)

Example parse_ping : parse_json ping_text = Some ping_request.
Proof. reflexivity. Qed.

Example parse_call : parse_json call_text = Some call_request.
Proof. reflexivity. Qed.

Example parse_frobnicate : parse_json frobnicate_text = Some frobnicate_request.
Proof. reflexivity. Qed.

Example parse_rejects : parse_json "{" = None /\ parse_json "[1,]" = None /\ parse_json "" = None.
Proof. repeat split. Qed.

Example parseInt_samples :
  parseInt "12" = Some 12 /\ parseInt " -7x" = Some (-7) /\ parseInt "abc" = None
  /\ parseInt "" = None /\ parseInt "3.9" = Some 3.
Proof. repeat split. Qed.

(** The ping with [Accept: application/json]: status 200, the answer as the
    body, nothing emitted and the counter still 0. *)
Example ping_as_json :
  let r := serve (imports := runtime) transport (at_ 0 "s-1")
             (post None (Some "application/json") ping_text) ∅ in
  fst r = Done tt
  /\ statusCode (res (snd r)) = Some 200
  /\ wire_text (res (snd r)) = ping_reply_text
  /\ sessions (snd r) !! "s-1" = Some (new_session (at_ 0 "s-1")).
Proof. vm_compute. repeat split. Qed.

(** A DELETE for an unknown session is answered 204, and a GET with that id
    afterwards 404. *)
Example delete_unknown_then_get :
  let r1 := serve (imports := runtime) transport (at_ 0 "u-1")
              (request "DELETE" "/mcp" (Some "nosuch") None None "") ∅ in
  let r2 := serve (imports := runtime) transport (at_ 1 "u-2")
              (get (Some "nosuch") None) (sessions (snd r1)) in
  statusCode (res (snd r1)) = Some 204 /\ statusCode (res (snd r2)) = Some 404.
Proof. vm_compute. repeat split. Qed.

(** After the run [session_life] the session has emitted three frames and
    buffered none. *)
Example session_life_result :
  let r := run (imports := runtime) transport session_life ∅ in
  snd r = [("s-1", 1); ("s-1", 2); ("s-1", 3)]
  /\ fst r !! "s-1" = Some {| session_id := "s-1"; createdAt := 0; lastEventId := 3;
                              pendingEvents := [] |}.
Proof. vm_compute. repeat split. Qed.

(** A tool call that succeeds: the value comes back as the JSON text inside
    one text block. *)
Example call_resolved :
  forall w, processRequest (imports := runtime) echo_transport
              (default JNull (parse_json search_text)) w
            = (Done (success (Some (JStr "a"))
                       (text_content ("{" +:+ q "q" +:+ ":" +:+ q "x" +:+ "}"))),
               add_calls [(JStr "search", JObj [("q", JStr "x")])] w).
Proof. reflexivity. Qed.

(* ===================================================================== *)
(** ** The further properties at sample inputs *)
(* ===================================================================== *)

Lemma X1_witness :
  statusCode (res (snd (serve (imports := Example.runtime) Example.transport
                          (Example.at_ 5 "u-1")
                          (Example.request "DELETE" "/mcp" (Some "s-1") None None "")
                          {["s-1" := Example.used]})))
  = Some 204.
Proof.
  destruct (X1_delete_closes_the_session (imports := Example.runtime) Example.transport
              (Example.at_ 5 "u-1")
              (Example.request "DELETE" "/mcp" (Some "s-1") None None "")
              {["s-1" := Example.used]} "/mcp") as (_ & Hstatus & _).
  - reflexivity.
  - reflexivity.
  - reflexivity.
  - exact Hstatus.
Defined.

Lemma X2_witness :
  sweep 1800002 (sweep 1800001 {["s-1" := Example.used]})
  = sweep 1800002 {["s-1" := Example.used]}.
Proof.
  destruct (X2_sweep_agrees_with_lookup 1800001 {["s-1" := Example.used]})
    as (_ & _ & Hlater & _).
  apply Hlater. lia.
Defined.

Lemma X3_witness :
  cors_ok (res (snd (serve (imports := Example.runtime) Example.transport
                       (Example.at_ 5 "u-1") (Example.get None None) ∅))).
Proof.
  apply (X3_cors_headers_on_every_response (imports := Example.runtime) Example.transport
           (Example.at_ 5 "u-1") (Example.get None None) ∅ "/mcp").
  reflexivity.
Defined.

Lemma X4_witness :
  keyed (fst (run (imports := Example.runtime) Example.transport Example.session_life ∅)).
Proof.
  apply (X4_sessions_keyed_by_their_id (imports := Example.runtime)).
  intros k s Hk. rewrite lookup_empty in Hk. discriminate Hk.
Defined.

Lemma X5_witness :
  dom (sessions (snd (serve (imports := Example.runtime) Example.transport
                        (Example.at_ 5 "u-1") (Example.get None None) ∅)))
  ⊆ dom (∅ : gmap string Session).
Proof.
  destruct (X5_at_most_one_session_added (imports := Example.runtime) Example.transport
              (Example.at_ 5 "u-1") (Example.get None None) ∅) as (_ & _ & Hsame & _).
  apply Hsame. left. intros Heq. discriminate Heq.
Defined.

Lemma X7_witness :
  exists r calls,
    (forall w, processRequest (imports := Example.runtime) Example.transport
                 Example.ping_request w = (Done r, add_calls calls w))
    /\ ((exists v, result r = Some v /\ error r = None)
        \/ (exists c msg, result r = None
              /\ error r = Some {| code := c; message := msg |}
              /\ (c = -32601 \/ c = -32000))).
Proof.
  apply (X7_result_xor_error (imports := Example.runtime) Example.transport
           Example.ping_request).
  intros Heq. discriminate Heq.
Defined.

Lemma X8_witness :
  exists w,
    serve (imports := Example.runtime) Example.transport (Example.at_ 5 "u-1")
      (Example.get (Some "s-1") (Some "abc")) {["s-1" := Example.buffered]} = (Done tt, w)
    /\ statusCode (res w) = Some 200
    /\ chunks (res w) = [].
Proof.
  destruct (X8_get_without_usable_cursor (imports := Example.runtime) Example.transport
              (Example.at_ 5 "u-1") (Example.get (Some "s-1") (Some "abc"))
              {["s-1" := Example.buffered]} "/mcp") as [_ Hlive]; try reflexivity.
  destruct (Hlive "s-1" Example.buffered) as (w & Hrun & Hstatus & _ & Hchunks & _).
  - reflexivity.
  - reflexivity.
  - unfold expired. vm_compute. intros Hgt. discriminate Hgt.
  - right. exists "abc". split; reflexivity.
  - exists w. split; [exact Hrun|]. split; [exact Hstatus|exact Hchunks].
Defined.

Lemma X9_witness :
  exists w,
    serve (imports := Example.runtime) Example.transport (Example.at_ 5 "s-1")
      (Example.post None None Example.ping_text) ∅ = (Done tt, w)
    /\ frame_ids (res w) = []
    /\ sessions w !! "s-1" = Some (new_session (Example.at_ 5 "s-1")).
Proof.
  destruct (X9_json_answer_consumes_no_event_id (imports := Example.runtime)
              Example.transport (Example.at_ 5 "s-1")
              (Example.post None None Example.ping_text) ∅ "/mcp" Example.ping_text
              Example.ping_request "s-1" (new_session (Example.at_ 5 "s-1"))
              (<["s-1" := new_session (Example.at_ 5 "s-1")]> ∅))
    as (r & calls & w & _ & Hrun & _ & _ & _ & Hframes & _ & Hsession & _);
    try reflexivity.
  - intros Heq. discriminate Heq.
  - exists w. split; [exact Hrun|]. split; [exact Hframes|exact Hsession].
Defined.

Lemma X10_witness :
  serverName (new_HttpTransport {| options_toolExecutor := Example.echo_tools;
                                   options_serverName := Some "";
                                   options_serverVersion := Some "2.0.0" |})
  = "lakehouse42"
  /\ exists w,
       serve (imports := Example.runtime)
         (new_HttpTransport {| options_toolExecutor := Example.echo_tools;
                               options_serverName := Some "";
                               options_serverVersion := Some "2.0.0" |})
         (Example.at_ 5 "u-1") (Example.request "GET" "/health" None None None "") ∅
       = (Done tt, w)
       /\ statusCode (res w) = Some 200
       /\ chunks (res w)
          = [Body ("{" +:+ q "status" +:+ ":" +:+ q "ok" +:+ "," +:+ q "server" +:+ ":"
                   +:+ q "lakehouse42" +:+ "," +:+ q "version" +:+ ":" +:+ q "2.0.0"
                   +:+ "}")].
Proof.
  destruct (X10_server_identity (imports := Example.runtime)
              {| options_toolExecutor := Example.echo_tools;
                 options_serverName := Some "";
                 options_serverVersion := Some "2.0.0" |} JNull
              (Example.at_ 5 "u-1") (Example.request "GET" "/health" None None None "") ∅)
    as (_ & _ & _ & Hname & _ & _ & _ & Hhealth).
  split.
  - apply Hname. reflexivity.
  - destruct Hhealth as (w & Hrun & Hstatus & _ & Hchunks & _).
    + reflexivity.
    + intros Heq. discriminate Heq.
    + exists w. split; [exact Hrun|]. split; [exact Hstatus|exact Hchunks].
Defined.

Lemma X13_witness :
  Tools.next_cursor Z (Tools.toSlimSearchResponse Z id Sample.page "iceberg" 5)
  = Some (Tools.base64 (Tools.cursor_text 10 "iceberg")).
Proof.
  destruct (X13_slim_search_response Z id Sample.page "iceberg" 5)
    as (_ & _ & _ & _ & _ & Hcursor & _).
  apply Hcursor. reflexivity.
Defined.

Lemma X14_witness :
  Tools.cursor_offset (imports := Example.runtime) Sample.base64_decode
    (Tools.next_cursor Z (Tools.toSlimSearchResponse Z id Sample.page "iceberg" 5))
  = JNum 10.
Proof.
  destruct (X14_cursor_round_trip (imports := Example.runtime) Sample.base64_decode Z id
              Sample.page "iceberg" 5) as (Hround & _).
  apply Hround.
  - reflexivity.
  - vm_compute. reflexivity.
  - vm_compute. reflexivity.
Defined.

Lemma X15_witness :
  Tools.slim_cols_has_more
    (Tools.toSlimListCollectionsResponse
       {| Tools.collections :=
            replicate 11 {| Tools.col_id := "c"; Tools.col_name := "n";
                            Tools.col_document_count := 0 |};
          Tools.cols_has_more := false; Tools.cols_next_cursor := None |})
  = true.
Proof.
  destruct (X15_slim_collections
              {| Tools.collections :=
                   replicate 11 {| Tools.col_id := "c"; Tools.col_name := "n";
                                   Tools.col_document_count := 0 |};
                 Tools.cols_has_more := false; Tools.cols_next_cursor := None |})
    as (_ & _ & _ & Hmore & _).
  apply Hmore. intros Heq. discriminate Heq.
Defined.

Lemma X18_witness :
  map Tools.result_name (Tools.searchTools Sample.lower (Some "") (Some []) None)
  = map Tools.name Tools.TAGGED_TOOLS.
Proof.
  destruct (X18_search_tools_selects_from_the_registry Sample.lower (Some "") (Some []) None)
    as (_ & _ & _ & _ & Hall).
  apply Hall; [reflexivity|]. right. reflexivity.
Defined.

Lemma X19_witness :
  Tools.execute Sample.handlers (JStr "search") (JObj [])
  = Sample.named "search" (JObj [])
  /\ Tools.execute Sample.handlers (JStr "frobnicate") (JObj [])
     = Rejected (ErrorInstance "Error" "Unknown tool: frobnicate")
  /\ Tools.execute Sample.handlers (JObj [("toString", JNum 1)]) (JObj [])
     = Rejected (ErrorInstance "TypeError" "Cannot convert object to primitive value").
Proof.
  destruct (X19_executor_agrees_with_registry Sample.handlers (JObj []))
    as (_ & Hknown & Hunknown & _ & _ & Hobject).
  split; [|split].
  - exact (Hknown 1%nat _ _ eq_refl eq_refl).
  - apply (Hunknown "frobnicate"). intros t Ht Heq.
    cbn in Ht. repeat (destruct Ht as [<-|Ht]; [discriminate Heq|]). exact Ht.
  - apply (Hobject [("toString", JNum 1)] (JNum 1)). reflexivity.
Defined.

Lemma X20_witness :
  (exists w,
     serve (imports := linked parse_json) Sample.transport (Example.at_ 5 "s-1")
       (Example.post None None Sample.unknown_tool_text) ∅ = (Done tt, w)
     /\ statusCode (res w) = Some 200
     /\ chunks (res w)
        = [Body ("{" +:+ q "jsonrpc" +:+ ":" +:+ q "2.0" +:+ "," +:+ q "id" +:+ ":3,"
                 +:+ q "error" +:+ ":{" +:+ q "code" +:+ ":-32000," +:+ q "message" +:+ ":"
                 +:+ q "Unknown tool: frobnicate" +:+ "}}")])
  /\ forall w,
       processRequest (imports := linked parse_json) Sample.transport
         Sample.unprintable_tool_request w
       = (Done {| response_id := Some (JNum 4); result := None;
                  error := Some {| code := -32000;
                                   message :=
                                     "Cannot convert object to primitive value" |} |},
          add_calls [(JObj [("toString", JNum 1)], JObj [])] w).
Proof.
  split.
  - destruct (X20_http_unknown_tool_and_listing parse_json Sample.handlers Sample.transport
                eq_refl Sample.unknown_tool_request) as [Hcall _].
    + intros Heq. discriminate Heq.
    + destruct Hcall as (_ & Hstring & _).
      * reflexivity.
      * reflexivity.
      * intros t Ht Heq.
        cbn in Ht. repeat (destruct Ht as [<-|Ht]; [discriminate Heq|]). exact Ht.
      * destruct (Hstring "frobnicate" eq_refl) as [_ Hhttp].
        apply (Hhttp (Example.at_ 5 "s-1")
                 (Example.post None None Sample.unknown_tool_text) ∅
                 "/mcp" Sample.unknown_tool_text "s-1" (new_session (Example.at_ 5 "s-1"))
                 (<["s-1" := new_session (Example.at_ 5 "s-1")]> ∅)); reflexivity.
  - destruct (X20_http_unknown_tool_and_listing parse_json Sample.handlers Sample.transport
                eq_refl Sample.unprintable_tool_request) as [Hcall _].
    + intros Heq. discriminate Heq.
    + destruct Hcall as (_ & _ & Hobject).
      * reflexivity.
      * reflexivity.
      * intros t Ht Heq.
        cbn in Ht. repeat (destruct Ht as [<-|Ht]; [discriminate Heq|]). exact Ht.
      * destruct (Hobject eq_refl) as [Hrun _]. exact Hrun.
Defined.

Lemma X21_witness :
  Resources.parseUri "lakehouse://documents/a/b"
  = Threw (ErrorInstance "Error" "Invalid resource URI format: lakehouse://documents/a/b").
Proof.
  destruct (X21_parseUri_accepts_five_shapes "lakehouse://documents/a/b")
    as (Hshape & _ & Hrefused).
  apply Hrefused. intros p Hp. apply Hshape in Hp. discriminate Hp.
Defined.

Lemma X23_witness :
  exists r,
    Resources.document_resource Sample.report = Done r
    /\ Resources.listResources
         (fun path params =>
            if String.eqb path "/api/v1/documents"
            then Resolved (JObj [("documents", JArr [Sample.report])])
            else Rejected (ErrorInstance "Error" "unavailable"))
       = [r].
Proof.
  eexists. split; [reflexivity|].
  destruct (X23_listResources_keeps_what_it_gathered
              (fun path params =>
                 if String.eqb path "/api/v1/documents"
                 then Resolved (JObj [("documents", JArr [Sample.report])])
                 else Rejected (ErrorInstance "Error" "unavailable")))
    as (_ & Hpartial & _).
  eapply Hpartial.
  - reflexivity.
  - reflexivity.
  - constructor; [reflexivity|constructor].
  - reflexivity.
Defined.

Lemma X24_witness :
  (exists r, Resources.document_resource Sample.report = Done r)
  /\ Resources.parseUri "lakehouse://documents/doc-1"
     = Done {| Resources.type := Resources.Document; Resources.id := Some "doc-1";
               Resources.includeContent := None |}
  /\ forall p, Resources.parseUri "lakehouse://documents/a/content" = Done p ->
               exists other, "a/content" = other +:+ "/content"
                             /\ Resources.id p = Some other
                             /\ Resources.includeContent p = Some true.
Proof.
  split; [|split].
  - destruct (X24_listed_resources_read_back Sample.report "doc-1" eq_refl)
      as (_ & _ & Hlisted & _).
    apply Hlisted; by eexists.
  - destruct (X24_listed_resources_read_back Sample.report "doc-1" eq_refl)
      as (_ & _ & _ & _ & Hclean & _).
    apply Hclean; [|reflexivity]. intros Heq. discriminate Heq.
  - destruct (X24_listed_resources_read_back Sample.notes "a/content" eq_refl)
      as (_ & _ & _ & _ & _ & Hslash & _).
    apply Hslash. reflexivity.
Defined.

Lemma X25_witness :
  Api.get Sample.href Sample.aborted Sample.client "/api/v1/documents" None
  = Rejected (ErrorInstance "Error" "Request timeout after 30000ms")
  /\ Api.get Sample.href Sample.wrapped Sample.client "/api/v1/documents" None
     = Resolved (JStr "https://api.example.com/api/v1/documents").
Proof.
  split.
  - destruct (X25_api_client_outcomes Sample.href Sample.aborted Sample.client
                "GET" "/api/v1/documents" None None) as (_ & Htimeout & _).
    apply (Htimeout "https://api.example.com/api/v1/documents" "This operation was aborted").
    + reflexivity.
    + left. reflexivity.
  - destruct (X25_api_client_outcomes Sample.href Sample.wrapped Sample.client
                "GET" "/api/v1/documents" None None) as (_ & _ & _ & Hok).
    apply (Hok "https://api.example.com/api/v1/documents" 200
             (JObj [("data", JStr "https://api.example.com/api/v1/documents");
                    ("meta", JObj [])])).
    + reflexivity.
    + reflexivity.
Defined.

Lemma X26_witness :
  Api.new_ApiClient {| Api.apiKey := "key"; Api.baseUrl := "https://api.example.com/";
                       Api.timeout := None |}
  = Api.new_ApiClient {| Api.apiKey := "key"; Api.baseUrl := "https://api.example.com";
                         Api.timeout := None |}.
Proof.
  destruct (X26_base_url_without_trailing_slash "key" "https://api.example.com" None)
    as (_ & Hsame & _).
  apply Hsame. intros b Hb.
  pose proof (f_equal Api.drop_trailing_slash Hb) as Hd.
  rewrite drop_trailing_slash_app in Hd. vm_compute in Hd. subst b.
  vm_compute in Hb. discriminate Hb.
Defined.

Lemma X27_witness :
  Server.callTool Example.echo_tools (JStr "search") (Some (JObj [("q", JStr "x")]))
  = JObj [("content",
           JArr [JObj [("type", JStr "text");
                       ("text", JStr ("{" +:+ q "q" +:+ ":" +:+ q "x" +:+ "}"))]])].
Proof.
  destruct (X27_stdio_and_http_agree (imports := Example.runtime) Example.echo_transport
              (JObj [("id", JStr "a"); ("method", JStr "tools/call");
                     ("params", JObj [("name", JStr "search");
                                      ("arguments", JObj [("q", JStr "x")])])]))
    as [_ Hcall].
  - intros Heq. discriminate Heq.
  - destruct Hcall as [Hresolved _]; [reflexivity|reflexivity|].
    destruct (Hresolved (JObj [("q", JStr "x")]) eq_refl) as [Hsame _]. exact Hsame.
Defined.

Lemma X28_witness :
  Server.readResource Sample.api "lakehouse://nowhere"
  = Threw (ErrorInstance "Error"
             ("Failed to read resource lakehouse://nowhere: "
              +:+ "Invalid resource URI format: lakehouse://nowhere")).
Proof.
  pose proof (X28_read_handler_names_the_uri Sample.api "lakehouse://nowhere") as Hread.
  destruct (Server.readResource Sample.api "lakehouse://nowhere") as [answer|e] eqn:Hrun.
  - discriminate Hrun.
  - destruct Hread as (reason & -> & Hreason). rewrite Hreason; [reflexivity|].
    intros p Hp. apply parsed_as_parse in Hp. discriminate Hp.
Defined.

Lemma X29_witness :
  exists client,
    Server.client_of
      (Some {| Server.config_apiKey := Some ""; Server.config_baseUrl := None;
               Server.config_timeout := None |})
      (fun name => if String.eqb name "LAKEHOUSE42_API_KEY" then Some "secret" else None)
    = Done client
    /\ Api.client_apiKey client = "secret"
    /\ Api.client_baseUrl client = "https://api.lakehouse42.com".
Proof.
  destruct (X29_createServer_needs_a_key
              (Some {| Server.config_apiKey := Some ""; Server.config_baseUrl := None;
                       Server.config_timeout := None |})
              (fun name => if String.eqb name "LAKEHOUSE42_API_KEY" then Some "secret"
                           else None)) as [_ Hkey].
  destruct (Hkey "secret") as (client & Hrun & Hk & _ & Hbase & _).
  - right. split; reflexivity.
  - exists client. split; [exact Hrun|]. split; [exact Hk|]. apply Hbase; reflexivity.
Defined.
